(** * TinyLink: link resolution and click accounting

    A shallow embedding of the URL shortener's validation helpers
    ([src/lib/validation.ts]), code generator ([src/lib/utils.ts]), table
    schema ([src/lib/schema.ts]) and route handlers
    ([src/app/api/links/route.ts], [src/app/api/links/[code]/route.ts],
    [src/app/[code]/route.ts]), together with the properties the
    specification states about them. *)

From Stdlib Require Import String Ascii List ZArith Lia Bool Arith PeanoNat.
From Stdlib Require Import DecimalString.
From Stdlib Require Import Sorting.Permutation Sorting.Sorted.
Import ListNotations.

Local Open Scope string_scope.
Local Open Scope list_scope.
Local Open Scope nat_scope.

(** ** JavaScript string primitives

    Strings are sequences of code units; the embedding keeps the code units
    0..255, which cover the alphabet, the separators and the white space the
    handlers can tell apart. *)

Module Js.

(** [WhiteSpace] and [LineTerminator] code units stripped by
    [String.prototype.trim]: TAB, LF, VT, FF, CR, SP and NBSP. *)
Definition isWhiteSpace (c : ascii) : bool :=
  let n := nat_of_ascii c in
  ((9 <=? n) && (n <=? 13)) || (n =? 32) || (n =? 160).

Fixpoint trimStart (s : string) : string :=
  match s with
  | EmptyString => EmptyString
  | String c r => if isWhiteSpace c then trimStart r else s
  end.

(** [trimEnd] keeps a character when it is not white space or when something
    that is not white space follows it. *)
Fixpoint trimEnd (s : string) : string :=
  match s with
  | EmptyString => EmptyString
  | String c r =>
      match trimEnd r with
      | EmptyString => if isWhiteSpace c then EmptyString else String c EmptyString
      | r' => String c r'
      end
  end.

Definition trim (s : string) : string := trimEnd (trimStart s).

(** Truthiness of a string value: only the empty string is falsy. *)
Definition truthy (s : string) : bool :=
  match s with EmptyString => false | _ => true end.

(** Truthiness of an optional string ([undefined] is falsy). *)
Definition truthy_opt (o : option string) : bool :=
  match o with None => false | Some s => truthy s end.

(** The string held by an optional value ([undefined] and [null] hold none). *)
Definition string_of (o : option string) : string :=
  match o with None => EmptyString | Some s => s end.

(** [s.includes(sub)]. *)
Fixpoint includes (s sub : string) : bool :=
  String.prefix sub s ||
  match s with
  | EmptyString => false
  | String _ r => includes r sub
  end.

(** [re.test(s)] for a regular expression of the shape [/^[cls]{lo,hi}$/]:
    every character is consumed by the class, between [lo] and [hi] times,
    and the match ends at the end of the input. *)
Fixpoint test_class_repeat (cls : ascii -> bool) (lo hi : nat) (s : string)
  {struct s} : bool :=
  match s with
  | EmptyString => lo =? 0
  | String c r =>
      match hi with
      | O => false
      | S hi' => cls c && test_class_repeat cls (Nat.pred lo) hi' r
      end
  end.

End Js.

(** ** Validation ([src/lib/validation.ts]) *)

(** [ValidationResult]: the [valid] flag and the optional [error] message. *)
Record ValidationResult : Type := mkValidation {
  valid : bool;
  error : option string
}.

Definition invalid (msg : string) : ValidationResult :=
  {| valid := false; error := Some msg |}.

Definition ok_result : ValidationResult :=
  {| valid := true; error := None |}.

(** The character class [[A-Za-z0-9]]. *)
Definition isAlnum (c : ascii) : bool :=
  let n := nat_of_ascii c in
  ((65 <=? n) && (n <=? 90)) || ((97 <=? n) && (n <=? 122)) || ((48 <=? n) && (n <=? 57)).

(** [codeRegex = /^[A-Za-z0-9]{6,8}$/]. *)
Definition codeRegex_test (code : string) : bool :=
  Js.test_class_repeat isAlnum 6 8 code.

Definition msg_code_required : string := "Code is required".
Definition msg_code_short : string := "Code must be at least 6 characters long".
Definition msg_code_long : string := "Code must be at most 8 characters long".
Definition msg_code_chars : string :=
  "Code can only contain letters (A-Z, a-z) and numbers (0-9)".

Definition validateCode (code : string) : ValidationResult :=
  if negb (Js.truthy code) || (String.length (Js.trim code) =? 0) then
    invalid msg_code_required
  else if negb (codeRegex_test code) then
    if String.length code <? 6 then invalid msg_code_short
    else if 8 <? String.length code then invalid msg_code_long
    else invalid msg_code_chars
  else ok_result.

(** A string is blank when nothing is left of it after trimming. *)
Definition blank (s : string) : Prop := Js.trim s = EmptyString.

(** Some character of the string lies outside [[A-Za-z0-9]]. *)
Definition has_bad_char (s : string) : Prop :=
  Exists (fun c => isAlnum c = false) (list_ascii_of_string s).

(** ** Schema ([src/lib/schema.ts]) *)

(** Timestamps are instants, in milliseconds. *)
Definition Timestamp : Type := Z.
Bind Scope Z_scope with Timestamp.

(** A row of the [links] table.  [id] and [totalClicks] are integers; that
    they fit their [integer] column is checked when a statement is
    executed. *)
Record Link : Type := mkLink {
  id : Z;
  code : string;
  targetUrl : string;
  totalClicks : Z;
  lastClickedAt : option Timestamp;
  createdAt : Timestamp
}.

(** The table, in insertion order, and the next value of the [serial]
    sequence behind [id]. *)
Record Store : Type := mkStore {
  rows : list Link;
  nextId : Z
}.

(** An error object, as far as the handlers look at it. *)
Record JsError : Type := mkError { message : string }.

(** The values an [integer] column ([id], [total_clicks]) holds. *)
Definition int4_min : Z := -2147483648.
Definition int4_max : Z := 2147483647.

Definition in_int4 (n : Z) : bool := (int4_min <=? n)%Z && (n <=? int4_max)%Z.

(** Text the engine takes as a value or as a parameter: it holds no code
    unit 0. *)
Fixpoint text_ok (s : string) : bool :=
  match s with
  | EmptyString => true
  | String ch r => negb (Ascii.eqb ch Ascii.zero) && text_ok r
  end.

(** ** Queries

    The statements the handlers send to the database.  Each one is executed
    by the storage engine as one indivisible step. *)
Inductive Query : Type :=
| SelectByCode (c : string)
    (** [db.select().from(links).where(eq(links.code, c)).limit(1)] *)
| SelectOrderByCreatedAt
    (** [db.select().from(links).orderBy(links.createdAt)] *)
| UpdateClicks (c : string) (now : Timestamp)
    (** [db.update(links).set({ totalClicks: sql`${links.totalClicks} + 1`,
        lastClickedAt: now }).where(eq(links.code, c))] *)
| UpdateSetClicks (c : string) (clicks : Z) (now : Timestamp)
    (** [db.update(links).set({ totalClicks: clicks, lastClickedAt: now })
        .where(eq(links.code, c))]: the read-then-write form the redirect
        route's closing comment warns against *)
| InsertValues (c url : string) (clicks : Z) (last : option Timestamp) (created : Timestamp)
    (** [db.insert(links).values({ code: c, targetUrl: url, totalClicks,
        lastClickedAt }).returning()]; [created] is what [defaultNow()]
        reads when the row is inserted *)
| DeleteWhere (c : string)
    (** [db.delete(links).where(eq(links.code, c))] *).

Definition code_eqb (c : string) (r : Link) : bool := String.eqb (code r) c.

(** The update expression of the redirect route, applied to one row; the
    statement is refused when the sum does not fit the column. *)
Definition click (c : string) (now : Timestamp) (r : Link) : Link :=
  if code_eqb c r then
    {| id := id r; code := code r; targetUrl := targetUrl r;
       totalClicks := totalClicks r + 1;
       lastClickedAt := Some now; createdAt := createdAt r |}
  else r.

Definition set_clicks (c : string) (clicks : Z) (now : Timestamp) (r : Link) : Link :=
  if code_eqb c r then
    {| id := id r; code := code r; targetUrl := targetUrl r;
       totalClicks := clicks;
       lastClickedAt := Some now; createdAt := createdAt r |}
  else r.

(** The row a lookup by code finds, if any ([findByCode] of the
    specification). *)
Definition findByCode (c : string) (s : Store) : option Link :=
  find (code_eqb c) (rows s).

(** ** Refused statements

    Why the engine refuses a statement: a text value or parameter holds code
    unit 0; an integer does not fit its column, or the sequence behind [id]
    has run out; a code does not fit [varchar(8)]; the unique constraint
    [.unique()] declares on [code] is violated. *)
Inductive Refusal : Type :=
| InvalidText
| OutOfRange
| TooLong
| UniqueViolation.

(** A row of code [c] whose click count is at the top of its range. *)
Definition overflows (c : string) (r : Link) : bool :=
  code_eqb c r && (int4_max <=? totalClicks r)%Z.

(** Whether the engine refuses statement [q] on table [s], and why.
    Parameters are checked when they are bound, the sequence when the row is
    formed, the constraint when the row is stored. *)
Definition refusal (q : Query) (s : Store) : option Refusal :=
  match q with
  | SelectByCode c =>
      if text_ok c then None else Some InvalidText
  | SelectOrderByCreatedAt => None
  | UpdateClicks c now =>
      if negb (text_ok c) then Some InvalidText
      else if existsb (overflows c) (rows s) then Some OutOfRange
      else None
  | UpdateSetClicks c clicks now =>
      if negb (text_ok c) then Some InvalidText
      else if negb (in_int4 clicks) then Some OutOfRange
      else None
  | InsertValues c url clicks last created =>
      if negb (text_ok c && text_ok url) then Some InvalidText
      else if negb (in_int4 clicks) then Some OutOfRange
      else if (int4_max <? nextId s)%Z then Some OutOfRange
      else if 8 <? String.length c then Some TooLong
      else if existsb (code_eqb c) (rows s) then Some UniqueViolation
      else None
  | DeleteWhere c =>
      if text_ok c then None else Some InvalidText
  end.

(** The table after a refused statement: its rows are as they were; an
    insert refused once its row was formed has drawn its [id] from the
    sequence. *)
Definition after_refusal (q : Query) (why : Refusal) (s : Store) : Store :=
  match q, why with
  | InsertValues _ _ _ _ _, (TooLong | UniqueViolation) =>
      {| rows := rows s; nextId := (nextId s + 1)%Z |}
  | _, _ => s
  end.

(** ** Handler programs

    An [async] function is a tree of awaited statements: it returns, throws,
    or awaits a statement and goes on with its outcome. *)
Inductive Prog (A : Type) : Type :=
| Ret (a : A)
| Throw (e : JsError)
| Await (q : Query) (k : JsError + list Link -> Prog A).

Arguments Ret {A} a.
Arguments Throw {A} e.
Arguments Await {A} q k.

Fixpoint bind {A B : Type} (m : Prog A) (f : A -> Prog B) : Prog B :=
  match m with
  | Ret a => f a
  | Throw e => Throw e
  | Await q k => Await q (fun r => bind (k r) f)
  end.

(** [try { m } catch (error) { h error }]. *)
Fixpoint try_catch {A : Type} (m : Prog A) (h : JsError -> Prog A) : Prog A :=
  match m with
  | Ret a => Ret a
  | Throw e => h e
  | Await q k => Await q (fun r => try_catch (k r) h)
  end.

(** [await db. ...]: a rejected statement throws. *)
Definition await (q : Query) : Prog (list Link) :=
  Await q (fun r => match r with inl e => Throw e | inr v => Ret v end).

Notation "x <- m ;; k" := (bind m (fun x => k))
  (at level 61, m at next level, right associativity).

(** [l] with [x] in place of its element at index [i]. *)
Fixpoint set_nth {A : Type} (i : nat) (x : A) (l : list A) : list A :=
  match l, i with
  | [], _ => []
  | _ :: l', O => x :: l'
  | y :: l', S i' => y :: set_nth i' x l'
  end.

(** The response of a finished request. *)
Definition finished {A : Type} (m : Prog A) : option A :=
  match m with Ret a => Some a | _ => None end.

(** ** Code generator ([src/lib/utils.ts]) *)

Definition alphabet : string :=
  "ABCDEFGHIJKLMNOPQRSTUVWXYZabcdefghijklmnopqrstuvwxyz0123456789".

(** nanoid's [customAlphabet(alphabet, size)]: [size] symbols, each taken from
    [alphabet] at a random index.  The random indices come from a stream of
    draws [rng], read from position [pos] on and reduced to the alphabet's
    range. *)
Fixpoint customAlphabet (alphabet : string) (size : nat) (rng : nat -> nat) (pos : nat)
  : string :=
  match size with
  | O => EmptyString
  | S size' =>
      match String.get (rng pos mod String.length alphabet) alphabet with
      | Some ch => String ch (customAlphabet alphabet size' rng (S pos))
      | None => customAlphabet alphabet size' rng (S pos)
      end
  end.

Definition generateShortCode (rng : nat -> nat) (pos : nat) : string :=
  let nanoid := customAlphabet alphabet 6 in
  nanoid rng pos.

(** The loop of [generateUniqueShortCode], with [remaining] attempts to go;
    every call of [generateShortCode] reads the next six draws. *)
Fixpoint generateUniqueShortCode_loop (checkExists : string -> Prog bool)
  (remaining : nat) (rng : nat -> nat) (pos : nat) : Prog (option string) :=
  match remaining with
  | O => Ret None
  | S remaining' =>
      let code := generateShortCode rng pos in
      exists_ <- checkExists code ;;
      if negb exists_ then Ret (Some code)
      else generateUniqueShortCode_loop checkExists remaining' rng (pos + 6)
  end.

(** [maxAttempts] is optional and defaults to 3; the loop runs for
    [attempt = 1 .. maxAttempts]. *)
Definition generateUniqueShortCode (checkExists : string -> Prog bool)
  (maxAttempts : option Z) (rng : nat -> nat) : Prog (option string) :=
  let maxAttempts := match maxAttempts with Some n => n | None => 3%Z end in
  generateUniqueShortCode_loop checkExists (Z.to_nat maxAttempts) rng 0.

(** The [k]-th candidate the loop generates, counting from 0. *)
Definition candidate (rng : nat -> nat) (k : nat) : string :=
  generateShortCode rng (6 * k).

(** ** Responses *)

Module Serialized.
Record SerializedLink : Type := mkSerialized {
  id : Z;
  code : string;
  targetUrl : string;
  totalClicks : Z;
  lastClickedAt : option string;
  createdAt : string
}.
End Serialized.

Inductive JsonBody : Type :=
| JError (error : option string)
| JLink (link : Serialized.SerializedLink)
| JLinks (links : list Serialized.SerializedLink)
| JDeleted (message code : string).

(** [NextResponse.json(body, { status })], [new Response(text, { status })]
    and [NextResponse.redirect(url, { status })]. *)
Inductive Response : Type :=
| json (body : JsonBody) (status : Z)
| text (body : string) (status : Z)
| redirect (url : string) (status : Z).

Definition status_of (r : Response) : Z :=
  match r with
  | json _ st => st
  | text _ st => st
  | redirect _ st => st
  end.

(** [CreateLinkRequest]: the parsed body of [POST /api/links]. *)
Record CreateLinkRequest : Type := mkRequest {
  req_targetUrl : string;
  req_customCode : option string
}.

(** A value of a JSON body.  The handlers only test a value that is not a
    string for truthiness, and call a [trim] method it does not have: numbers
    are kept as integers (zero or not), and objects and arrays are one
    case. *)
Inductive JsValue : Type :=
| JsUndefined
| JsNull
| JsBoolean (b : bool)
| JsNumber (n : Z)
| JsString (s : string)
| JsObject.

Definition JsValue_truthy (v : JsValue) : bool :=
  match v with
  | JsUndefined | JsNull => false
  | JsBoolean b => b
  | JsNumber n => negb (n =? 0)%Z
  | JsString s => Js.truthy s
  | JsObject => true
  end.

(** The body of a request as it arrives: text that is not JSON, which
    [request.json()] rejects with [error]; the JSON value [null]; or any
    other JSON value, with what its fields [targetUrl] and [customCode] hold
    ([undefined] when it has none such). *)
Inductive RequestBody : Type :=
| NotJson (error : JsError)
| JsonNull
| JsonValue (targetUrl customCode : JsValue).

(** A body of the declared type, as it arrives. *)
Definition JsValue_of (o : option string) : JsValue :=
  match o with Some s => JsString s | None => JsUndefined end.

Definition body_of (body : CreateLinkRequest) : RequestBody :=
  JsonValue (JsString (req_targetUrl body)) (JsValue_of (req_customCode body)).

(** The fields of a body that has passed validation: [targetUrl] is a
    string, and [customCode] is a string or falsy. *)
Definition as_CreateLinkRequest (targetUrl customCode : JsValue) : CreateLinkRequest :=
  {| req_targetUrl := match targetUrl with JsString s => s | _ => EmptyString end;
     req_customCode := match customCode with JsString s => Some s | _ => None end |}.

(** [const body = await request.json(); const { targetUrl, customCode } =
    body]. *)
Definition request_json (request : RequestBody) : Prog (JsValue * JsValue) :=
  match request with
  | NotJson error => Throw error
  | JsonNull =>
      Throw {| message :=
        "Cannot destructure property 'targetUrl' of 'body' as it is null." |}
  | JsonValue targetUrl customCode => Ret (targetUrl, customCode)
  end.

Definition msg_url_required : string := "URL is required".
Definition msg_url_format : string :=
  "Invalid URL format. Must start with http:// or https://".
Definition msg_url_long : string := "URL is too long (max 2048 characters)".

Section Service.

(** What the database layer decides and the handlers do not see into:
    [error.message] of the error a refused statement is rejected with (the
    engine's own text, or the driver's wrapping of it), and which of two rows
    of equal [createdAt] the engine returns first, which [ORDER BY] leaves
    open. *)
Variable error_message : Query -> Refusal -> string.
Variable tie_first : Link -> Link -> bool.

Definition refused (q : Query) (why : Refusal) : JsError :=
  {| message := error_message q why |}.

(** [ORDER BY created_at] (ascending is the default direction). *)
Definition sorts_before (r x : Link) : bool :=
  (createdAt r <? createdAt x)%Z || ((createdAt r =? createdAt x)%Z && tie_first r x).

Fixpoint insert_by_createdAt (r : Link) (l : list Link) : list Link :=
  match l with
  | [] => [r]
  | x :: l' =>
      if sorts_before r x then r :: x :: l'
      else x :: insert_by_createdAt r l'
  end.

Fixpoint orderBy_createdAt (l : list Link) : list Link :=
  match l with
  | [] => []
  | r :: l' => insert_by_createdAt r (orderBy_createdAt l')
  end.

(** Execution of one statement: the rows it returns (or the error it is
    rejected with) and the table afterwards. *)
Definition exec (q : Query) (s : Store) : (JsError + list Link) * Store :=
  match refusal q s with
  | Some why => (inl (refused q why), after_refusal q why s)
  | None =>
      match q with
      | SelectByCode c =>
          (inr (firstn 1 (filter (code_eqb c) (rows s))), s)
      | SelectOrderByCreatedAt =>
          (inr (orderBy_createdAt (rows s)), s)
      | UpdateClicks c now =>
          (inr [], {| rows := map (click c now) (rows s); nextId := nextId s |})
      | UpdateSetClicks c clicks now =>
          (inr [], {| rows := map (set_clicks c clicks now) (rows s);
                      nextId := nextId s |})
      | InsertValues c url clicks last created =>
          let row := {| id := nextId s; code := c; targetUrl := url;
                        totalClicks := clicks; lastClickedAt := last;
                        createdAt := created |} in
          (inr [row], {| rows := rows s ++ [row]; nextId := (nextId s + 1)%Z |})
      | DeleteWhere c =>
          (inr [], {| rows := filter (fun r => negb (code_eqb c r)) (rows s);
                      nextId := nextId s |})
      end
  end.

(** A request served alone, from the first statement to the response. *)
Fixpoint run {A : Type} (m : Prog A) (s : Store) : (JsError + A) * Store :=
  match m with
  | Ret a => (inr a, s)
  | Throw e => (inl e, s)
  | Await q k => let (r, s') := exec q s in run (k r) s'
  end.

(** One statement of a request: what is left of the request, and the table. *)
Definition step {A : Type} (m : Prog A) (s : Store) : Prog A * Store :=
  match m with
  | Await q k => let (r, s') := exec q s in (k r, s')
  | _ => (m, s)
  end.

(** Requests in flight together.  A schedule names, step by step, the request
    whose next statement the database executes. *)
Definition step_pool {A : Type} (i : nat) (pool : list (Prog A)) (s : Store)
  : list (Prog A) * Store :=
  match nth_error pool i with
  | None => (pool, s)
  | Some m => let (m', s') := step m s in (set_nth i m' pool, s')
  end.

Fixpoint run_schedule {A : Type} (sched : list nat) (pool : list (Prog A)) (s : Store)
  : list (Prog A) * Store :=
  match sched with
  | [] => (pool, s)
  | i :: sched' => let (pool', s') := step_pool i pool s in run_schedule sched' pool' s'
  end.



(** What the handlers take from outside: [validator.isURL(url, { protocols:
    ['http', 'https'], require_protocol: true, require_valid_protocol: true
    })], [Date.prototype.toISOString], and [new URL(url).href], which is
    absent when [new URL(url)] throws. *)
Variable isURL : string -> bool.
Variable toISOString : Timestamp -> string.
Variable URL_href : string -> option string.

Definition validateUrl (url : string) : ValidationResult :=
  if negb (Js.truthy url) || (String.length (Js.trim url) =? 0) then
    invalid msg_url_required
  else if negb (isURL url) then invalid msg_url_format
  else if 2048 <? String.length url then invalid msg_url_long
  else ok_result.

Definition validateCreateLinkRequest (targetUrl : string) (customCode : option string)
  : ValidationResult :=
  let urlValidation := validateUrl targetUrl in
  if negb (valid urlValidation) then urlValidation
  else if Js.truthy_opt customCode then
    let codeValidation := validateCode (Js.string_of customCode) in
    if negb (valid codeValidation) then codeValidation else ok_result
  else ok_result.

(** The validation functions on a value that need not be a string: a falsy
    value is reported as required before [trim] is called, and [trim] is not
    a function of a truthy value that is not a string. *)
Definition validateUrl_any (url : JsValue) : Prog ValidationResult :=
  match url with
  | JsString s => Ret (validateUrl s)
  | _ =>
      if negb (JsValue_truthy url) then Ret (invalid msg_url_required)
      else Throw {| message := "url.trim is not a function" |}
  end.

Definition validateCode_any (code : JsValue) : Prog ValidationResult :=
  match code with
  | JsString s => Ret (validateCode s)
  | _ =>
      if negb (JsValue_truthy code) then Ret (invalid msg_code_required)
      else Throw {| message := "code.trim is not a function" |}
  end.

Definition validateCreateLinkRequest_any (targetUrl customCode : JsValue)
  : Prog ValidationResult :=
  urlValidation <- validateUrl_any targetUrl ;;
  if negb (valid urlValidation) then Ret urlValidation
  else if JsValue_truthy customCode then
    codeValidation <- validateCode_any customCode ;;
    if negb (valid codeValidation) then Ret codeValidation else Ret ok_result
  else Ret ok_result.

Definition serializeLink (link : Link) : Serialized.SerializedLink :=
  {| Serialized.id := id link;
     Serialized.code := code link;
     Serialized.targetUrl := targetUrl link;
     Serialized.totalClicks := totalClicks link;
     Serialized.lastClickedAt := option_map toISOString (lastClickedAt link);
     Serialized.createdAt := toISOString (createdAt link) |}.

Definition serializeLinks (links : list Link) : list Serialized.SerializedLink :=
  map serializeLink links.

(** *** [POST /api/links] and [GET /api/links] ([src/app/api/links/route.ts]) *)

(** The existence check the route hands to [generateUniqueShortCode]. *)
Definition checkExists_db (code : string) : Prog bool :=
  existing <- await (SelectByCode code) ;;
  Ret (0 <? List.length existing).

(** Steps 3 to 6 of the route, on a body that has passed validation.  The
    response object of Step 5 has the fields [serializeLink] builds; [now] is
    the clock the request reads and [rng] the random draws it consumes. *)
Definition POST_steps (body : CreateLinkRequest) (now : Timestamp) (rng : nat -> nat)
  : Prog Response :=
  let targetUrl := req_targetUrl body in
  let customCode := req_customCode body in
  (* Step 3: an early response, or the code to use *)
  step3 <-
    (if Js.truthy_opt customCode then
       existingLink <- await (SelectByCode (Js.string_of customCode)) ;;
       if 0 <? List.length existingLink then
         Ret (inl (json (JError (Some "Code already exists")) 409))
       else Ret (inr (Js.string_of customCode))
     else
       generatedCode <- generateUniqueShortCode checkExists_db None rng ;;
       if negb (Js.truthy_opt generatedCode) then
         Ret (inl (json (JError
                (Some "Failed to generate unique code. Please try again.")) 500))
       else Ret (inr (Js.string_of generatedCode))) ;;
  match step3 with
  | inl response => Ret response
  | inr codeToUse =>
      newLink <- await (InsertValues codeToUse targetUrl 0 None now) ;;
      match newLink with
      | link :: _ => Ret (json (JLink (serializeLink link)) 201)
      | [] => Throw {| message :=
                "Cannot read properties of undefined (reading 'id')" |}
      end
  end.

(** The [catch] block of the route. *)
Definition POST_catch (error : JsError) : Prog Response :=
  if Js.includes (message error) "unique" then
    Ret (json (JError (Some "Code already exists")) 409)
  else
    Ret (json (JError (Some "Internal server error")) 500).

(** The route on a body of the declared type [CreateLinkRequest]. *)
Definition POST (body : CreateLinkRequest) (now : Timestamp) (rng : nat -> nat)
  : Prog Response :=
  try_catch
    (let targetUrl := req_targetUrl body in
     let customCode := req_customCode body in
     let validation := validateCreateLinkRequest targetUrl customCode in
     if negb (valid validation) then
       Ret (json (JError (error validation)) 400)
     else POST_steps body now rng)
    POST_catch.

(** The route on whatever body arrives. *)
Definition POST_request (request : RequestBody) (now : Timestamp) (rng : nat -> nat)
  : Prog Response :=
  try_catch
    (body <- request_json request ;;
     let targetUrl := fst body in
     let customCode := snd body in
     validation <- validateCreateLinkRequest_any targetUrl customCode ;;
     if negb (valid validation) then
       Ret (json (JError (error validation)) 400)
     else POST_steps (as_CreateLinkRequest targetUrl customCode) now rng)
    POST_catch.

Definition GET_links : Prog Response :=
  try_catch
    (allLinks <- await SelectOrderByCreatedAt ;;
     let serializedLinks := serializeLinks allLinks in
     Ret (json (JLinks serializedLinks) 200))
    (fun error => Ret (json (JError (Some "Internal server error")) 500)).

(** *** [GET /api/links/:code] and [DELETE /api/links/:code]
    ([src/app/api/links/[code]/route.ts]) *)

Definition GET_link (code : string) : Prog Response :=
  try_catch
    (link <- await (SelectByCode code) ;;
     match link with
     | [] => Ret (json (JError (Some "Link not found")) 404)
     | foundLink :: _ => Ret (json (JLink (serializeLink foundLink)) 200)
     end)
    (fun error => Ret (json (JError (Some "Internal server error")) 500)).

Definition DELETE_link (code : string) : Prog Response :=
  try_catch
    (existingLink <- await (SelectByCode code) ;;
     match existingLink with
     | [] => Ret (json (JError (Some "Link not found")) 404)
     | _ :: _ =>
         _ <- await (DeleteWhere code) ;;
         Ret (json (JDeleted "Link deleted successfully" code) 200)
     end)
    (fun error => Ret (json (JError (Some "Internal server error")) 500)).

(** *** [GET /:code] ([src/app/[code]/route.ts]) *)

(** [NextResponse.redirect(url, { status })]: the [Location] of the response
    is [new URL(url)] written out, and a [url] that [new URL] does not parse
    makes the call throw. *)
Definition NextResponse_redirect (url : string) (status : Z) : Prog Response :=
  match URL_href url with
  | Some href => Ret (redirect href status)
  | None => Throw {| message := "Invalid URL" |}
  end.

Definition GET_redirect (code : string) (now : Timestamp) : Prog Response :=
  try_catch
    (link <- await (SelectByCode code) ;;
     match link with
     | [] => Ret (text "Not Found" 404)
     | link0 :: _ =>
         _ <- await (UpdateClicks code now) ;;
         NextResponse_redirect (targetUrl link0) 302
     end)
    (fun error => Ret (text "Internal Server Error" 500)).

(** The read-then-write redirect the route's closing comment calls the wrong
    way: the new count is computed in the handler from the row it read. *)
Definition GET_redirect_read_then_write (code : string) (now : Timestamp)
  : Prog Response :=
  try_catch
    (link <- await (SelectByCode code) ;;
     match link with
     | [] => Ret (text "Not Found" 404)
     | link0 :: _ =>
         let newCount := (totalClicks link0 + 1)%Z in
         _ <- await (UpdateSetClicks code newCount now) ;;
         NextResponse_redirect (targetUrl link0) 302
     end)
    (fun error => Ret (text "Internal Server Error" 500)).

(** *** The service: one operation per request *)

Inductive Request : Type :=
| CreateLink (request : RequestBody) (rng : nat -> nat)
| ListLinks
| GetLink (code : string)
| DeleteLink (code : string)
| ResolveAndRedirect (code : string).

Definition handler (req : Request) (now : Timestamp) : Prog Response :=
  match req with
  | CreateLink request rng => POST_request request now rng
  | ListLinks => GET_links
  | GetLink c => GET_link c
  | DeleteLink c => DELETE_link c
  | ResolveAndRedirect c => GET_redirect c now
  end.

(** A request served alone: its response and the table it leaves. *)
Definition serve (req : Request) (now : Timestamp) (s : Store)
  : (JsError + Response) * Store :=
  run (handler req now) s.

(** *** What the handlers leave behind *)

(** The row an insert of [c] and [url] creates in table [s] at time [now]. *)
Definition new_link (s : Store) (c url : string) (now : Timestamp) : Link :=
  {| id := nextId s; code := c; targetUrl := url; totalClicks := 0;
     lastClickedAt := None; createdAt := now |}.

(** Table [s] with row [r] inserted. *)
Definition with_row (s : Store) (r : Link) : Store :=
  {| rows := rows s ++ [r]; nextId := (nextId s + 1)%Z |}.

(** Whether a row with code [c] exists. *)
Definition code_exists (c : string) (s : Store) : bool :=
  match findByCode c s with Some _ => true | None => false end.

(** The fields of a row that no statement of the redirect route assigns. *)
Definition same_identity (r r' : Link) : Prop :=
  id r' = id r /\ code r' = code r /\ targetUrl r' = targetUrl r /\
  createdAt r' = createdAt r.

Definition conflict_response : Response :=
  json (JError (Some "Code already exists")) 409.

Definition exhausted_response : Response :=
  json (JError (Some "Failed to generate unique code. Please try again.")) 500.

Definition server_error_response : Response :=
  json (JError (Some "Internal server error")) 500.

(** The answer of the create route to an error it catches. *)
Definition catch_response (error : JsError) : Response :=
  if Js.includes (message error) "unique" then conflict_response
  else server_error_response.

(** The answer of the redirect route once the click is counted. *)
Definition redirect_response (url : string) : Response :=
  match URL_href url with
  | Some href => redirect href 302
  | None => text "Internal Server Error" 500
  end.

(** Why the insert of a well-formed code that no row holds is refused, if it
    is: the URL holds code unit 0, or the sequence behind [id] has run
    out. *)
Definition insert_refused (url : string) (s : Store) : option Refusal :=
  if negb (text_ok url) then Some InvalidText
  else if (int4_max <? nextId s)%Z then Some OutOfRange
  else None.

(** What the create route answers and leaves once it has settled on a
    well-formed code [c] that no row holds. *)
Definition insert_outcome (c url : string) (now : Timestamp) (s : Store)
  : (JsError + Response) * Store :=
  match insert_refused url s with
  | Some why =>
      (inr (catch_response (refused (InsertValues c url 0 None now) why)), s)
  | None =>
      (inr (json (JLink (serializeLink (new_link s c url now))) 201),
       with_row s (new_link s c url now))
  end.

(** Every row of code [c] can take [n] more clicks. *)
Definition room_for (c : string) (n : Z) (s : Store) : Prop :=
  Forall (fun r => code r = c -> (totalClicks r + n <= int4_max)%Z) (rows s).

(** Whether a request has answered with status [st], and the number of
    requests of a pool that have. *)
Definition answered (st : Z) (m : Prog Response) : bool :=
  match finished m with
  | Some resp => (status_of resp =? st)%Z
  | None => false
  end.

Definition count_status (st : Z) (pool : list (Prog Response)) : nat :=
  List.length (filter (answered st) pool).

(** The order of the list route. *)
Definition created_le (a b : Link) : Prop := (createdAt a <= createdAt b)%Z.

(** The row [l] after one click at time [now]. *)
Definition clicked (now : Timestamp) (l : Link) : Link :=
  {| id := id l; code := code l; targetUrl := targetUrl l;
     totalClicks := totalClicks l + 1;
     lastClickedAt := Some now; createdAt := createdAt l |}.

(** *** Requests in flight

    A redirect request for code [c] somewhere along its execution, with the
    number of statements it has yet to run: the lookup and the update (2), the
    update (1), or none, [redirect_response url] being its answer. *)
Inductive clicker (c url : string) : Prog Response -> nat -> Prop :=
| clicker_done :
    clicker c url (Ret (redirect_response url)) 0
| clicker_update now k :
    clicker c url (k (inr [])) 0 ->
    clicker c url (Await (UpdateClicks c now) k) 1
| clicker_lookup k :
    (forall l, code l = c -> targetUrl l = url -> clicker c url (k (inr [l])) 1) ->
    clicker c url (Await (SelectByCode c) k) 2.

(** The statements left to each request after request [i] has run one. *)
Definition advance (phases : list nat) (i : nat) : list nat :=
  match nth_error phases i with
  | Some p => set_nth i (Nat.pred p) phases
  | None => phases
  end.

(** Requests that have not run their update yet. *)
Definition pending (phases : list nat) : nat :=
  List.length (filter (fun p => negb (p =? 0)) phases).

(** A create request for the custom code [c] somewhere along its execution:
    answered, about to insert (only an accepted insert is answered 201), or
    about to look the code up. *)
Inductive creator (c : string) : Prog Response -> Prop :=
| creator_done resp :
    In (status_of resp) [201; 400; 409; 500]%Z ->
    creator c (Ret resp)
| creator_insert url now k :
    (forall e, exists resp,
        k (inl e) = Ret resp /\ (status_of resp = 409%Z \/ status_of resp = 500%Z)) ->
    (forall row, exists resp, k (inr [row]) = Ret resp /\ status_of resp = 201%Z) ->
    creator c (Await (InsertValues c url 0%Z None now) k)
| creator_check k :
    (forall found, creator c (k found)) ->
    (forall found, answered 201 (k found) = false) ->
    creator c (Await (SelectByCode c) k).

(** Create requests that all carry the custom code [c], each with its target
    URL, its clock and its random draws. *)
Definition create_requests (c : string) (reqs : list (string * Timestamp * (nat -> nat)))
  : list (Prog Response) :=
  map (fun r => POST {| req_targetUrl := fst (fst r); req_customCode := Some c |}
                     (snd (fst r)) (snd r)) reqs.

(** No two rows of the table share a code. *)
Definition unique_codes (s : Store) : Prop := NoDup (map code (rows s)).

(** *** Sample data *)

Definition example_link : Link :=
  {| id := 1; code := "abc123"; targetUrl := "https://example.com";
     totalClicks := 0; lastClickedAt := None; createdAt := 1000 |}.

Definition example_store : Store := {| rows := [example_link]; nextId := 2 |}.

Definition empty_store : Store := {| rows := []; nextId := 1 |}.

(** Draws 0, 1, 2, ...: the candidates are ["ABCDEF"], ["GHIJKL"],
    ["MNOPQR"], ... *)
Definition example_rng : nat -> nat := fun n => n.

(** A table in which the first three candidates of [example_rng] are taken. *)
Definition crowded_store : Store :=
  {| rows := [ {| id := 1; code := "ABCDEF"; targetUrl := "https://a.example";
                  totalClicks := 0; lastClickedAt := None; createdAt := 1 |};
               {| id := 2; code := "GHIJKL"; targetUrl := "https://b.example";
                  totalClicks := 0; lastClickedAt := None; createdAt := 2 |};
               {| id := 3; code := "MNOPQR"; targetUrl := "https://c.example";
                  totalClicks := 0; lastClickedAt := None; createdAt := 3 |} ];
     nextId := 4 |}.

(** A table whose link has the highest click count its column holds. *)
Definition full_link : Link :=
  {| id := 1; code := "abc123"; targetUrl := "https://example.com";
     totalClicks := 2147483647; lastClickedAt := Some 1500%Z; createdAt := 1000 |}.

Definition full_store : Store := {| rows := [full_link]; nextId := 2 |}.

(** Stand-ins for the outside functions, for the sample runs. *)
Definition example_isURL (url : string) : bool :=
  String.prefix "http://" url || String.prefix "https://" url.

Definition example_toISOString (t : Timestamp) : string :=
  if (t =? 0)%Z then "1970-01-01T00:00:00.000Z" else "1970-01-01T00:00:01.000Z".

(** [new URL] adds the path to a URL that has none, and does not parse a host
    that is not valid punycode. *)
Definition example_URL_href (url : string) : option string :=
  if String.eqb url "http://xn--a.com" then None
  else if String.eqb url "https://example.com" then Some "https://example.com/"
  else if example_isURL url then Some url
  else None.

(** Two drivers: one hands on the engine's own message, the other reports
    every refused statement as a failed query and keeps the engine's message
    as the cause of the error. *)
Definition dquote : string := String (ascii_of_nat 34) EmptyString.

Definition engine_error_message (q : Query) (why : Refusal) : string :=
  match why with
  | InvalidText =>
      ("invalid byte sequence for encoding " ++ dquote ++ "UTF8" ++ dquote ++ ": 0x00")%string
  | OutOfRange => "integer out of range"
  | TooLong => "value too long for type character varying(8)"
  | UniqueViolation =>
      ("duplicate key value violates unique constraint "
       ++ dquote ++ "links_code_unique" ++ dquote)%string
  end.

Definition wrapped_error_message (q : Query) (why : Refusal) : string :=
  "Failed query".

(** Rows of equal [createdAt] in the order of their [id]. *)
Definition example_tie_first (r x : Link) : bool := (id r <? id x)%Z.

(** ** Display helpers ([src/lib/utils.ts], [src/components/LinkTable.tsx],
    [src/app/code/[code]/page.tsx]) *)

(** A number of the display code: an integer, or [NaN] ([None]), which is
    what the time of an unparseable date is. *)
Definition Num : Type := option Z.

(** [Math.floor(x / d)] for a positive integer [d]. *)
Definition num_floor_div (x : Num) (d : Z) : Num := option_map (fun v => (v / d)%Z) x.

(** [x < b] and [x === b]; both are false of [NaN]. *)
Definition num_lt (x : Num) (b : Z) : bool :=
  match x with Some v => (v <? b)%Z | None => false end.

Definition num_eq (x : Num) (b : Z) : bool :=
  match x with Some v => (v =? b)%Z | None => false end.

(** [`${x}`]. *)
Definition num_show (x : Num) : string :=
  match x with
  | Some v => NilZero.string_of_int (Z.to_int v)
  | None => "NaN"
  end.

(** [now - t]. *)
Definition num_elapsed (now : Z) (t : Num) : Num := option_map (fun v => (now - v)%Z) t.

(** [truncateUrl(url, maxLength = 50)]. *)
Definition truncateUrl (url : string) (maxLength : option Z) : string :=
  let maxLength := match maxLength with Some n => n | None => 50%Z end in
  if (Z.of_nat (String.length url) <=? maxLength)%Z then url
  else (String.substring 0 (Z.to_nat maxLength) url ++ "...")%string.

(** The copy of [truncateUrl] local to the links table. *)
Definition LinkTable_truncateUrl (url : string) (maxLength : option Z) : string :=
  let maxLength := match maxLength with Some n => n | None => 50%Z end in
  if (Z.of_nat (String.length url) <=? maxLength)%Z then url
  else (String.substring 0 (Z.to_nat maxLength) url ++ "...")%string.

(** The argument of [formatRelativeTime]: [null], a [Date] with its time
    value, or a string. *)
Inductive DateArg : Type :=
| DateNull
| DateObj (time : Num)
| DateStr (s : string).

(** [`${n} ${unit}${n === 1 ? '' : 's'} ago`]. *)
Definition units_ago (n : Num) (unit : string) : string :=
  (num_show n ++ " " ++ unit ++ (if num_eq n 1 then "" else "s") ++ " ago")%string.

(** [new Date(s).getTime()], and the two renderings by
    [Date.prototype.toLocaleDateString] the components use: the locale's
    default one and the long en-US one of the stats page. *)
Variable Date_parse : string -> Num.
Variable toLocaleDateString : Num -> string.
Variable toLocaleDateString_long : Num -> string.

(** [!date]. *)
Definition DateArg_falsy (date : DateArg) : bool :=
  match date with
  | DateNull => true
  | DateObj _ => false
  | DateStr s => negb (Js.truthy s)
  end.

(** [(typeof date === 'string' ? new Date(date) : date).getTime()]. *)
Definition DateArg_time (date : DateArg) : Num :=
  match date with
  | DateStr s => Date_parse s
  | DateObj t => t
  | DateNull => None
  end.

(** [formatRelativeTime] of [src/lib/utils.ts]; [now] is [Date.now()]. *)
Definition formatRelativeTime (date : DateArg) (now : Z) : string :=
  if DateArg_falsy date then "Never"
  else
    let dateObj := DateArg_time date in
    let seconds := num_floor_div (num_elapsed now dateObj) 1000 in
    if num_lt seconds 60 then "Just now"
    else
      let minutes := num_floor_div seconds 60 in
      if num_lt minutes 60 then units_ago minutes "minute"
      else
        let hours := num_floor_div minutes 60 in
        if num_lt hours 24 then units_ago hours "hour"
        else
          let days := num_floor_div hours 24 in
          if num_lt days 30 then units_ago days "day"
          else
            let months := num_floor_div days 30 in
            if num_lt months 12 then units_ago months "month"
            else
              let years := num_floor_div months 12 in
              units_ago years "year".

(** [formatDate] of the links table; [dateString] is the serialized
    [lastClickedAt]. *)
Definition LinkTable_formatDate (dateString : option string) (now : Z) : string :=
  if negb (Js.truthy_opt dateString) then "Never"
  else
    let date := Date_parse (Js.string_of dateString) in
    let diffMs := num_elapsed now date in
    let diffMins := num_floor_div diffMs 60000 in
    let diffHours := num_floor_div diffMs 3600000 in
    let diffDays := num_floor_div diffMs 86400000 in
    if num_lt diffMins 1 then "Just now"
    else if num_lt diffMins 60 then (num_show diffMins ++ "m ago")%string
    else if num_lt diffHours 24 then (num_show diffHours ++ "h ago")%string
    else if num_lt diffDays 30 then (num_show diffDays ++ "d ago")%string
    else toLocaleDateString date.

(** [formatDate] and [formatRelativeTime] of the stats page. *)
Definition StatsPage_formatDate (dateString : string) : string :=
  let date := Date_parse dateString in
  toLocaleDateString_long date.

Definition StatsPage_formatRelativeTime (dateString : option string) (now : Z) : string :=
  if negb (Js.truthy_opt dateString) then "Never"
  else
    let date := Date_parse (Js.string_of dateString) in
    let diffMs := num_elapsed now date in
    let diffMins := num_floor_div diffMs 60000 in
    let diffHours := num_floor_div diffMs 3600000 in
    let diffDays := num_floor_div diffMs 86400000 in
    if num_lt diffMins 1 then "Just now"
    else if num_lt diffMins 60 then units_ago diffMins "minute"
    else if num_lt diffHours 24 then units_ago diffHours "hour"
    else if num_lt diffDays 30 then units_ago diffDays "day"
    else StatsPage_formatDate (Js.string_of dateString).

(** ** The dashboard ([src/app/page.tsx], [src/components/AddLinkForm.tsx]) *)

(** The body [handleSubmit] sends to [POST /api/links]: both fields trimmed,
    and [customCode] left out ([undefined]) when nothing is left of it. *)
Definition AddLinkForm_body (targetUrl customCode : string) : CreateLinkRequest :=
  {| req_targetUrl := Js.trim targetUrl;
     req_customCode := if Js.truthy (Js.trim customCode)
                       then Some (Js.trim customCode) else None |}.

(** The state updates of the dashboard's list of links. *)
Definition handleLinkCreated (newLink : Serialized.SerializedLink)
  (prevLinks : list Serialized.SerializedLink) : list Serialized.SerializedLink :=
  newLink :: prevLinks.

Definition handleLinkDeleted (code : string)
  (prevLinks : list Serialized.SerializedLink) : list Serialized.SerializedLink :=
  filter (fun link => negb (String.eqb (Serialized.code link) code)) prevLinks.

(** ** Sequences of requests *)

(** Requests served one after the other, each at its time. *)
Definition serve_all (reqs : list (Request * Timestamp)) (s : Store) : Store :=
  fold_left (fun s r => snd (serve (fst r) (snd r) s)) reqs s.

(** Redirect requests for [c] served one after the other at [times]. *)
Definition redirects (c : string) (times : list Timestamp) (s : Store) : Store :=
  fold_left (fun s t => snd (run (GET_redirect c t) s)) times s.

(** What the list route returns on table [s]. *)
Definition listing (s : Store) : list Link := orderBy_createdAt (rows s).

(** A row as the routes leave it: its code has the format of a code, its
    click count is not negative, and it has a last click exactly when it has
    clicks. *)
Definition row_ok (r : Link) : Prop :=
  codeRegex_test (code r) = true /\
  (0 <= totalClicks r)%Z /\
  (lastClickedAt r = None <-> totalClicks r = 0%Z).

(** A string that is empty or starts with a character that is not white
    space. *)
Definition trimmed_start (s : string) : Prop :=
  match s with
  | EmptyString => True
  | String c _ => Js.isWhiteSpace c = false
  end.


(** Stand-ins for the date functions, for the sample runs: the parser reads
    back what [example_toISOString] writes. *)
Definition example_Date_parse (s : string) : Num :=
  if String.eqb s "1970-01-01T00:00:00.000Z" then Some 0%Z
  else if String.eqb s "1970-01-01T00:00:01.000Z" then Some 1000%Z
  else None.

Definition example_toLocaleDateString (t : Num) : string :=
  match t with Some _ => "1/1/1970" | None => "Invalid Date" end.
(** ** Lemmas on the string primitives *)

Lemma test_class_repeat_spec cls s : forall lo hi,
  Js.test_class_repeat cls lo hi s = true <->
  lo <= String.length s <= hi /\ Forall (fun c => cls c = true) (list_ascii_of_string s).
Proof.
  induction s as [|c r IH]; intros lo hi; simpl.
  - destruct lo; simpl; split; intros H.
    + split; [lia | constructor].
    + reflexivity.
    + discriminate.
    + destruct H as [H _]. lia.
  - destruct hi as [|hi'].
    + split; [discriminate | intros [H _]; lia].
    + rewrite andb_true_iff, IH. split.
      * intros [Hc [Hl Hf]]. split; [lia | constructor; assumption].
      * intros [Hl Hf]. inversion Hf; subst. repeat split; try assumption; lia.
Qed.

Lemma trimEnd_empty_all_space s :
  Js.trimEnd s = EmptyString ->
  Forall (fun c => Js.isWhiteSpace c = true) (list_ascii_of_string s).
Proof.
  induction s as [|c r IH]; simpl; intros H.
  - constructor.
  - destruct (Js.trimEnd r) eqn:E; [|discriminate].
    destruct (Js.isWhiteSpace c) eqn:W; [|discriminate].
    constructor; auto.
Qed.

Lemma trim_empty_all_space s :
  Js.trim s = EmptyString ->
  Forall (fun c => Js.isWhiteSpace c = true) (list_ascii_of_string s).
Proof.
  unfold Js.trim. induction s as [|c r IH]; simpl; intros H.
  - constructor.
  - destruct (Js.isWhiteSpace c) eqn:W.
    + constructor; auto.
    + apply trimEnd_empty_all_space in H. simpl in H.
      inversion H; subst. congruence.
Qed.

Lemma isAlnum_not_space c : isAlnum c = true -> Js.isWhiteSpace c = false.
Proof.
  unfold isAlnum, Js.isWhiteSpace. cbv zeta.
  generalize (nat_of_ascii c). intros n H.
  repeat rewrite orb_true_iff in H. repeat rewrite andb_true_iff in H.
  repeat rewrite Nat.leb_le in H.
  apply orb_false_iff; split; [apply orb_false_iff; split|].
  - apply andb_false_iff.
    destruct (Nat.leb_spec 9 n); [right | left; reflexivity].
    apply Nat.leb_gt. lia.
  - apply Nat.eqb_neq. lia.
  - apply Nat.eqb_neq. lia.
Qed.

Lemma length_zero_empty s : String.length s = 0 -> s = EmptyString.
Proof. destruct s; simpl; [reflexivity | discriminate]. Qed.

Lemma blank_not_regex s : blank s -> codeRegex_test s = false.
Proof.
  intros Hb. destruct (codeRegex_test s) eqn:E; [|reflexivity].
  apply test_class_repeat_spec in E. destruct E as [Hl Hf].
  apply trim_empty_all_space in Hb.
  destruct s as [|c r]; simpl in *; [lia|].
  inversion Hf; subst. inversion Hb; subst.
  apply isAlnum_not_space in H1. congruence.
Qed.

Lemma Forall_or_Exists_alnum s :
  Forall (fun c => isAlnum c = true) (list_ascii_of_string s) \/ has_bad_char s.
Proof.
  unfold has_bad_char.
  induction (list_ascii_of_string s) as [|c l IH].
  - left; constructor.
  - destruct (isAlnum c) eqn:E.
    + destruct IH as [IH|IH]; [left; constructor; assumption | right; apply Exists_cons_tl; assumption].
    + right. apply Exists_cons_hd. assumption.
Qed.

Lemma bad_char_not_all s :
  has_bad_char s -> ~ Forall (fun c => isAlnum c = true) (list_ascii_of_string s).
Proof.
  unfold has_bad_char. intros He Hf.
  rewrite Exists_exists in He. destruct He as [c [Hin Hc]].
  rewrite Forall_forall in Hf. specialize (Hf c Hin). congruence.
Qed.

Lemma validateCode_blank_branch code :
  (negb (Js.truthy code) || (String.length (Js.trim code) =? 0)) = true <-> blank code.
Proof.
  unfold blank. split.
  - intros H. apply orb_true_iff in H. destruct H as [H|H].
    + destruct code; [reflexivity | discriminate].
    + apply Nat.eqb_eq in H. apply length_zero_empty; assumption.
  - intros H. apply orb_true_iff. right. rewrite H. reflexivity.
Qed.

(** C5. [validateCode] rejects a code exactly when it is empty or blank, its
    length is outside 6..8 or it has a character outside [A-Za-z0-9], and
    accepts it otherwise; every rejection is the same kind of result (the
    [valid] flag off, with a message), and for a code that is not blank the
    message tells too short, too long and bad characters apart. *)
Theorem validateCode_spec (code : string) :
  (valid (validateCode code) = false <->
     blank code \/ String.length code < 6 \/ 8 < String.length code \/ has_bad_char code) /\
  (valid (validateCode code) = true <-> validateCode code = ok_result) /\
  (valid (validateCode code) = false ->
     exists msg, validateCode code = invalid msg /\
       (blank code -> msg = msg_code_required) /\
       (~ blank code -> String.length code < 6 -> msg = msg_code_short) /\
       (~ blank code -> 8 < String.length code -> msg = msg_code_long) /\
       (~ blank code -> 6 <= String.length code <= 8 -> msg = msg_code_chars)) /\
  msg_code_short <> msg_code_long /\ msg_code_short <> msg_code_chars /\
  msg_code_long <> msg_code_chars.
Proof.
  pose proof (validateCode_blank_branch code) as Hb.
  pose proof (test_class_repeat_spec isAlnum code 6 8) as Hre.
  fold (codeRegex_test code) in Hre.
  assert (msg_code_short <> msg_code_long /\ msg_code_short <> msg_code_chars /\
          msg_code_long <> msg_code_chars) as Hmsg
    by (repeat split; discriminate).
  unfold validateCode.
  destruct (negb (Js.truthy code) || (String.length (Js.trim code) =? 0)) eqn:B.
  - assert (blank code) as Hbl by (apply Hb; reflexivity).
    split; [|split; [|split]]; simpl; try exact Hmsg.
    + split; auto.
    + split; discriminate.
    + intros _. exists msg_code_required.
      split; [reflexivity|]. repeat split; intros; try contradiction; reflexivity.
  - assert (~ blank code) as Hnb by (intros H; apply Hb in H; discriminate).
    destruct (codeRegex_test code) eqn:R; simpl.
    + destruct Hre as [Hre _]. destruct (Hre eq_refl) as [Hl Hf].
      split; [|split; [|split]]; try exact Hmsg.
      * split; [discriminate|].
        intros [H|[H|[H|H]]]; try contradiction; try lia.
        exfalso. eapply bad_char_not_all; eauto.
      * split; reflexivity.
      * discriminate.
    + assert (String.length code < 6 \/ 8 < String.length code \/ has_bad_char code) as Hwhy.
      { destruct (Nat.ltb_spec (String.length code) 6); [left; assumption|].
        destruct (Nat.ltb_spec 8 (String.length code)); [right; left; assumption|].
        right; right. destruct (Forall_or_Exists_alnum code) as [Hf|He]; [|assumption].
        destruct Hre as [_ Hre]. discriminate Hre. split; [lia | assumption]. }
      destruct (Nat.ltb_spec (String.length code) 6);
        [|destruct (Nat.ltb_spec 8 (String.length code))]; simpl;
        (split; [|split; [|split]]; try exact Hmsg;
         [ split; auto
         | split; discriminate
         | intros _; eexists; (split; [reflexivity|]);
           repeat split; intros; try contradiction; try lia; reflexivity ]).
Qed.
(** ** Running programs *)

Lemma run_bind {A B : Type} (m : Prog A) (f : A -> Prog B) : forall s,
  run (bind m f) s =
  match run m s with
  | (inr a, s') => run (f a) s'
  | (inl e, s') => (inl e, s')
  end.
Proof.
  induction m as [a|e|q k IH]; intros s; simpl; try reflexivity.
  destruct (exec q s) as [r s']. apply IH.
Qed.

Lemma run_try_catch {A : Type} (m : Prog A) (h : JsError -> Prog A) : forall s,
  run (try_catch m h) s =
  match run m s with
  | (inr a, s') => (inr a, s')
  | (inl e, s') => run (h e) s'
  end.
Proof.
  induction m as [a|e|q k IH]; intros s; simpl; try reflexivity.
  destruct (exec q s) as [r s']. apply IH.
Qed.

Lemma run_await q s :
  run (await q) s =
  match exec q s with
  | (inr v, s') => (inr v, s')
  | (inl e, s') => (inl e, s')
  end.
Proof.
  unfold await. simpl. destruct (exec q s) as [[e|v] s']; reflexivity.
Qed.

(** Serving a request alone is running its statements one after the other. *)
Lemma run_step {A : Type} (m : Prog A) s :
  run m s = let (m', s') := step m s in run m' s'.
Proof.
  destruct m as [a|e|q k]; try reflexivity.
  simpl. destruct (exec q s) as [r s']. reflexivity.
Qed.

(** ** The table *)

Lemma code_eqb_true c r : code_eqb c r = true <-> code r = c.
Proof. unfold code_eqb. apply String.eqb_eq. Qed.

Lemma code_eqb_false c r : code_eqb c r = false <-> code r <> c.
Proof. unfold code_eqb. apply String.eqb_neq. Qed.

Lemma firstn_1_filter {A : Type} (f : A -> bool) (l : list A) :
  firstn 1 (filter f l) = match find f l with Some x => [x] | None => [] end.
Proof.
  induction l as [|x l IH]; simpl; [reflexivity|].
  destruct (f x); simpl; [reflexivity | exact IH].
Qed.

Lemma exec_select c s :
  text_ok c = true ->
  exec (SelectByCode c) s =
  (inr (match findByCode c s with Some l => [l] | None => [] end), s).
Proof.
  intros Hc. unfold exec, refusal, findByCode. rewrite Hc, firstn_1_filter. reflexivity.
Qed.

Lemma exec_select_refused c s :
  text_ok c = false ->
  exec (SelectByCode c) s = (inl (refused (SelectByCode c) InvalidText), s).
Proof. intros Hc. unfold exec, refusal. rewrite Hc. reflexivity. Qed.

Lemma exec_update c now s :
  text_ok c = true -> existsb (overflows c) (rows s) = false ->
  exec (UpdateClicks c now) s =
  (inr [], {| rows := map (click c now) (rows s); nextId := nextId s |}).
Proof. intros Hc Hr. unfold exec, refusal. rewrite Hc, Hr. reflexivity. Qed.

Lemma exec_update_full c now s :
  text_ok c = true -> existsb (overflows c) (rows s) = true ->
  exec (UpdateClicks c now) s = (inl (refused (UpdateClicks c now) OutOfRange), s).
Proof. intros Hc Hr. unfold exec, refusal. rewrite Hc, Hr. reflexivity. Qed.

Lemma exec_delete c s :
  text_ok c = true ->
  exec (DeleteWhere c) s =
  (inr [], {| rows := filter (fun r => negb (code_eqb c r)) (rows s);
              nextId := nextId s |}).
Proof. intros Hc. unfold exec, refusal. rewrite Hc. reflexivity. Qed.

Lemma exec_order s :
  exec SelectOrderByCreatedAt s = (inr (orderBy_createdAt (rows s)), s).
Proof. reflexivity. Qed.

Lemma find_existsb {A : Type} (f : A -> bool) (l : list A) :
  existsb f l = match find f l with Some _ => true | None => false end.
Proof.
  induction l as [|x l IH]; simpl; [reflexivity|].
  destruct (f x); simpl; [reflexivity | exact IH].
Qed.

Lemma click_code c now r : code (click c now r) = code r.
Proof. unfold click. destruct (code_eqb c r); reflexivity. Qed.

Lemma code_eqb_click c c' now r : code_eqb c (click c' now r) = code_eqb c r.
Proof. unfold code_eqb. rewrite click_code. reflexivity. Qed.

Lemma find_map_click c now l :
  find (code_eqb c) (map (click c now) l) = option_map (click c now) (find (code_eqb c) l).
Proof.
  induction l as [|r l IH]; simpl; [reflexivity|].
  rewrite code_eqb_click. destruct (code_eqb c r); simpl; [reflexivity | exact IH].
Qed.

Lemma find_filter_out c l :
  find (code_eqb c) (filter (fun r => negb (code_eqb c r)) l) = None.
Proof.
  induction l as [|r l IH]; simpl; [reflexivity|].
  destruct (code_eqb c r) eqn:E; simpl; [exact IH|].
  rewrite E. exact IH.
Qed.

Lemma find_app_none {A : Type} (f : A -> bool) (l l' : list A) :
  find f l = None -> find f (l ++ l') = find f l'.
Proof.
  induction l as [|x l IH]; simpl; [reflexivity|].
  destruct (f x); [discriminate | exact IH].
Qed.

Lemma map_click_absent c now l :
  find (code_eqb c) l = None -> map (click c now) l = l.
Proof.
  induction l as [|r l IH]; simpl; [reflexivity|].
  unfold click at 1. destruct (code_eqb c r); [discriminate|].
  intros H. rewrite IH by assumption. reflexivity.
Qed.

Lemma store_eta s : {| rows := rows s; nextId := nextId s |} = s.
Proof. destruct s; reflexivity. Qed.

Lemma exec_insert c url clicks last created s :
  exec (InsertValues c url clicks last created) s =
  match refusal (InsertValues c url clicks last created) s with
  | Some why =>
      (inl (refused (InsertValues c url clicks last created) why),
       after_refusal (InsertValues c url clicks last created) why s)
  | None =>
      let row := {| id := nextId s; code := c; targetUrl := url;
                    totalClicks := clicks; lastClickedAt := last;
                    createdAt := created |} in
      (inr [row], {| rows := rows s ++ [row]; nextId := (nextId s + 1)%Z |})
  end.
Proof. reflexivity. Qed.

(** Every statement leaves the rows alone when it is refused. *)
Lemma after_refusal_rows q why s : rows (after_refusal q why s) = rows s.
Proof. destruct q, why; reflexivity. Qed.

(** A code of the accepted format is text the engine takes, and fits its
    column. *)
Lemma isAlnum_not_zero ch : isAlnum ch = true -> Ascii.eqb ch Ascii.zero = false.
Proof.
  intros H. destruct (Ascii.eqb ch Ascii.zero) eqn:E; [|reflexivity].
  apply Ascii.eqb_eq in E. subst. vm_compute in H. discriminate H.
Qed.

Lemma alnum_text_ok s :
  Forall (fun ch => isAlnum ch = true) (list_ascii_of_string s) -> text_ok s = true.
Proof.
  induction s as [|ch r IH]; simpl; intros H; [reflexivity|].
  inversion H; subst. rewrite isAlnum_not_zero by assumption. apply IH. assumption.
Qed.

Lemma regex_text_ok c : codeRegex_test c = true -> text_ok c = true.
Proof. intros R. apply test_class_repeat_spec in R. apply alnum_text_ok. apply R. Qed.

Lemma regex_fits c : codeRegex_test c = true -> (8 <? String.length c) = false.
Proof. intros R. apply test_class_repeat_spec in R. apply Nat.ltb_ge. lia. Qed.

Lemma refusal_insert_free c url now s :
  codeRegex_test c = true -> findByCode c s = None ->
  refusal (InsertValues c url 0%Z None now) s = insert_refused url s.
Proof.
  intros R Hf. unfold refusal, insert_refused.
  rewrite (regex_text_ok c R), (regex_fits c R), find_existsb.
  unfold findByCode in Hf. rewrite Hf. cbn [andb].
  destruct (text_ok url); cbn [negb]; [|reflexivity].
  change (negb (in_int4 0)) with false. cbv iota.
  destruct (int4_max <? nextId s)%Z; reflexivity.
Qed.

Lemma refusal_insert_taken c url now s l :
  codeRegex_test c = true -> findByCode c s = Some l ->
  text_ok url = true -> (nextId s <= int4_max)%Z ->
  refusal (InsertValues c url 0%Z None now) s = Some UniqueViolation.
Proof.
  intros R Hf Hu Hn. unfold refusal.
  rewrite (regex_text_ok c R), (regex_fits c R), find_existsb, Hu.
  unfold findByCode in Hf. rewrite Hf. cbn [andb negb].
  change (negb (in_int4 0)) with false. cbv iota.
  destruct (Z.ltb_spec int4_max (nextId s)); [lia | reflexivity].
Qed.

(** An accepted insert found the code free. *)
Lemma refusal_insert_none c url clicks last created s :
  refusal (InsertValues c url clicks last created) s = None -> findByCode c s = None.
Proof.
  unfold refusal, findByCode. rewrite find_existsb.
  destruct (negb (text_ok c && text_ok url)); [discriminate|].
  destruct (negb (in_int4 clicks)); [discriminate|].
  destruct (int4_max <? nextId s)%Z; [discriminate|].
  destruct (8 <? String.length c); [discriminate|].
  destruct (find (code_eqb c) (rows s)); [discriminate | reflexivity].
Qed.

Lemma catch_response_status e :
  status_of (catch_response e) = 409%Z \/ status_of (catch_response e) = 500%Z.
Proof.
  unfold catch_response. destruct (Js.includes (message e) "unique"); [left | right];
    reflexivity.
Qed.

Lemma POST_catch_response e : POST_catch e = Ret (catch_response e).
Proof.
  unfold POST_catch, catch_response.
  destruct (Js.includes (message e) "unique"); reflexivity.
Qed.

Lemma try_catch_NextResponse_redirect url h :
  (forall e, h e = Ret (text "Internal Server Error" 500)) ->
  try_catch (NextResponse_redirect url 302) h = Ret (redirect_response url).
Proof.
  intros Hh. unfold NextResponse_redirect, redirect_response.
  destruct (URL_href url); [reflexivity | apply Hh].
Qed.

(** Rows below the top of the range take a click. *)
Lemma room_no_overflow c n s :
  (1 <= n)%Z -> room_for c n s -> existsb (overflows c) (rows s) = false.
Proof.
  intros Hn H. unfold room_for in H. induction H as [|r l Hr H IH]; [reflexivity|].
  cbn [existsb]. rewrite IH, orb_false_r. unfold overflows.
  destruct (code_eqb c r) eqn:E; [|reflexivity]. cbn [andb].
  apply code_eqb_true in E. specialize (Hr E). apply Z.leb_gt. lia.
Qed.

(** From here on a statement is executed through the equations above. *)
Opaque exec.

(** Runs the statement at the head of a handler. *)
Ltac run_query :=
  rewrite ?run_try_catch, ?run_bind, ?run_await, ?exec_order, ?exec_insert;
  try rewrite exec_select by assumption;
  try rewrite exec_delete by assumption.
(** ** Resolve-and-redirect *)

Lemma run_GET_redirect c now s :
  text_ok c = true ->
  run (GET_redirect c now) s =
  match findByCode c s with
  | None => (inr (text "Not Found" 404), s)
  | Some l =>
      if existsb (overflows c) (rows s) then
        (inr (text "Internal Server Error" 500), s)
      else
        (inr (redirect_response (targetUrl l)),
         {| rows := map (click c now) (rows s); nextId := nextId s |})
  end.
Proof.
  intros Hc. unfold GET_redirect. simpl. rewrite exec_select by exact Hc.
  destruct (findByCode c s) as [l|]; simpl; [|reflexivity].
  destruct (existsb (overflows c) (rows s)) eqn:E.
  - rewrite exec_update_full by assumption. reflexivity.
  - rewrite exec_update by assumption. simpl.
    rewrite try_catch_NextResponse_redirect by reflexivity. reflexivity.
Qed.

Lemma run_GET_redirect_refused c now s :
  text_ok c = false ->
  run (GET_redirect c now) s = (inr (text "Internal Server Error" 500), s).
Proof.
  intros Hc. unfold GET_redirect. simpl. rewrite exec_select_refused by exact Hc.
  reflexivity.
Qed.

Lemma step_GET_redirect c now s :
  text_ok c = true ->
  step (GET_redirect c now) s =
  (match findByCode c s with
   | None => Ret (text "Not Found" 404)
   | Some l =>
       Await (UpdateClicks c now)
         (fun r => try_catch
            (bind (match r with inl e => Throw e | inr v => Ret v end)
                  (fun _ => NextResponse_redirect (targetUrl l) 302))
            (fun error => Ret (text "Internal Server Error" 500)))
   end, s).
Proof.
  intros Hc. unfold GET_redirect. simpl. rewrite exec_select by exact Hc.
  destruct (findByCode c s) as [l|]; reflexivity.
Qed.

Lemma run_DELETE_link c s :
  text_ok c = true ->
  run (DELETE_link c) s =
  match findByCode c s with
  | None => (inr (json (JError (Some "Link not found")) 404), s)
  | Some _ => (inr (json (JDeleted "Link deleted successfully" c) 200),
               {| rows := filter (fun r => negb (code_eqb c r)) (rows s);
                  nextId := nextId s |})
  end.
Proof.
  intros Hc. unfold DELETE_link. simpl. rewrite exec_select by exact Hc.
  destruct (findByCode c s) as [l|]; simpl; [|reflexivity].
  rewrite exec_delete by exact Hc. reflexivity.
Qed.

Lemma run_DELETE_link_refused c s :
  text_ok c = false ->
  run (DELETE_link c) s = (inr (json (JError (Some "Internal server error")) 500), s).
Proof.
  intros Hc. unfold DELETE_link. simpl. rewrite exec_select_refused by exact Hc.
  reflexivity.
Qed.

Lemma findByCode_after_DELETE c s :
  text_ok c = true ->
  findByCode c (snd (run (DELETE_link c) s)) = None.
Proof.
  intros Hc. rewrite run_DELETE_link by exact Hc.
  destruct (findByCode c s) eqn:E; simpl.
  - unfold findByCode. simpl. apply find_filter_out.
  - exact E.
Qed.

Lemma absent_no_overflow c l :
  find (code_eqb c) l = None -> existsb (overflows c) l = false.
Proof.
  induction l as [|r l IH]; simpl; [reflexivity|].
  unfold overflows at 1. destruct (code_eqb c r); [discriminate|]. exact IH.
Qed.

(** C1 (as amended). A redirect request for a code that has no row when the
    lookup runs - never created, or deleted before - is answered 404 with no
    redirect, and the table is left as it was.  When the row is deleted after
    the lookup and before the increment, the increment touches no row and
    raises nothing, and the handler does not answer 404: it goes on to
    [NextResponse.redirect] with the target URL it read at the lookup, and
    answers with the 302 to it (or with 500, when that URL is not one [new
    URL] parses).  This is for a code the engine takes as text; the lookup
    of a code that holds code unit 0 is refused, and the answer is 500. *)
Theorem redirect_not_found_at_lookup (c : string) (now : Timestamp) (s : Store) :
  (text_ok c = true -> findByCode c s = None ->
     run (GET_redirect c now) s = (inr (text "Not Found" 404), s)) /\
  (text_ok c = true ->
     let s1 := snd (run (DELETE_link c) s) in
     run (GET_redirect c now) s1 = (inr (text "Not Found" 404), s1)) /\
  (forall (l : Link) (s2 : Store),
     text_ok c = true -> findByCode c s = Some l -> findByCode c s2 = None ->
     let (t, s1) := step (GET_redirect c now) s in
     s1 = s /\
     run t s2 = (inr (match URL_href (targetUrl l) with
                      | Some href => redirect href 302
                      | None => text "Internal Server Error" 500
                      end), s2)) /\
  (text_ok c = false ->
     run (GET_redirect c now) s = (inr (text "Internal Server Error" 500), s)).
Proof.
  split; [|split; [|split]].
  - intros Hc H. rewrite run_GET_redirect, H by exact Hc. reflexivity.
  - intros Hc s1. rewrite run_GET_redirect by exact Hc.
    unfold s1. rewrite findByCode_after_DELETE by exact Hc. reflexivity.
  - intros l s2 Hc Hl H2. rewrite step_GET_redirect, Hl by exact Hc.
    split; [reflexivity|].
    simpl. unfold findByCode in H2.
    rewrite exec_update by (exact Hc || apply absent_no_overflow; exact H2). simpl.
    rewrite try_catch_NextResponse_redirect by reflexivity.
    rewrite (map_click_absent c now _ H2). rewrite store_eta. reflexivity.
  - apply run_GET_redirect_refused.
Qed.
(** ** The code generator *)

Lemma alphabet_length : String.length alphabet = 62.
Proof. reflexivity. Qed.

Lemma alphabet_get i :
  i < 62 -> exists ch, String.get i alphabet = Some ch /\ isAlnum ch = true.
Proof.
  intros Hi.
  assert (forallb (fun i => match String.get i alphabet with
                            | Some ch => isAlnum ch
                            | None => false
                            end) (seq 0 62) = true) as Hall by (vm_compute; reflexivity).
  rewrite forallb_forall in Hall.
  specialize (Hall i). rewrite in_seq in Hall.
  destruct (String.get i alphabet) as [ch|].
  - exists ch. split; [reflexivity | apply Hall; lia].
  - discriminate Hall. lia.
Qed.

Lemma customAlphabet_alphabet size : forall rng pos,
  String.length (customAlphabet alphabet size rng pos) = size /\
  Forall (fun ch => isAlnum ch = true)
         (list_ascii_of_string (customAlphabet alphabet size rng pos)).
Proof.
  induction size as [|size IH]; intros rng pos; cbn [customAlphabet].
  - split; [reflexivity | constructor].
  - rewrite alphabet_length.
    destruct (alphabet_get (rng pos mod 62)) as [ch [Hget Hch]].
    { apply Nat.mod_upper_bound. discriminate. }
    rewrite Hget. destruct (IH rng (S pos)) as [Hl Hf]. simpl.
    split; [rewrite Hl; reflexivity | constructor; assumption].
Qed.

Lemma generateShortCode_shape rng pos :
  String.length (generateShortCode rng pos) = 6 /\
  Forall (fun ch => isAlnum ch = true) (list_ascii_of_string (generateShortCode rng pos)).
Proof. unfold generateShortCode. apply customAlphabet_alphabet. Qed.

Lemma generateShortCode_truthy rng pos : Js.truthy (generateShortCode rng pos) = true.
Proof.
  destruct (generateShortCode_shape rng pos) as [Hl _].
  destruct (generateShortCode rng pos); [discriminate Hl | reflexivity].
Qed.

Lemma regex_valid code : codeRegex_test code = true -> validateCode code = ok_result.
Proof.
  intros R. unfold validateCode.
  destruct (negb (Js.truthy code) || (String.length (Js.trim code) =? 0)) eqn:B.
  - apply validateCode_blank_branch in B. apply blank_not_regex in B. congruence.
  - rewrite R. reflexivity.
Qed.

Lemma generateUniqueShortCode_loop_generated checkExists rng n : forall pos s c s',
  run (generateUniqueShortCode_loop checkExists n rng pos) s = (inr (Some c), s') ->
  exists pos', c = generateShortCode rng pos'.
Proof.
  induction n as [|n IH]; intros pos s c s' H; simpl in H.
  - discriminate H.
  - rewrite run_bind in H.
    destruct (run (checkExists (generateShortCode rng pos)) s) as [[e|b] s1];
      [discriminate H|].
    destruct b; simpl in H.
    + eapply IH; eauto.
    + inversion H; subst. eexists; reflexivity.
Qed.

(** C7. Every code [generateShortCode] produces has exactly 6 characters, all
    of them from the 62 characters of [A-Za-z0-9]; so has every code that
    [generateUniqueShortCode] hands back, whatever the existence check.  The
    length is 6 although the format accepted for custom codes, which a
    generated code also satisfies, allows 6 to 8. *)
Theorem generated_code_six_alphanumeric (rng : nat -> nat) (pos : nat) :
  String.length alphabet = 62 /\
  Forall (fun ch => isAlnum ch = true) (list_ascii_of_string alphabet) /\
  String.length (generateShortCode rng pos) = 6 /\
  Forall (fun ch => isAlnum ch = true) (list_ascii_of_string (generateShortCode rng pos)) /\
  validateCode (generateShortCode rng pos) = ok_result /\
  (forall checkExists maxAttempts s c s',
     run (generateUniqueShortCode checkExists maxAttempts rng) s = (inr (Some c), s') ->
     String.length c = 6 /\
     Forall (fun ch => isAlnum ch = true) (list_ascii_of_string c)).
Proof.
  destruct (generateShortCode_shape rng pos) as [Hl Hf].
  split; [reflexivity|]. split.
  { apply Forall_forall. intros ch Hin.
    assert (forallb isAlnum (list_ascii_of_string alphabet) = true) as Hall
      by (vm_compute; reflexivity).
    rewrite forallb_forall in Hall. apply Hall. exact Hin. }
  split; [exact Hl|]. split; [exact Hf|]. split.
  - apply regex_valid. apply test_class_repeat_spec. split; [lia | exact Hf].
  - intros checkExists maxAttempts s c s' H.
    apply generateUniqueShortCode_loop_generated in H. destruct H as [pos' ->].
    apply generateShortCode_shape.
Qed.

(** The loop against an existence check that reads the table and leaves it
    alone: the outcome is the first candidate that does not exist. *)
Lemma generateUniqueShortCode_loop_find checkExists (p : string -> Store -> bool) rng :
  (forall c s, run (checkExists c) s = (inr (p c s), s)) ->
  forall n pos s,
  run (generateUniqueShortCode_loop checkExists n rng pos) s =
  (inr (find (fun c => negb (p c s))
             (map (fun k => generateShortCode rng (pos + 6 * k)) (seq 0 n))), s).
Proof.
  intros Hp. induction n as [|n IH]; intros pos s.
  - reflexivity.
  - cbn [generateUniqueShortCode_loop]. rewrite run_bind, Hp.
    cbn [seq map find]. replace (pos + 6 * 0) with pos by lia.
    destruct (p (generateShortCode rng pos) s); cbn [negb].
    + rewrite IH. rewrite <- seq_shift, map_map.
      rewrite (map_ext (fun k => generateShortCode rng (pos + 6 + 6 * k))
                       (fun k => generateShortCode rng (pos + 6 * S k)));
        [reflexivity|].
      intros k. f_equal. lia.
    + reflexivity.
Qed.

Lemma find_map_seq_some {A : Type} (f : A -> bool) (g : nat -> A) n x :
  find f (map g (seq 0 n)) = Some x <->
  exists k, k < n /\ x = g k /\ f (g k) = true /\ forall j, j < k -> f (g j) = false.
Proof.
  revert g. induction n as [|n IH]; intros g.
  - simpl. split; [discriminate | intros [k [Hk _]]; lia].
  - cbn [seq map find]. rewrite <- seq_shift, map_map.
    destruct (f (g 0)) eqn:E.
    + split.
      * intros H. inversion H; subst. exists 0. repeat split; try lia; auto.
      * intros [k [Hk [Hx [Hf Hj]]]]. destruct k as [|k]; [subst; reflexivity|].
        rewrite (Hj 0) in E by lia. discriminate.
    + rewrite (IH (fun k => g (S k))). split.
      * intros [k [Hk [Hx [Hf Hj]]]]. exists (S k). repeat split; try lia; auto.
        intros j Hlt. destruct j as [|j]; [exact E | apply Hj; lia].
      * intros [k [Hk [Hx [Hf Hj]]]]. destruct k as [|k]; [congruence|].
        exists k. repeat split; try lia; auto. intros j Hlt. apply Hj. lia.
Qed.

Lemma find_map_seq_none {A : Type} (f : A -> bool) (g : nat -> A) n :
  find f (map g (seq 0 n)) = None <-> forall k, k < n -> f (g k) = false.
Proof.
  split.
  - intros H k Hk. destruct (f (g k)) eqn:E; [|reflexivity].
    assert (In (g k) (map g (seq 0 n))) as Hin
      by (apply in_map; apply in_seq; lia).
    pose proof (find_none _ _ H _ Hin). congruence.
  - intros H. destruct (find f (map g (seq 0 n))) as [x|] eqn:E; [|reflexivity].
    apply find_map_seq_some in E. destruct E as [k [Hk [_ [Hf _]]]].
    rewrite H in Hf by assumption. discriminate.
Qed.
(** ** Creating links *)

Lemma valid_code_regex c : valid (validateCode c) = true -> codeRegex_test c = true.
Proof.
  unfold validateCode.
  destruct (negb (Js.truthy c) || (String.length (Js.trim c) =? 0)); [discriminate|].
  destruct (codeRegex_test c); [reflexivity|]. cbn [negb].
  destruct (String.length c <? 6); [discriminate|].
  destruct (8 <? String.length c); discriminate.
Qed.

Lemma candidate_regex rng k : codeRegex_test (candidate rng k) = true.
Proof.
  apply test_class_repeat_spec. unfold candidate.
  destruct (generateShortCode_shape rng (6 * k)) as [Hl Hf].
  split; [lia | exact Hf].
Qed.

Lemma generateShortCode_regex rng pos : codeRegex_test (generateShortCode rng pos) = true.
Proof.
  apply test_class_repeat_spec.
  destruct (generateShortCode_shape rng pos) as [Hl Hf].
  split; [lia | exact Hf].
Qed.

(** A request that passes validation with a custom code carries a code of the
    accepted format. *)
Lemma valid_request_regex url cc :
  valid (validateCreateLinkRequest url cc) = true -> Js.truthy_opt cc = true ->
  codeRegex_test (Js.string_of cc) = true.
Proof.
  intros V T. apply valid_code_regex.
  unfold validateCreateLinkRequest in V. cbv zeta in V. rewrite T in V.
  destruct (negb (valid (validateUrl url))) eqn:U.
  { apply negb_true_iff in U. rewrite U in V. discriminate V. }
  destruct (valid (validateCode (Js.string_of cc))) eqn:C; [reflexivity|].
  cbn [negb] in V. rewrite C in V. discriminate V.
Qed.

Lemma run_checkExists_db c s :
  text_ok c = true ->
  run (checkExists_db c) s = (inr (code_exists c s), s).
Proof.
  intros Hc. unfold checkExists_db. run_query.
  unfold code_exists. destruct (findByCode c s); reflexivity.
Qed.

(** The loop against the table: every candidate is text the engine takes, so
    no lookup is refused, and the outcome is the first candidate that no row
    holds. *)
Lemma run_generateUniqueShortCode_loop_db rng : forall n pos s,
  run (generateUniqueShortCode_loop checkExists_db n rng pos) s =
  (inr (find (fun c => negb (code_exists c s))
             (map (fun k => generateShortCode rng (pos + 6 * k)) (seq 0 n))), s).
Proof.
  induction n as [|n IH]; intros pos s.
  - reflexivity.
  - cbn [generateUniqueShortCode_loop]. rewrite run_bind.
    rewrite run_checkExists_db
      by (apply regex_text_ok; apply generateShortCode_regex).
    cbn [seq map find]. replace (pos + 6 * 0) with pos by lia.
    destruct (code_exists (generateShortCode rng pos) s); cbn [negb].
    + rewrite IH. rewrite <- seq_shift, map_map.
      rewrite (map_ext (fun k => generateShortCode rng (pos + 6 + 6 * k))
                       (fun k => generateShortCode rng (pos + 6 * S k)));
        [reflexivity|].
      intros k. f_equal. lia.
    + reflexivity.
Qed.

Lemma run_generateUniqueShortCode_db rng s :
  run (generateUniqueShortCode checkExists_db None rng) s =
  (inr (find (fun c => negb (code_exists c s)) (map (candidate rng) (seq 0 3))), s).
Proof.
  unfold generateUniqueShortCode. rewrite run_generateUniqueShortCode_loop_db.
  reflexivity.
Qed.

Lemma run_insert_step c url now s :
  codeRegex_test c = true -> findByCode c s = None ->
  run (try_catch
         (newLink <- await (InsertValues c url 0%Z None now) ;;
          match newLink with
          | link :: _ => Ret (json (JLink (serializeLink link)) 201)
          | [] => Throw {| message :=
                    "Cannot read properties of undefined (reading 'id')" |}
          end) POST_catch) s =
  insert_outcome c url now s.
Proof.
  intros R Hf. rewrite run_try_catch, run_bind, run_await, exec_insert.
  rewrite (refusal_insert_free c url now s R Hf). unfold insert_outcome.
  destruct (insert_refused url s) as [why|] eqn:E.
  - rewrite POST_catch_response.
    assert (after_refusal (InsertValues c url 0%Z None now) why s = s) as ->.
    { unfold insert_refused in E. destruct (negb (text_ok url)).
      - inversion E; reflexivity.
      - destruct (int4_max <? nextId s)%Z; [inversion E; reflexivity | discriminate E]. }
    reflexivity.
  - reflexivity.
Qed.

Lemma try_catch_bind_Ret {A B : Type} (a : A) (f : A -> Prog B) h :
  try_catch (bind (Ret a) f) h = try_catch (f a) h.
Proof. reflexivity. Qed.

(** [POST /api/links] served alone. *)
Lemma run_POST body now rng s :
  run (POST body now rng) s =
  let url := req_targetUrl body in
  let cc := req_customCode body in
  let validation := validateCreateLinkRequest url cc in
  if negb (valid validation) then
    (inr (json (JError (error validation)) 400), s)
  else if Js.truthy_opt cc then
    match findByCode (Js.string_of cc) s with
    | Some _ => (inr conflict_response, s)
    | None => insert_outcome (Js.string_of cc) url now s
    end
  else
    match find (fun c => negb (code_exists c s)) (map (candidate rng) (seq 0 3)) with
    | None => (inr exhausted_response, s)
    | Some g => insert_outcome g url now s
    end.
Proof.
  cbv zeta.
  destruct (valid (validateCreateLinkRequest (req_targetUrl body) (req_customCode body)))
    eqn:V; cbn [negb].
  2:{ unfold POST. cbv zeta. rewrite V. reflexivity. }
  pose proof (run_insert_step) as Hins.
  unfold POST, POST_steps. cbv zeta. rewrite V. cbn [negb].
  destruct (Js.truthy_opt (req_customCode body)) eqn:T.
  - pose proof (valid_request_regex _ _ V T) as R.
    rewrite run_try_catch, run_bind, run_bind, run_await.
    rewrite exec_select by (apply regex_text_ok; exact R).
    destruct (findByCode (Js.string_of (req_customCode body)) s) as [l|] eqn:E.
    + reflexivity.
    + cbn [length Nat.ltb Nat.leb].
      rewrite <- (Hins _ (req_targetUrl body) now s R E).
      rewrite run_try_catch. reflexivity.
  - rewrite run_try_catch, run_bind, run_bind, run_generateUniqueShortCode_db.
    destruct (find (fun c => negb (code_exists c s)) (map (candidate rng) (seq 0 3)))
      as [g|] eqn:E.
    + assert (Js.truthy g = true /\ findByCode g s = None /\ codeRegex_test g = true)
        as [Ht [Hg R]].
      { apply find_some in E. destruct E as [Hin Hfree].
        apply in_map_iff in Hin. destruct Hin as [k [<- _]].
        split; [apply generateShortCode_truthy|].
        split; [|apply candidate_regex].
        unfold code_exists in Hfree.
        destruct (findByCode (candidate rng k) s); [discriminate | reflexivity]. }
      cbn [Js.truthy_opt]. rewrite Ht. cbn [negb Js.string_of].
      rewrite <- (Hins _ (req_targetUrl body) now s R Hg).
      rewrite run_try_catch. reflexivity.
    + reflexivity.
Qed.

Lemma insert_outcome_rows c url now s :
  rows (snd (insert_outcome c url now s)) = rows s \/
  snd (insert_outcome c url now s) = with_row s (new_link s c url now).
Proof.
  unfold insert_outcome. destruct (insert_refused url s); [left | right]; reflexivity.
Qed.

Lemma insert_outcome_201 c url now s resp s1 :
  insert_outcome c url now s = (inr resp, s1) -> status_of resp = 201%Z ->
  resp = json (JLink (serializeLink (new_link s c url now))) 201 /\
  s1 = with_row s (new_link s c url now) /\
  text_ok url = true /\ (nextId s <= int4_max)%Z.
Proof.
  unfold insert_outcome, insert_refused. intros H Hst.
  destruct (text_ok url); cbn [negb] in H.
  - destruct (Z.ltb_spec int4_max (nextId s)).
    + inversion H; subst.
      destruct (catch_response_status
                  (refused (InsertValues c url 0%Z None now) OutOfRange)) as [E|E];
        rewrite E in Hst; discriminate Hst.
    + inversion H; subst. repeat split. assumption.
  - inversion H; subst.
    destruct (catch_response_status
                (refused (InsertValues c url 0%Z None now) InvalidText)) as [E|E];
      rewrite E in Hst; discriminate Hst.
Qed.

Lemma insert_outcome_accepted c url now s :
  text_ok url = true -> (nextId s <= int4_max)%Z ->
  insert_outcome c url now s =
  (inr (json (JLink (serializeLink (new_link s c url now))) 201),
   with_row s (new_link s c url now)).
Proof.
  intros Hu Hn. unfold insert_outcome, insert_refused. rewrite Hu. cbn [negb].
  destruct (Z.ltb_spec int4_max (nextId s)); [lia | reflexivity].
Qed.

(** *** Any body *)

(** The route on a body of the declared type is the route on that body as it
    arrives. *)
Lemma POST_request_body_of body now rng :
  POST_request (body_of body) now rng = POST body now rng.
Proof.
  unfold POST_request, POST, body_of. cbn [request_json bind fst snd].
  unfold validateCreateLinkRequest_any, validateCreateLinkRequest. cbv zeta.
  cbn [validateUrl_any bind].
  destruct (valid (validateUrl (req_targetUrl body))) eqn:U; cbn [negb bind].
  - destruct body as [url [c|]]; cbn [req_targetUrl req_customCode JsValue_of
      JsValue_truthy Js.truthy_opt Js.string_of as_CreateLinkRequest] in *.
    + destruct (Js.truthy c); cbn [validateCode_any bind negb valid ok_result].
      * destruct (valid (validateCode c)) eqn:C; cbn [negb bind valid ok_result];
          rewrite ?C; reflexivity.
      * reflexivity.
    + reflexivity.
  - rewrite U. reflexivity.
Qed.

(** A custom code that is falsy and not a string is as good as absent. *)
Lemma POST_request_falsy_code u cc now rng :
  JsValue_truthy cc = false -> (forall c, cc <> JsString c) ->
  POST_request (JsonValue (JsString u) cc) now rng
  = POST {| req_targetUrl := u; req_customCode := None |} now rng.
Proof.
  intros T Hns.
  assert (as_CreateLinkRequest (JsString u) cc
          = {| req_targetUrl := u; req_customCode := None |}) as Hb.
  { destruct cc; try reflexivity. exfalso. eapply Hns. reflexivity. }
  unfold POST_request, POST. cbn [request_json bind fst snd].
  unfold validateCreateLinkRequest_any, validateCreateLinkRequest. cbv zeta.
  cbn [validateUrl_any bind req_targetUrl req_customCode Js.truthy_opt].
  rewrite T, Hb.
  destruct (valid (validateUrl u)) eqn:U; cbn [negb bind valid ok_result];
    rewrite ?U; reflexivity.
Qed.

(** A custom code that is truthy and not a string stops the route: with 400
    when the URL is not valid, with 500 when it is. *)
Lemma POST_request_truthy_code u cc now rng :
  JsValue_truthy cc = true -> (forall c, cc <> JsString c) ->
  exists resp,
    POST_request (JsonValue (JsString u) cc) now rng = Ret resp /\
    In (status_of resp) [400; 409; 500]%Z.
Proof.
  intros T Hns.
  unfold POST_request. cbn [request_json bind fst snd].
  unfold validateCreateLinkRequest_any. cbn [validateUrl_any bind].
  destruct (valid (validateUrl u)) eqn:U; cbn [negb bind].
  - rewrite T.
    assert (validateCode_any cc = Throw {| message := "code.trim is not a function" |})
      as ->.
    { destruct cc; cbn [validateCode_any]; try (rewrite T; reflexivity).
      exfalso. eapply Hns. reflexivity. }
    eexists. split; [reflexivity | simpl; auto].
  - rewrite U. eexists. split; [reflexivity | simpl; auto].
Qed.

(** A target URL that is not a string stops the route: with 400 when it is
    falsy, with 500 when it is truthy. *)
Lemma POST_request_url_not_string url cc now rng :
  (forall u, url <> JsString u) ->
  exists resp,
    POST_request (JsonValue url cc) now rng = Ret resp /\
    In (status_of resp) [400; 409; 500]%Z.
Proof.
  intros Hns.
  unfold POST_request. cbn [request_json bind fst snd].
  unfold validateCreateLinkRequest_any.
  destruct (JsValue_truthy url) eqn:T.
  - assert (validateUrl_any url = Throw {| message := "url.trim is not a function" |})
      as ->.
    { destruct url; cbn [validateUrl_any]; try (rewrite T; reflexivity).
      exfalso. eapply Hns. reflexivity. }
    eexists. split; [reflexivity | simpl; auto].
  - assert (validateUrl_any url = Ret (invalid msg_url_required)) as ->.
    { destruct url; cbn [validateUrl_any]; try (rewrite T; reflexivity).
      exfalso. eapply Hns. reflexivity. }
    eexists. split; [reflexivity | simpl; auto].
Qed.

(** Whatever arrives, the route either answers at once with 400, 409 or 500,
    or goes on as on a body of the declared type. *)
Lemma POST_request_cases request now rng :
  (exists resp, POST_request request now rng = Ret resp /\
                In (status_of resp) [400; 409; 500]%Z) \/
  (exists body, POST_request request now rng = POST body now rng).
Proof.
  destruct request as [e| |url cc].
  - left. exists (catch_response e). split.
    + unfold POST_request. cbn [request_json bind try_catch]. apply POST_catch_response.
    + destruct (catch_response_status e) as [H|H]; rewrite H; simpl; auto.
  - left. exists server_error_response. split; [reflexivity | simpl; auto].
  - assert ((exists u, url = JsString u) \/ (forall u, url <> JsString u)) as [[u ->]|Hu]
      by (destruct url; try (right; discriminate); left; eexists; reflexivity).
    2:{ left. apply POST_request_url_not_string. exact Hu. }
    assert ((exists c, cc = JsString c) \/ (forall c, cc <> JsString c)) as [[c ->]|Hc]
      by (destruct cc; try (right; discriminate); left; eexists; reflexivity).
    + right. exists {| req_targetUrl := u; req_customCode := Some c |}.
      apply (POST_request_body_of {| req_targetUrl := u; req_customCode := Some c |}).
    + destruct (JsValue_truthy cc) eqn:T.
      * left. apply POST_request_truthy_code; assumption.
      * right. eexists. apply POST_request_falsy_code; assumption.
Qed.
(** C6. Against any existence predicate and any attempt limit (3 when none
    is given), [generateUniqueShortCode] hands back the first generated
    candidate the predicate rejects, and the failure value when the
    predicate holds for every one of the [maxAttempts] candidates; the create
    route answers that failure with status 500, and inserts nothing. *)
Theorem generateUniqueShortCode_first_free
  (p : string -> bool) (maxAttempts : option Z) (rng : nat -> nat) (s : Store) :
  let n := Z.to_nat (match maxAttempts with Some m => m | None => 3%Z end) in
  (exists result : option string,
     run (generateUniqueShortCode (fun c => Ret (p c)) maxAttempts rng) s = (inr result, s) /\
     (forall c, result = Some c <->
        exists k, k < n /\ c = candidate rng k /\ p (candidate rng k) = false /\
                  forall j, j < k -> p (candidate rng j) = true) /\
     (result = None <-> forall k, k < n -> p (candidate rng k) = true)) /\
  (forall body now,
     Js.truthy_opt (req_customCode body) = false ->
     valid (validateCreateLinkRequest (req_targetUrl body) (req_customCode body)) = true ->
     (forall k, k < 3 -> code_exists (candidate rng k) s = true) ->
     run (POST body now rng) s = (inr exhausted_response, s)) /\
  status_of exhausted_response = 500%Z.
Proof.
  intros n. split; [|split; [|reflexivity]].
  - exists (find (fun c => negb (p c)) (map (candidate rng) (seq 0 n))).
    split; [|split].
    + unfold generateUniqueShortCode. fold n.
      rewrite (generateUniqueShortCode_loop_find (fun c => Ret (p c)) (fun c _ => p c) rng)
        by reflexivity.
      reflexivity.
    + intros c. rewrite find_map_seq_some. split.
      * intros [k [Hk [Hc [Hf Hj]]]]. exists k. repeat split; auto.
        -- apply negb_true_iff. exact Hf.
        -- intros j Hlt. apply negb_false_iff. apply Hj. exact Hlt.
      * intros [k [Hk [Hc [Hf Hj]]]]. exists k. repeat split; auto.
        -- apply negb_true_iff. exact Hf.
        -- intros j Hlt. apply negb_false_iff. apply Hj. exact Hlt.
    + rewrite find_map_seq_none. split; intros H k Hk.
      * apply negb_false_iff. apply H. exact Hk.
      * apply negb_false_iff. apply H. exact Hk.
  - intros body now Hcc Hv Hall. rewrite run_POST. cbv zeta.
    rewrite Hv, Hcc. cbn [negb].
    assert (find (fun c => negb (code_exists c s)) (map (candidate rng) (seq 0 3)) = None)
      as -> ; [|reflexivity].
    apply find_map_seq_none. intros k Hk. rewrite Hall by exact Hk. reflexivity.
Qed.

(** ** Reading links back *)

Lemma run_GET_link c s :
  text_ok c = true ->
  run (GET_link c) s =
  match findByCode c s with
  | None => (inr (json (JError (Some "Link not found")) 404), s)
  | Some l => (inr (json (JLink (serializeLink l)) 200), s)
  end.
Proof.
  intros Hc. unfold GET_link. run_query. destruct (findByCode c s); reflexivity.
Qed.

Lemma run_GET_link_refused c s :
  text_ok c = false ->
  run (GET_link c) s = (inr (json (JError (Some "Internal server error")) 500), s).
Proof.
  intros Hc. unfold GET_link. simpl. rewrite exec_select_refused by exact Hc.
  reflexivity.
Qed.

Lemma findByCode_with_row c s r :
  findByCode c s = None -> code r = c -> findByCode c (with_row s r) = Some r.
Proof.
  intros Hn Hc. unfold findByCode, with_row. simpl.
  rewrite find_app_none by exact Hn. simpl.
  apply code_eqb_true in Hc. rewrite Hc. reflexivity.
Qed.

Lemma valid_code_truthy c : valid (validateCode c) = true -> Js.truthy c = true.
Proof.
  destruct c; [|reflexivity]. intros H. discriminate H.
Qed.

Lemma validateCreateLinkRequest_valid url c :
  valid (validateUrl url) = true -> valid (validateCode c) = true ->
  valid (validateCreateLinkRequest url (Some c)) = true.
Proof.
  intros Hu Hc. unfold validateCreateLinkRequest. cbv zeta.
  rewrite Hu. cbn [negb Js.truthy_opt Js.string_of].
  rewrite (valid_code_truthy c Hc), Hc. reflexivity.
Qed.

(** [POST /api/links] with a valid custom code, served alone. *)
Lemma run_POST_custom url c now rng s :
  valid (validateUrl url) = true -> valid (validateCode c) = true ->
  run (POST {| req_targetUrl := url; req_customCode := Some c |} now rng) s =
  match findByCode c s with
  | Some _ => (inr conflict_response, s)
  | None => insert_outcome c url now s
  end.
Proof.
  intros Hu Hc. rewrite run_POST. cbv zeta. cbn [req_targetUrl req_customCode].
  rewrite (validateCreateLinkRequest_valid url c Hu Hc).
  cbn [negb Js.truthy_opt Js.string_of]. rewrite (valid_code_truthy c Hc).
  reflexivity.
Qed.

(** C8 (as amended). For a valid target URL and a valid custom code: whenever
    the create route answers 201, the lookup of that code that follows
    answers 200 with the link created - its target URL is the one supplied,
    its click count 0, its last click absent.  The create route does answer
    201 when no row holds the code, the URL is text the engine takes and the
    sequence behind [id] has not run out.  When a row holds the code already,
    the create route answers 409 and creates nothing, and the lookup that
    follows returns the row that was there. *)
Theorem create_then_get (url c : string) (now : Timestamp) (rng : nat -> nat) (s : Store) :
  valid (validateUrl url) = true ->
  valid (validateCode c) = true ->
  let body := {| req_targetUrl := url; req_customCode := Some c |} in
  (forall resp s1,
     run (POST body now rng) s = (inr resp, s1) -> status_of resp = 201%Z ->
     exists l : Link,
       resp = json (JLink (serializeLink l)) 201 /\
       run (GET_link c) s1 = (inr (json (JLink (serializeLink l)) 200), s1) /\
       code l = c /\ targetUrl l = url /\ totalClicks l = 0%Z /\ lastClickedAt l = None /\
       Serialized.targetUrl (serializeLink l) = url /\
       Serialized.totalClicks (serializeLink l) = 0%Z /\
       Serialized.lastClickedAt (serializeLink l) = None) /\
  (findByCode c s = None -> text_ok url = true -> (nextId s <= int4_max)%Z ->
     exists resp s1,
       run (POST body now rng) s = (inr resp, s1) /\ status_of resp = 201%Z) /\
  (forall old, findByCode c s = Some old ->
     run (POST body now rng) s = (inr conflict_response, s) /\
     run (GET_link c) s = (inr (json (JLink (serializeLink old)) 200), s)).
Proof.
  intros Hu Hc body.
  pose proof (regex_text_ok c (valid_code_regex c Hc)) as Hok.
  split; [|split].
  - intros resp s1 Hrun Hst. unfold body in Hrun.
    rewrite (run_POST_custom url c now rng s Hu Hc) in Hrun.
    destruct (findByCode c s) eqn:Hfree.
    { inversion Hrun; subst. discriminate Hst. }
    destruct (insert_outcome_201 _ _ _ _ _ _ Hrun Hst) as [-> [-> _]].
    exists (new_link s c url now). split; [reflexivity|]. split.
    + rewrite run_GET_link by exact Hok.
      rewrite findByCode_with_row by (exact Hfree || reflexivity). reflexivity.
    + repeat split.
  - intros Hfree Hurl Hn. eexists; eexists. unfold body.
    rewrite (run_POST_custom url c now rng s Hu Hc), Hfree.
    rewrite insert_outcome_accepted by assumption. split; reflexivity.
  - intros old Hold. unfold body.
    rewrite (run_POST_custom url c now rng s Hu Hc), Hold.
    split; [reflexivity|]. rewrite run_GET_link by exact Hok. rewrite Hold. reflexivity.
Qed.

(** ** Listing links *)

Lemma insert_by_createdAt_perm r l : Permutation (r :: l) (insert_by_createdAt r l).
Proof.
  induction l as [|x l IH]; simpl.
  - apply Permutation_refl.
  - destruct (sorts_before r x).
    + apply Permutation_refl.
    + eapply perm_trans; [apply perm_swap|]. apply perm_skip. exact IH.
Qed.

Lemma orderBy_createdAt_perm l : Permutation l (orderBy_createdAt l).
Proof.
  induction l as [|r l IH]; simpl.
  - apply perm_nil.
  - eapply perm_trans; [apply perm_skip; exact IH|]. apply insert_by_createdAt_perm.
Qed.

(** A row is put before another only if it was not created later, and after
    it only if it was not created earlier. *)
Lemma sorts_before_le r x : sorts_before r x = true -> (createdAt r <= createdAt x)%Z.
Proof.
  unfold sorts_before. intros H. apply orb_true_iff in H. destruct H as [H|H].
  - apply Z.ltb_lt in H. lia.
  - apply andb_true_iff in H. destruct H as [H _]. apply Z.eqb_eq in H. lia.
Qed.

Lemma sorts_before_ge r x : sorts_before r x = false -> (createdAt x <= createdAt r)%Z.
Proof.
  unfold sorts_before. intros H. apply orb_false_iff in H. destruct H as [H _].
  apply Z.ltb_ge in H. exact H.
Qed.

Lemma insert_by_createdAt_sorted r l :
  StronglySorted created_le l -> StronglySorted created_le (insert_by_createdAt r l).
Proof.
  induction l as [|x l IH]; intros Hs; simpl.
  - constructor; constructor.
  - inversion Hs as [|x' l' Hl Hx]; subst.
    destruct (sorts_before r x) eqn:E.
    + apply sorts_before_le in E.
      constructor; [exact Hs|]. constructor.
      * exact E.
      * eapply Forall_impl; [|exact Hx]. unfold created_le. intros a Ha. lia.
    + apply sorts_before_ge in E.
      constructor; [apply IH; exact Hl|].
      eapply Permutation_Forall; [apply insert_by_createdAt_perm|].
      constructor; [exact E | exact Hx].
Qed.

Lemma orderBy_createdAt_sorted l : StronglySorted created_le (orderBy_createdAt l).
Proof.
  induction l as [|r l IH]; simpl.
  - constructor.
  - apply insert_by_createdAt_sorted. exact IH.
Qed.

Lemma run_GET_links s :
  run GET_links s
  = (inr (json (JLinks (map serializeLink (orderBy_createdAt (rows s)))) 200), s).
Proof. unfold GET_links. run_query. reflexivity. Qed.

(** C9. Whatever the table holds, the list route answers 200 with one entry
    for each of its rows - each row once, none added - in ascending order of
    [createdAt], and leaves the table as it was.  An entry carries the
    [id], [code], [targetUrl] and [totalClicks] of its row, and its two dates
    written out by [toISOString] ([lastClickedAt] is null when the row has
    none). *)
Theorem list_all_ordered_by_createdAt (s : Store) :
  exists (links : list Link) (entries : list Serialized.SerializedLink),
    run GET_links s = (inr (json (JLinks entries) 200), s) /\
    Permutation (rows s) links /\
    StronglySorted created_le links /\
    Forall2 (fun (l : Link) (e : Serialized.SerializedLink) =>
               Serialized.id e = id l /\
               Serialized.code e = code l /\
               Serialized.targetUrl e = targetUrl l /\
               Serialized.totalClicks e = totalClicks l /\
               Serialized.lastClickedAt e = option_map toISOString (lastClickedAt l) /\
               Serialized.createdAt e = toISOString (createdAt l))
            links entries.
Proof.
  exists (orderBy_createdAt (rows s)), (map serializeLink (orderBy_createdAt (rows s))).
  split; [apply run_GET_links|]. split; [apply orderBy_createdAt_perm|].
  split; [apply orderBy_createdAt_sorted|].
  induction (orderBy_createdAt (rows s)) as [|l links IH]; cbn [map]; constructor.
  - repeat split.
  - exact IH.
Qed.
(** ** What a create request leaves *)

(** A create request served alone either answers 400, 409 or 500 and leaves
    the table as it was, or answers 201 with the row it has appended. *)
Lemma POST_outcome body now rng s :
  (exists resp, run (POST body now rng) s = (inr resp, s) /\
                In (status_of resp) [400; 409; 500]%Z) \/
  (exists c,
     run (POST body now rng) s
     = (inr (json (JLink (serializeLink (new_link s c (req_targetUrl body) now))) 201),
        with_row s (new_link s c (req_targetUrl body) now)) /\
     Js.truthy c = true /\ findByCode c s = None /\ codeRegex_test c = true /\
     text_ok (req_targetUrl body) = true /\ (nextId s <= int4_max)%Z /\
     (Js.truthy_opt (req_customCode body) = true -> req_customCode body = Some c) /\
     (Js.truthy_opt (req_customCode body) = false ->
        exists k, k < 3 /\ c = candidate rng k)).
Proof.
  assert (forall c, Js.truthy c = true -> findByCode c s = None ->
            codeRegex_test c = true ->
            (Js.truthy_opt (req_customCode body) = true -> req_customCode body = Some c) ->
            (Js.truthy_opt (req_customCode body) = false ->
               exists k, k < 3 /\ c = candidate rng k) ->
            (exists resp, insert_outcome c (req_targetUrl body) now s = (inr resp, s) /\
                          In (status_of resp) [400; 409; 500]%Z) \/
            (insert_outcome c (req_targetUrl body) now s
             = (inr (json (JLink (serializeLink (new_link s c (req_targetUrl body) now))) 201),
                with_row s (new_link s c (req_targetUrl body) now)) /\
             Js.truthy c = true /\ findByCode c s = None /\ codeRegex_test c = true /\
             text_ok (req_targetUrl body) = true /\ (nextId s <= int4_max)%Z /\
             (Js.truthy_opt (req_customCode body) = true -> req_customCode body = Some c) /\
             (Js.truthy_opt (req_customCode body) = false ->
                exists k, k < 3 /\ c = candidate rng k))) as Hins.
  { intros c Ht Hf R H1 H2. unfold insert_outcome, insert_refused.
    destruct (text_ok (req_targetUrl body)) eqn:Hu; cbn [negb].
    - destruct (Z.ltb_spec int4_max (nextId s)).
      + left. eexists. split; [reflexivity|].
        destruct (catch_response_status
                    (refused (InsertValues c (req_targetUrl body) 0%Z None now) OutOfRange))
          as [E|E]; rewrite E; simpl; auto.
      + right. repeat split; auto.
    - left. eexists. split; [reflexivity|].
      destruct (catch_response_status
                  (refused (InsertValues c (req_targetUrl body) 0%Z None now) InvalidText))
        as [E|E]; rewrite E; simpl; auto. }
  rewrite run_POST. cbv zeta.
  destruct (valid (validateCreateLinkRequest (req_targetUrl body) (req_customCode body)))
    eqn:V; cbn [negb].
  2:{ left. eexists. split; [reflexivity | simpl; auto]. }
  destruct (Js.truthy_opt (req_customCode body)) eqn:T.
  - pose proof (valid_request_regex _ _ V T) as R.
    destruct (findByCode (Js.string_of (req_customCode body)) s) eqn:E.
    { left. eexists. split; [reflexivity | simpl; auto]. }
    destruct (req_customCode body) as [c|] eqn:Hcc; [|discriminate T].
    cbn [Js.string_of Js.truthy_opt] in *.
    destruct (Hins c T E R) as [H|H]; [reflexivity | intros H; discriminate H | |].
    + left. exact H.
    + right. exists c. exact H.
  - destruct (find (fun c => negb (code_exists c s)) (map (candidate rng) (seq 0 3)))
      as [g|] eqn:E.
    2:{ left. eexists. split; [reflexivity | simpl; auto]. }
    apply find_map_seq_some in E. destruct E as [k [Hk [-> [Hfree _]]]].
    assert (findByCode (candidate rng k) s = None) as Hf.
    { unfold code_exists in Hfree.
      destruct (findByCode (candidate rng k) s); [discriminate | reflexivity]. }
    destruct (Hins (candidate rng k) (generateShortCode_truthy rng (6 * k)) Hf
                (candidate_regex rng k)) as [H|H].
    + intros H; discriminate H.
    + intros _. exists k. split; [exact Hk | reflexivity].
    + left. exact H.
    + right. exists (candidate rng k). exact H.
Qed.

Lemma POST_rows body now rng s :
  let s' := snd (run (POST body now rng) s) in
  rows s' = rows s \/
  exists c, rows s' = rows s ++ [new_link s c (req_targetUrl body) now] /\
            Js.truthy c = true /\ findByCode c s = None /\ codeRegex_test c = true.
Proof.
  cbv zeta. destruct (POST_outcome body now rng s) as [[resp [-> _]]|[c [-> H]]].
  - left. reflexivity.
  - right. exists c. split; [reflexivity|]. repeat split; apply H.
Qed.

Lemma POST_created body now rng s resp s1 :
  run (POST body now rng) s = (inr resp, s1) -> status_of resp = 201%Z ->
  exists c, resp = json (JLink (serializeLink (new_link s c (req_targetUrl body) now))) 201 /\
            s1 = with_row s (new_link s c (req_targetUrl body) now) /\
            findByCode c s = None /\ codeRegex_test c = true /\
            (Js.truthy_opt (req_customCode body) = false ->
               exists k, k < 3 /\ c = candidate rng k).
Proof.
  intros Hrun Hst.
  destruct (POST_outcome body now rng s) as [[resp' [H Hin]]|[c [H Hc]]];
    rewrite H in Hrun; inversion Hrun; subst.
  - exfalso. simpl in Hin. destruct Hin as [E|[E|[E|[]]]]; rewrite <- E in Hst;
      discriminate Hst.
  - exists c. repeat split; apply Hc.
Qed.

(** The same of a create request with whatever body. *)
Lemma POST_request_outcome request now rng s :
  (exists resp, run (POST_request request now rng) s = (inr resp, s) /\
                In (status_of resp) [400; 409; 500]%Z) \/
  (exists c url,
     run (POST_request request now rng) s
     = (inr (json (JLink (serializeLink (new_link s c url now))) 201),
        with_row s (new_link s c url now)) /\
     findByCode c s = None /\ codeRegex_test c = true).
Proof.
  destruct (POST_request_cases request now rng) as [[resp [-> Hin]]|[body ->]].
  - left. exists resp. split; [reflexivity | exact Hin].
  - destruct (POST_outcome body now rng s) as [H|[c [H Hc]]]; [left; exact H|].
    right. exists c, (req_targetUrl body). split; [exact H|]. split; apply Hc.
Qed.

(** ** An empty custom code *)

(** C10. A create request whose custom code is the empty string is handled as
    one without a custom code: validation is that of the target URL alone, the
    whole handler is the same program, and a link it creates carries a freshly
    generated 6-character code.  No create request, whatever its body, adds a
    row whose code is the empty string. *)
Theorem empty_custom_code_is_absent (url : string) (now : Timestamp) (rng : nat -> nat)
  (s : Store) :
  let body := {| req_targetUrl := url; req_customCode := Some EmptyString |} in
  let body0 := {| req_targetUrl := url; req_customCode := None |} in
  validateCreateLinkRequest url (Some EmptyString) = validateUrl url /\
  validateCreateLinkRequest url None = validateUrl url /\
  POST body now rng = POST body0 now rng /\
  (forall resp s1,
     run (POST body now rng) s = (inr resp, s1) -> status_of resp = 201%Z ->
     exists k, k < 3 /\
       code_exists (candidate rng k) s = false /\
       String.length (candidate rng k) = 6 /\
       resp = json (JLink (serializeLink (new_link s (candidate rng k) url now))) 201 /\
       s1 = with_row s (new_link s (candidate rng k) url now)) /\
  (forall anybody r,
     In r (rows (snd (run (POST anybody now rng) s))) ->
     In r (rows s) \/ code r <> EmptyString).
Proof.
  intros body body0.
  assert (forall cc, Js.truthy_opt cc = false ->
                     validateCreateLinkRequest url cc = validateUrl url) as Hv.
  { intros cc Hcc. unfold validateCreateLinkRequest. cbv zeta.
    assert (validateUrl url = ok_result \/ valid (validateUrl url) = false) as [Hok|Hbad].
    { unfold validateUrl.
      destruct (negb (Js.truthy url) || (String.length (Js.trim url) =? 0));
        [right; reflexivity|].
      destruct (negb (isURL url)); [right; reflexivity|].
      destruct (2048 <? String.length url); [right; reflexivity | left; reflexivity]. }
    - rewrite Hok. cbn [valid ok_result negb]. rewrite Hcc. reflexivity.
    - rewrite Hbad. reflexivity. }
  split; [apply Hv; reflexivity|]. split; [apply Hv; reflexivity|].
  split; [reflexivity|]. split.
  - intros resp s1 Hrun Hst.
    destruct (POST_created body now rng s resp s1 Hrun Hst)
      as [c [Hresp [Hs1 [Hfree [_ Hgen]]]]].
    destruct (Hgen eq_refl) as [k [Hk ->]].
    exists k. split; [exact Hk|]. split.
    { unfold code_exists. rewrite Hfree. reflexivity. }
    split; [apply generateShortCode_shape|]. split; [exact Hresp | exact Hs1].
  - intros anybody r Hin.
    destruct (POST_rows anybody now rng s) as [Hsame|[c [Hrows [Ht _]]]].
    + left. rewrite Hsame in Hin. exact Hin.
    + rewrite Hrows in Hin. apply in_app_or in Hin. destruct Hin as [Hin|[<-|[]]].
      * left. exact Hin.
      * right. cbn [new_link code]. intros Hc. rewrite Hc in Ht. discriminate Ht.
Qed.

(** ** What a redirect changes *)

Lemma click_same_identity c now r : same_identity r (click c now r).
Proof. unfold click, same_identity. destruct (code_eqb c r); repeat split. Qed.

Lemma map_click_same_identity c now l :
  Forall2 same_identity l (map (click c now) l).
Proof.
  induction l as [|r l IH]; simpl; constructor; [apply click_same_identity | exact IH].
Qed.

Lemma Forall2_same_identity_refl l : Forall2 same_identity l l.
Proof. induction l; constructor; [repeat split | assumption]. Qed.

Lemma click_hit c now r : code r = c -> click c now r = clicked now r.
Proof. intros H. unfold click. apply code_eqb_true in H. rewrite H. reflexivity. Qed.

Lemma click_miss c now r : code r <> c -> click c now r = r.
Proof. intros H. unfold click. apply code_eqb_false in H. rewrite H. reflexivity. Qed.

Lemma findByCode_code c s l : findByCode c s = Some l -> code l = c.
Proof.
  unfold findByCode. intros H. apply find_some in H. apply code_eqb_true. apply H.
Qed.

Lemma findByCode_update c now s l :
  findByCode c s = Some l ->
  findByCode c {| rows := map (click c now) (rows s); nextId := nextId s |}
  = Some (clicked now l).
Proof.
  intros Hl. unfold findByCode. cbn [rows]. rewrite find_map_click.
  fold (findByCode c s). rewrite Hl. cbn [option_map].
  rewrite (click_hit c now l (findByCode_code c s l Hl)). reflexivity.
Qed.

Lemma rows_after_DELETE c s :
  text_ok c = true ->
  rows (snd (run (DELETE_link c) s)) = filter (fun r => negb (code_eqb c r)) (rows s).
Proof.
  intros Hc. rewrite run_DELETE_link by exact Hc.
  destruct (findByCode c s) eqn:E; cbn [snd rows].
  - reflexivity.
  - symmetry. unfold findByCode in E. clear Hc.
    induction (rows s) as [|r l IH]; simpl in *; [reflexivity|].
    destruct (code_eqb c r); [discriminate|]. simpl. rewrite IH by exact E. reflexivity.
Qed.

(** C4. A redirect request that is answered with the 302 has found a row of
    its code, and has left the table with every row of that code one click up
    and its last click at the current time, and every other row as it was;
    the 302 is to the target URL of the row found.  It is answered so when
    the code is text the engine takes, no row of the code is at the top of
    the counter's range and [new URL] parses the target URL; when [new URL]
    does not, the click is counted all the same and the answer is 500.
    Whatever the answer, [id], [code], [targetUrl] and [createdAt] of every
    row are what they were.  The list and lookup routes change nothing; the
    create route only appends a row and the delete route only removes
    rows. *)
Theorem redirect_counts_one_click (req : Request) (now : Timestamp) (s : Store) :
  let s' := snd (serve req now s) in
  (forall c resp, req = ResolveAndRedirect c ->
     fst (serve req now s) = inr resp -> status_of resp = 302%Z ->
     exists l href,
       findByCode c s = Some l /\
       URL_href (targetUrl l) = Some href /\ resp = redirect href 302 /\
       findByCode c s' = Some (clicked now l) /\
       totalClicks (clicked now l) = (totalClicks l + 1)%Z /\
       lastClickedAt (clicked now l) = Some now /\
       rows s' = map (click c now) (rows s) /\
       (forall r, code r = c -> click c now r = clicked now r) /\
       (forall r, code r <> c -> click c now r = r)) /\
  (forall c l, req = ResolveAndRedirect c -> findByCode c s = Some l ->
     text_ok c = true -> room_for c 1 s ->
     serve req now s
     = (inr (match URL_href (targetUrl l) with
             | Some href => redirect href 302
             | None => text "Internal Server Error" 500
             end),
        {| rows := map (click c now) (rows s); nextId := nextId s |})) /\
  match req with
  | CreateLink request rng =>
      rows s' = rows s \/ exists r, rows s' = rows s ++ [r]
  | DeleteLink c =>
      rows s' = rows s \/ rows s' = filter (fun r => negb (code_eqb c r)) (rows s)
  | ListLinks | GetLink _ => s' = s
  | ResolveAndRedirect _ => Forall2 same_identity (rows s) (rows s')
  end.
Proof.
  intros s'. split; [|split].
  - intros c resp -> Hresp Hst. unfold s' in *. unfold serve in *. cbn [handler] in *.
    destruct (text_ok c) eqn:Hc.
    2:{ rewrite run_GET_redirect_refused in Hresp by exact Hc.
        inversion Hresp; subst. discriminate Hst. }
    rewrite run_GET_redirect in * by exact Hc.
    destruct (findByCode c s) as [l|] eqn:Hl.
    2:{ inversion Hresp; subst. discriminate Hst. }
    destruct (existsb (overflows c) (rows s)).
    { inversion Hresp; subst. discriminate Hst. }
    cbn [fst snd] in *. inversion Hresp; subst. unfold redirect_response in *.
    destruct (URL_href (targetUrl l)) as [href|] eqn:Hh; [|discriminate Hst].
    exists l, href. split; [reflexivity|]. split; [exact Hh|]. split; [reflexivity|].
    split; [apply findByCode_update; exact Hl|].
    repeat split.
    + apply click_hit.
    + apply click_miss.
  - intros c l -> Hl Hc Hroom. unfold serve. cbn [handler].
    rewrite run_GET_redirect, Hl by exact Hc.
    rewrite (room_no_overflow c 1 s) by (lia || exact Hroom). reflexivity.
  - unfold s', serve. destruct req as [request rng| |c|c|c]; cbn [handler].
    + destruct (POST_request_outcome request now rng s) as [[resp [-> _]]|[c [url [-> _]]]];
        [left; reflexivity|].
      right. eexists. reflexivity.
    + rewrite run_GET_links. reflexivity.
    + destruct (text_ok c) eqn:Hc.
      * rewrite run_GET_link by exact Hc. destruct (findByCode c s); reflexivity.
      * rewrite run_GET_link_refused by exact Hc. reflexivity.
    + destruct (text_ok c) eqn:Hc.
      * rewrite run_DELETE_link by exact Hc.
        destruct (findByCode c s); [right | left]; reflexivity.
      * rewrite run_DELETE_link_refused by exact Hc. left. reflexivity.
    + destruct (text_ok c) eqn:Hc.
      * rewrite run_GET_redirect by exact Hc. destruct (findByCode c s); cbn [snd rows].
        -- destruct (existsb (overflows c) (rows s)); cbn [snd rows].
           ++ apply Forall2_same_identity_refl.
           ++ apply map_click_same_identity.
        -- apply Forall2_same_identity_refl.
      * rewrite run_GET_redirect_refused by exact Hc. apply Forall2_same_identity_refl.
Qed.
(** ** Requests in flight together *)

Lemma step_await {A : Type} q (k : JsError + list Link -> Prog A) s :
  step (Await q k) s = (k (fst (exec q s)), snd (exec q s)).
Proof. unfold step. destruct (exec q s); reflexivity. Qed.

Lemma nth_error_set_nth_same {A : Type} (l : list A) : forall i x,
  nth_error l i = Some x -> set_nth i x l = l.
Proof.
  induction l as [|y l IH]; intros [|i] x H; simpl in *; try discriminate.
  - inversion H; reflexivity.
  - rewrite IH by exact H. reflexivity.
Qed.

Lemma Forall2_nth_error {A B : Type} (R : A -> B -> Prop) l l' :
  Forall2 R l l' -> forall i x, nth_error l i = Some x ->
  exists y, nth_error l' i = Some y /\ R x y.
Proof.
  induction 1 as [|a b l l' Hab H IH]; intros [|i] x Hx; simpl in *; try discriminate.
  - inversion Hx; subst. exists b. split; [reflexivity | exact Hab].
  - apply IH. exact Hx.
Qed.

Lemma Forall2_set_nth {A B : Type} (R : A -> B -> Prop) l l' :
  Forall2 R l l' -> forall i x y, R x y -> Forall2 R (set_nth i x l) (set_nth i y l').
Proof.
  induction 1 as [|a b l l' Hab H IH]; intros [|i] x y Hxy; simpl;
    constructor; auto.
Qed.

Lemma Forall_set_nth {A : Type} (P : A -> Prop) l :
  Forall P l -> forall i x, P x -> Forall P (set_nth i x l).
Proof.
  induction 1 as [|a l Ha H IH]; intros [|i] x Hx; simpl; constructor; auto.
Qed.

Lemma filter_length_set_nth {A : Type} (f : A -> bool) (l : list A) : forall i x y,
  nth_error l i = Some x ->
  List.length (filter f (set_nth i y l)) + (if f x then 1 else 0) =
  List.length (filter f l) + (if f y then 1 else 0).
Proof.
  induction l as [|a l IH]; intros [|i] x y H; simpl in *; try discriminate.
  - inversion H; subst. destruct (f x), (f y); simpl; lia.
  - specialize (IH i x y H). destruct (f a); simpl; lia.
Qed.

(** *** Concurrent redirects *)

Lemma clicker_GET_redirect c url now : clicker c url (GET_redirect c now) 2.
Proof.
  unfold GET_redirect. simpl. apply clicker_lookup. intros l Hc Hu. simpl.
  apply clicker_update. simpl. rewrite Hu.
  rewrite try_catch_NextResponse_redirect by reflexivity. apply clicker_done.
Qed.

Lemma same_identity_trans a b c :
  same_identity a b -> same_identity b c -> same_identity a c.
Proof.
  unfold same_identity. intros [H1 [H2 [H3 H4]]] [G1 [G2 [G3 G4]]].
  repeat split; congruence.
Qed.

(** A click uses up one of the clicks every row of the code has room for. *)
Lemma room_for_update c n now s :
  room_for c (n + 1) s ->
  room_for c n {| rows := map (click c now) (rows s); nextId := nextId s |}.
Proof.
  unfold room_for. cbn [rows]. intros H. apply Forall_forall. intros r Hin.
  apply in_map_iff in Hin. destruct Hin as [r0 [<- Hin]].
  rewrite Forall_forall in H. specialize (H r0 Hin).
  rewrite click_code. intros Hc. specialize (H Hc).
  rewrite (click_hit c now r0 Hc). cbn [clicked totalClicks]. lia.
Qed.

(** One statement of one redirect request: the request moves on by one
    statement, and the count rises exactly when an update has run; the rows
    of the code keep room for the updates still to come. *)
Lemma step_pool_clickers c url i pool s phases l :
  text_ok c = true ->
  Forall2 (clicker c url) pool phases ->
  findByCode c s = Some l -> targetUrl l = url ->
  room_for c (Z.of_nat (pending phases)) s ->
  let (pool', s') := step_pool i pool s in
  Forall2 (clicker c url) pool' (advance phases i) /\
  room_for c (Z.of_nat (pending (advance phases i))) s' /\
  exists l', findByCode c s' = Some l' /\ targetUrl l' = url /\ same_identity l l' /\
    (totalClicks l' + Z.of_nat (pending (advance phases i)) =
     totalClicks l + Z.of_nat (pending phases))%Z.
Proof.
  intros Hok Hpool Hl Hu Hroom. unfold step_pool, advance.
  destruct (nth_error pool i) as [m|] eqn:Hm.
  - destruct (Forall2_nth_error _ _ _ Hpool i m Hm) as [p [Hp Hc]].
    rewrite Hp. destruct Hc as [|now k Hk|k Hk].
    + (* answered already *)
      cbn [step Nat.pred]. rewrite (nth_error_set_nth_same pool i _ Hm).
      rewrite (nth_error_set_nth_same phases i _ Hp).
      split; [exact Hpool|]. split; [exact Hroom|]. exists l. repeat split; auto.
    + (* the update *)
      pose proof (filter_length_set_nth (fun p => negb (p =? 0)) phases i 1 0 Hp) as Hlen.
      cbn [Nat.eqb negb] in Hlen. fold (pending phases) in Hlen.
      fold (pending (set_nth i 0 phases)) in Hlen.
      assert (Z.of_nat (pending phases)
              = (Z.of_nat (pending (set_nth i 0%nat phases)) + 1)%Z) as Hpend by lia.
      rewrite step_await.
      rewrite exec_update
        by (exact Hok || (apply (room_no_overflow c (Z.of_nat (pending phases)));
                          [lia | exact Hroom])).
      cbn [fst snd Nat.pred].
      split; [apply Forall2_set_nth; assumption|].
      split; [apply room_for_update; rewrite <- Hpend; exact Hroom|].
      exists (clicked now l). split; [apply findByCode_update; exact Hl|].
      split; [exact Hu|]. split; [repeat split|]. cbn [clicked totalClicks]. lia.
    + (* the lookup *)
      pose proof (filter_length_set_nth (fun p => negb (p =? 0)) phases i 2 1 Hp) as Hlen.
      cbn [Nat.eqb negb] in Hlen. fold (pending phases) in Hlen.
      fold (pending (set_nth i 1 phases)) in Hlen.
      assert (pending (set_nth i 1 phases) = pending phases) as Hpend by lia.
      rewrite step_await, exec_select, Hl by exact Hok. cbn [fst snd Nat.pred].
      rewrite Hpend. split.
      * apply Forall2_set_nth; [assumption|].
        apply Hk; [eapply findByCode_code; eassumption | exact Hu].
      * split; [exact Hroom|]. exists l. repeat split; auto.
  - destruct (nth_error phases i) as [p|] eqn:Hp.
    + exfalso. apply nth_error_None in Hm.
      assert (i < List.length phases) as Hlt by (apply nth_error_Some; congruence).
      rewrite <- (Forall2_length Hpool) in Hlt. lia.
    + split; [exact Hpool|]. split; [exact Hroom|]. exists l. repeat split; auto.
Qed.

Lemma run_schedule_clickers c url sched : forall pool s phases l,
  text_ok c = true ->
  Forall2 (clicker c url) pool phases ->
  findByCode c s = Some l -> targetUrl l = url ->
  room_for c (Z.of_nat (pending phases)) s ->
  let (pool', s') := run_schedule sched pool s in
  Forall2 (clicker c url) pool' (fold_left advance sched phases) /\
  exists l', findByCode c s' = Some l' /\ targetUrl l' = url /\ same_identity l l' /\
    (totalClicks l' + Z.of_nat (pending (fold_left advance sched phases)) =
     totalClicks l + Z.of_nat (pending phases))%Z.
Proof.
  induction sched as [|i sched IH]; intros pool s phases l Hok Hpool Hl Hu Hroom.
  - cbn [run_schedule fold_left]. split; [exact Hpool|]. exists l. repeat split; auto.
  - cbn [run_schedule fold_left].
    pose proof (step_pool_clickers c url i pool s phases l Hok Hpool Hl Hu Hroom) as Hstep.
    destruct (step_pool i pool s) as [pool1 s1].
    destruct Hstep as [Hpool1 [Hroom1 [l1 [Hl1 [Hu1 [Hid1 Hcount1]]]]]].
    specialize (IH pool1 s1 (advance phases i) l1 Hok Hpool1 Hl1 Hu1 Hroom1).
    destruct (run_schedule sched pool1 s1) as [pool' s'].
    destruct IH as [Hpool' [l' [Hl' [Hu' [Hid' Hcount']]]]].
    split; [exact Hpool'|]. exists l'.
    split; [exact Hl'|]. split; [exact Hu'|]. split; [|lia].
    eapply same_identity_trans; eassumption.
Qed.
Lemma set_nth_length {A : Type} (l : list A) : forall i x,
  List.length (set_nth i x l) = List.length l.
Proof.
  induction l as [|y l IH]; intros [|i] x; simpl; try reflexivity.
  rewrite IH. reflexivity.
Qed.

Lemma nth_error_set_nth {A : Type} (l : list A) : forall i j x,
  nth_error (set_nth i x l) j =
  if j =? i then match nth_error l j with Some _ => Some x | None => None end
  else nth_error l j.
Proof.
  induction l as [|y l IH]; intros [|i] [|j] x; simpl; try reflexivity.
  - destruct (j =? i); reflexivity.
  - apply IH.
Qed.

Lemma advance_length phases i : List.length (advance phases i) = List.length phases.
Proof.
  unfold advance. destruct (nth_error phases i); [apply set_nth_length | reflexivity].
Qed.

Lemma nth_error_advance phases i j p :
  nth_error phases j = Some p ->
  nth_error (advance phases i) j = Some (if j =? i then Nat.pred p else p).
Proof.
  intros Hp. unfold advance. destruct (Nat.eqb_spec j i) as [->|Hne].
  - rewrite Hp, nth_error_set_nth, Nat.eqb_refl, Hp. reflexivity.
  - destruct (nth_error phases i); [|exact Hp].
    rewrite nth_error_set_nth. apply Nat.eqb_neq in Hne. rewrite Hne. exact Hp.
Qed.

Lemma nth_error_fold_advance sched : forall phases j p,
  nth_error phases j = Some p ->
  nth_error (fold_left advance sched phases) j
  = Some (p - count_occ Nat.eq_dec sched j).
Proof.
  induction sched as [|i sched IH]; intros phases j p Hp; cbn [fold_left count_occ].
  - rewrite Nat.sub_0_r. exact Hp.
  - rewrite (IH _ j _ (nth_error_advance phases i j p Hp)).
    destruct (Nat.eq_dec i j) as [->|Hne].
    + rewrite Nat.eqb_refl. f_equal. lia.
    + assert ((j =? i) = false) as -> by (apply Nat.eqb_neq; congruence). reflexivity.
Qed.

Lemma fold_advance_length sched : forall phases,
  List.length (fold_left advance sched phases) = List.length phases.
Proof.
  induction sched as [|i sched IH]; intros phases; cbn [fold_left]; [reflexivity|].
  rewrite IH. apply advance_length.
Qed.

Lemma all_zero_repeat (l : list nat) :
  (forall j, j < List.length l -> nth_error l j = Some 0) -> l = repeat 0 (List.length l).
Proof.
  induction l as [|x l IH]; intros H; simpl; [reflexivity|].
  f_equal.
  - specialize (H 0). simpl in H. assert (Some x = Some 0) as E by (apply H; lia).
    inversion E; reflexivity.
  - apply IH. intros j Hj. apply (H (S j)). simpl. lia.
Qed.

Lemma nth_error_repeat_lt {A : Type} (x : A) n j :
  j < n -> nth_error (repeat x n) j = Some x.
Proof.
  revert j. induction n as [|n IH]; intros [|j] H; simpl; try lia; try reflexivity.
  apply IH. lia.
Qed.

(** Once every request has been scheduled twice, none has a statement left. *)
Lemma fold_advance_fair sched n :
  (forall i, i < n -> 2 <= count_occ Nat.eq_dec sched i) ->
  fold_left advance sched (repeat 2 n) = repeat 0 n.
Proof.
  intros Hfair.
  pose proof (fold_advance_length sched (repeat 2 n)) as Hlen.
  rewrite repeat_length in Hlen.
  rewrite <- Hlen at 2. apply all_zero_repeat. rewrite Hlen. intros j Hj.
  rewrite (nth_error_fold_advance sched (repeat 2 n) j 2)
    by (apply nth_error_repeat_lt; exact Hj).
  f_equal. specialize (Hfair j Hj). lia.
Qed.

Lemma clickers_all_done c url pool : forall n,
  Forall2 (clicker c url) pool (repeat 0 n) ->
  map finished pool = repeat (Some (redirect_response url)) n.
Proof.
  induction pool as [|m pool IH]; intros [|n] H; simpl in *;
    inversion H; subst; try reflexivity.
  match goal with Hc : clicker _ _ _ 0 |- _ => inversion Hc; subst end.
  simpl. f_equal. apply IH. assumption.
Qed.

Lemma pending_repeat_2 n : pending (repeat 2 n) = n.
Proof. unfold pending. induction n; simpl; [reflexivity | rewrite IHn; reflexivity]. Qed.

Lemma pending_repeat_0 n : pending (repeat 0 n) = 0.
Proof. unfold pending. induction n; simpl; [reflexivity | exact IHn]. Qed.

Lemma clickers_initial c url nows :
  Forall2 (clicker c url) (map (GET_redirect c) nows) (repeat 2 (List.length nows)).
Proof.
  induction nows as [|now nows IH]; simpl; constructor;
    [apply clicker_GET_redirect | exact IH].
Qed.

(** *** Concurrent creates of one custom code *)

Lemma creator_POST c body now rng :
  req_customCode body = Some c -> Js.truthy c = true ->
  creator c (POST body now rng) /\ answered 201 (POST body now rng) = false.
Proof.
  intros Hc Ht. unfold POST, POST_steps. cbv zeta. rewrite Hc.
  destruct (negb (valid (validateCreateLinkRequest (req_targetUrl body) (Some c)))).
  - split; [|reflexivity]. apply creator_done. simpl. auto.
  - cbn [Js.truthy_opt Js.string_of]. rewrite Ht. split; [|reflexivity].
    simpl. apply creator_check; intros [e|[|l found]]; simpl; try reflexivity.
    + rewrite POST_catch_response. apply creator_done.
      destruct (catch_response_status e) as [H|H]; rewrite H; simpl; auto.
    + apply creator_insert.
      * intros e. simpl. rewrite POST_catch_response. eexists. split; [reflexivity|].
        apply catch_response_status.
      * intros row. simpl. eexists. split; reflexivity.
    + apply creator_done. simpl. auto.
    + rewrite POST_catch_response. unfold answered. cbn [finished].
      destruct (catch_response_status e) as [H|H]; rewrite H; reflexivity.
Qed.

Lemma code_exists_same_rows c s s' : rows s' = rows s -> code_exists c s' = code_exists c s.
Proof. unfold code_exists, findByCode. intros ->. reflexivity. Qed.

Lemma count_status_set_nth st pool i m m' :
  nth_error pool i = Some m ->
  count_status st (set_nth i m' pool) + (if answered st m then 1 else 0) =
  count_status st pool + (if answered st m' then 1 else 0).
Proof. intros H. unfold count_status. apply filter_length_set_nth. exact H. Qed.

Transparent exec.

Lemma exec_select_store c s : snd (exec (SelectByCode c) s) = s.
Proof. unfold exec, refusal. destruct (text_ok c); reflexivity. Qed.

Opaque exec.

(** One statement of one create request for [c]: at most [b] requests have
    been answered 201, and when [b] have, a row holds [c]. *)
Lemma step_pool_creators c b i pool s :
  Forall (creator c) pool ->
  count_status 201 pool <= b ->
  (count_status 201 pool = b -> code_exists c s = true) ->
  let (pool', s') := step_pool i pool s in
  Forall (creator c) pool' /\
  count_status 201 pool' <= b /\
  (count_status 201 pool' = b -> code_exists c s' = true).
Proof.
  intros Hpool Hle Hex. unfold step_pool.
  destruct (nth_error pool i) as [m|] eqn:Hm; [|auto].
  pose proof (proj1 (Forall_forall _ _) Hpool m (nth_error_In _ _ Hm)) as Hc.
  destruct Hc as [resp Hst|url now k Hconf Hok|k Hk Hans].
  - cbn [step]. rewrite (nth_error_set_nth_same pool i _ Hm). auto.
  - rewrite step_await, exec_insert.
    destruct (refusal (InsertValues c url 0%Z None now) s) as [why|] eqn:El;
      cbn [fst snd].
    + destruct (Hconf (refused (InsertValues c url 0%Z None now) why))
        as [resp [Hk Hst]].
      rewrite Hk.
      pose proof (count_status_set_nth 201 pool i _ (Ret resp) Hm) as Hlen.
      change (answered 201 (Await (InsertValues c url 0 None now) k)) with false in Hlen.
      assert (answered 201 (Ret resp) = false) as Hans
        by (unfold answered; cbn [finished]; destruct Hst as [E|E]; rewrite E; reflexivity).
      rewrite Hans in Hlen. cbv iota in Hlen.
      split; [apply Forall_set_nth; [exact Hpool|]|].
      { apply creator_done. destruct Hst as [E|E]; rewrite E; simpl; auto. }
      split; [lia|]. intros Hb.
      rewrite (code_exists_same_rows c s) by apply after_refusal_rows. apply Hex. lia.
    + apply refusal_insert_none in El.
      destruct (Hok (new_link s c url now)) as [resp [Hk Hst]].
      unfold new_link in Hk. rewrite Hk.
      pose proof (count_status_set_nth 201 pool i _ (Ret resp) Hm) as Hlen.
      change (answered 201 (Await (InsertValues c url 0 None now) k)) with false in Hlen.
      assert (answered 201 (Ret resp) = true) as Hans
        by (unfold answered; cbn [finished]; rewrite Hst; reflexivity).
      rewrite Hans in Hlen.
      assert (count_status 201 pool <> b) as Hne.
      { intros Hb. apply Hex in Hb. unfold code_exists in Hb. rewrite El in Hb.
        discriminate Hb. }
      split; [apply Forall_set_nth; [exact Hpool|]|].
      { apply creator_done. rewrite Hst. simpl. auto. }
      split; [lia|]. intros _.
      unfold code_exists.
      fold (new_link s c url now). fold (with_row s (new_link s c url now)).
      rewrite (findByCode_with_row c s (new_link s c url now) El eq_refl). reflexivity.
  - rewrite step_await, exec_select_store.
    specialize (Hk (fst (exec (SelectByCode c) s))).
    specialize (Hans (fst (exec (SelectByCode c) s))).
    pose proof (count_status_set_nth 201 pool i _
                  (k (fst (exec (SelectByCode c) s))) Hm) as Hlen.
    rewrite Hans in Hlen.
    change (answered 201 (Await (SelectByCode c) k)) with false in Hlen.
    cbv iota in Hlen.
    split; [apply Forall_set_nth; assumption|].
    split; [lia|]. intros Hb. apply Hex. lia.
Qed.

Lemma run_schedule_creators c b sched : forall pool s,
  Forall (creator c) pool ->
  count_status 201 pool <= b ->
  (count_status 201 pool = b -> code_exists c s = true) ->
  let (pool', s') := run_schedule sched pool s in
  Forall (creator c) pool' /\
  count_status 201 pool' <= b /\
  (count_status 201 pool' = b -> code_exists c s' = true).
Proof.
  induction sched as [|i sched IH]; intros pool s Hpool Hle Hex; cbn [run_schedule].
  - auto.
  - pose proof (step_pool_creators c b i pool s Hpool Hle Hex) as Hstep.
    destruct (step_pool i pool s) as [pool1 s1].
    destruct Hstep as [H1 [H2 H3]]. apply IH; assumption.
Qed.

(** *** Uniqueness of [code] *)

Lemma map_code_click c now l : map code (map (click c now) l) = map code l.
Proof. rewrite map_map. apply map_ext. intros r. apply click_code. Qed.

Lemma map_code_set_clicks c n now l : map code (map (set_clicks c n now) l) = map code l.
Proof.
  rewrite map_map. apply map_ext. intros r. unfold set_clicks.
  destruct (code_eqb c r); reflexivity.
Qed.

Lemma NoDup_map_filter {A B : Type} (g : A -> B) (f : A -> bool) (l : list A) :
  NoDup (map g l) -> NoDup (map g (filter f l)).
Proof.
  induction l as [|x l IH]; simpl; intros H; [constructor|].
  inversion H as [|y l' Hnin Hnd]; subst.
  destruct (f x); simpl; [|apply IH; exact Hnd].
  constructor; [|apply IH; exact Hnd].
  intros Hin. apply Hnin. apply in_map_iff in Hin. destruct Hin as [z [Hz Hin]].
  apply filter_In in Hin. apply in_map_iff. exists z. split; [exact Hz | apply Hin].
Qed.

Lemma find_none_not_in c l :
  find (code_eqb c) l = None -> ~ In c (map code l).
Proof.
  intros Hf Hin. apply in_map_iff in Hin. destruct Hin as [r [Hc Hr]].
  pose proof (find_none _ _ Hf r Hr) as H. apply code_eqb_false in H. contradiction.
Qed.

Transparent exec.

Lemma exec_unique_codes q s : unique_codes s -> unique_codes (snd (exec q s)).
Proof.
  unfold unique_codes, exec. intros H.
  destruct (refusal q s) as [why|] eqn:E.
  - cbn [snd]. rewrite after_refusal_rows. exact H.
  - destruct q as [c| |c now|c n now|c url n last created|c]; cbn [snd rows]; auto.
    + rewrite map_code_click. exact H.
    + rewrite map_code_set_clicks. exact H.
    + apply refusal_insert_none in E. rewrite map_app. cbn [map code].
      apply NoDup_app; [exact H | constructor; [intros [] | constructor] |].
      intros x Hx [<-|[]]. eapply find_none_not_in; eauto.
    + apply NoDup_map_filter. exact H.
Qed.

Opaque exec.

Lemma step_unique_codes {A : Type} (m : Prog A) s :
  unique_codes s -> unique_codes (snd (step m s)).
Proof.
  intros H. destruct m as [a|e|q k]; [exact H | exact H |].
  rewrite step_await. cbn [snd]. apply exec_unique_codes. exact H.
Qed.

Lemma run_unique_codes {A : Type} (m : Prog A) : forall s,
  unique_codes s -> unique_codes (snd (run m s)).
Proof.
  induction m as [a|e|q k IH]; intros s H; [exact H | exact H |].
  simpl. pose proof (exec_unique_codes q s H) as Hq.
  destruct (exec q s) as [r s1]. apply IH. exact Hq.
Qed.

Lemma run_schedule_unique_codes {A : Type} sched : forall (pool : list (Prog A)) s,
  unique_codes s -> unique_codes (snd (run_schedule sched pool s)).
Proof.
  induction sched as [|i sched IH]; intros pool s H; cbn [run_schedule]; [exact H|].
  unfold step_pool. destruct (nth_error pool i) as [m|]; [|apply IH; exact H].
  pose proof (step_unique_codes m s H) as Hs.
  destruct (step m s) as [m' s1]. apply IH. exact Hs.
Qed.

Lemma count_status_none st pool :
  Forall (fun m => answered st m = false) pool -> count_status st pool = 0.
Proof.
  unfold count_status. induction 1 as [|m pool Hm H IH]; simpl; [reflexivity|].
  rewrite Hm. exact IH.
Qed.

Lemma create_requests_creators c reqs :
  Js.truthy c = true ->
  Forall (creator c) (create_requests c reqs) /\
  count_status 201 (create_requests c reqs) = 0.
Proof.
  intros Ht. unfold create_requests. split.
  - apply Forall_forall. intros m Hin. apply in_map_iff in Hin.
    destruct Hin as [[[url now] rng] [<- _]].
    apply (creator_POST c); [reflexivity | exact Ht].
  - apply count_status_none. apply Forall_forall. intros m Hin. apply in_map_iff in Hin.
    destruct Hin as [[[url now] rng] [<- _]].
    apply (creator_POST c); [reflexivity | exact Ht].
Qed.

(** A valid create request whose lookup found the code free and whose insert
    finds it taken: the insert is refused for the unique constraint, and the
    answer is what the [catch] block makes of the error's message. *)
Lemma POST_insert_after_lookup body now rng c s s2 :
  req_customCode body = Some c -> Js.truthy c = true ->
  valid (validateCreateLinkRequest (req_targetUrl body) (Some c)) = true ->
  code_exists c s = false -> code_exists c s2 = true ->
  text_ok (req_targetUrl body) = true -> (nextId s2 <= int4_max)%Z ->
  let (t, s1) := step (POST body now rng) s in
  s1 = s /\
  run t s2
  = (inr (catch_response
            (refused (InsertValues c (req_targetUrl body) 0%Z None now) UniqueViolation)),
     {| rows := rows s2; nextId := (nextId s2 + 1)%Z |}).
Proof.
  intros Hcc T V Hfree Htaken Hu Hn.
  pose proof (valid_request_regex _ (Some c) V T) as R. cbn [Js.string_of] in R.
  unfold POST, POST_steps. cbv zeta. rewrite Hcc, V. cbn [negb Js.truthy_opt Js.string_of].
  rewrite T. cbn [bind try_catch await].
  rewrite step_await, exec_select by (apply regex_text_ok; exact R). cbn [fst snd].
  split; [reflexivity|].
  unfold code_exists in Hfree, Htaken.
  destruct (findByCode c s); [discriminate Hfree|].
  cbn [List.length Nat.ltb Nat.leb bind try_catch run].
  rewrite exec_insert.
  destruct (findByCode c s2) as [l|] eqn:E; [|discriminate Htaken].
  rewrite (refusal_insert_taken c _ now s2 l R E Hu Hn).
  cbn [after_refusal bind try_catch]. rewrite POST_catch_response. reflexivity.
Qed.

(** ** Validation of create requests *)

(** Membership in a list given in full. *)
Ltac in_list := simpl; repeat (first [left; reflexivity | right]).

Lemma validateUrl_cases url :
  validateUrl url = ok_result \/
  validateUrl url = invalid msg_url_required \/
  validateUrl url = invalid msg_url_format \/
  validateUrl url = invalid msg_url_long.
Proof.
  unfold validateUrl.
  destruct (negb (Js.truthy url) || (String.length (Js.trim url) =? 0)); [auto|].
  destruct (negb (isURL url)); [auto|].
  destruct (2048 <? String.length url); auto.
Qed.

(** X1. [validateUrl] accepts a URL exactly when it is not blank, [isURL]
    accepts it and it has at most 2048 characters.  A blank URL is reported
    as required whatever [isURL] says of it, a URL [isURL] rejects as badly
    formatted whatever its length, and only a well-formed one as too long. *)
Theorem validateUrl_spec (url : string) :
  (valid (validateUrl url) = true <->
     ~ blank url /\ isURL url = true /\ String.length url <= 2048) /\
  (blank url -> validateUrl url = invalid msg_url_required) /\
  (~ blank url -> isURL url = false -> validateUrl url = invalid msg_url_format) /\
  (~ blank url -> isURL url = true -> 2048 < String.length url ->
     validateUrl url = invalid msg_url_long) /\
  (valid (validateUrl url) = true -> validateUrl url = ok_result).
Proof.
  pose proof (validateCode_blank_branch url) as Hb.
  unfold validateUrl.
  destruct (negb (Js.truthy url) || (String.length (Js.trim url) =? 0)) eqn:B.
  - assert (blank url) as Hbl by (apply Hb; reflexivity).
    split; [|split; [|split; [|split]]]; simpl.
    + split; [discriminate | intros [H _]; contradiction].
    + reflexivity.
    + intros H; contradiction.
    + intros H; contradiction.
    + discriminate.
  - assert (~ blank url) as Hnb by (intros H; apply Hb in H; discriminate).
    destruct (isURL url) eqn:U; cbn [negb].
    + destruct (Nat.ltb_spec 2048 (String.length url)) as [Hlong|Hshort].
      * split; [|split; [|split; [|split]]]; simpl.
        -- split; [discriminate | intros [_ [_ H]]; lia].
        -- intros H; contradiction.
        -- discriminate.
        -- reflexivity.
        -- discriminate.
      * split; [|split; [|split; [|split]]]; simpl.
        -- split; [intros _; repeat split; auto | reflexivity].
        -- intros H; contradiction.
        -- discriminate.
        -- intros _ _ H; lia.
        -- reflexivity.
    + split; [|split; [|split; [|split]]]; simpl.
      * split; [discriminate | intros [_ [H _]]; discriminate H].
      * intros H; contradiction.
      * reflexivity.
      * discriminate.
      * discriminate.
Qed.

(** X2. The composite validation reports the URL's error first, so an error
    of the custom code shows only for a valid URL; the request is valid
    exactly when the URL is and the custom code is absent, empty or valid. *)
Theorem validateCreateLinkRequest_spec (targetUrl : string) (customCode : option string) :
  (valid (validateUrl targetUrl) = false ->
     validateCreateLinkRequest targetUrl customCode = validateUrl targetUrl) /\
  (valid (validateUrl targetUrl) = true -> Js.truthy_opt customCode = true ->
     validateCreateLinkRequest targetUrl customCode
     = validateCode (Js.string_of customCode)) /\
  (valid (validateUrl targetUrl) = true -> Js.truthy_opt customCode = false ->
     validateCreateLinkRequest targetUrl customCode = ok_result) /\
  (valid (validateCreateLinkRequest targetUrl customCode) = true <->
     valid (validateUrl targetUrl) = true /\
     (Js.truthy_opt customCode = false \/
      valid (validateCode (Js.string_of customCode)) = true)).
Proof.
  unfold validateCreateLinkRequest. cbv zeta.
  destruct (valid (validateUrl targetUrl)) eqn:U; cbn [negb].
  - destruct (Js.truthy_opt customCode) eqn:T.
    + destruct (valid (validateCode (Js.string_of customCode))) eqn:C; cbn [negb].
      * split; [discriminate|]. split.
        { intros _ _. symmetry. apply regex_valid.
          destruct (codeRegex_test (Js.string_of customCode)) eqn:R; [reflexivity|].
          unfold validateCode in C. rewrite R in C.
          destruct (negb (Js.truthy (Js.string_of customCode))
                    || (String.length (Js.trim (Js.string_of customCode)) =? 0));
            [discriminate C|].
          cbn [negb] in C.
          destruct (String.length (Js.string_of customCode) <? 6); [discriminate C|].
          destruct (8 <? String.length (Js.string_of customCode)); discriminate C. }
        split; [discriminate|]. split; [auto | reflexivity].
      * split; [discriminate|]. split; [reflexivity|]. split; [discriminate|].
        rewrite C. split; [discriminate|]. intros [_ [H|H]]; discriminate H.
    + split; [discriminate|]. split; [discriminate|]. split; [reflexivity|].
      split; [auto | reflexivity].
  - split; [reflexivity|]. split; [discriminate|]. split; [discriminate|].
    rewrite U. split; [discriminate | intros [H _]; discriminate H].
Qed.

(** X3. A create request that does not pass validation is answered 400 with
    the validation message without a statement being sent to the database:
    the handler is finished before its first query, so the table is as it
    was, whatever else is in flight. *)
Theorem POST_invalid_request (body : CreateLinkRequest) (now : Timestamp)
  (rng : nat -> nat) :
  valid (validateCreateLinkRequest (req_targetUrl body) (req_customCode body)) = false ->
  exists msg,
    error (validateCreateLinkRequest (req_targetUrl body) (req_customCode body)) = Some msg /\
    In msg [msg_url_required; msg_url_format; msg_url_long;
            msg_code_required; msg_code_short; msg_code_long; msg_code_chars] /\
    POST body now rng = Ret (json (JError (Some msg)) 400) /\
    forall s, run (POST body now rng) s = (inr (json (JError (Some msg)) 400), s).
Proof.
  intros Hv.
  assert (exists msg,
            validateCreateLinkRequest (req_targetUrl body) (req_customCode body)
            = invalid msg /\
            In msg [msg_url_required; msg_url_format; msg_url_long;
                    msg_code_required; msg_code_short; msg_code_long; msg_code_chars])
    as [msg [Hmsg Hin]].
  { revert Hv. unfold validateCreateLinkRequest. cbv zeta.
    destruct (validateUrl_cases (req_targetUrl body)) as [H|[H|[H|H]]]; rewrite H;
      cbn [valid ok_result invalid negb]; intros Hv;
      try (eexists; split; [reflexivity | in_list]).
    destruct (Js.truthy_opt (req_customCode body)); [|discriminate Hv].
    revert Hv. unfold validateCode.
    destruct (negb (Js.truthy (Js.string_of (req_customCode body)))
              || (String.length (Js.trim (Js.string_of (req_customCode body))) =? 0)).
    { intros _. eexists; split; [reflexivity | in_list]. }
    destruct (negb (codeRegex_test (Js.string_of (req_customCode body))));
      [|discriminate].
    destruct (String.length (Js.string_of (req_customCode body)) <? 6).
    { intros _. eexists; split; [reflexivity | in_list]. }
    destruct (8 <? String.length (Js.string_of (req_customCode body)));
      intros _; eexists; (split; [reflexivity | in_list]). }
  exists msg. split; [rewrite Hmsg; reflexivity|]. split; [exact Hin|].
  assert (POST body now rng = Ret (json (JError (Some msg)) 400)) as Hp.
  { unfold POST. cbv zeta. rewrite Hv. cbn [negb try_catch]. rewrite Hmsg. reflexivity. }
  split; [exact Hp|]. intros s. rewrite Hp. reflexivity.
Qed.
(** ** Deleting, re-creating and clicking *)

Lemma find_filter_other c c' l :
  c' <> c ->
  find (code_eqb c') (filter (fun r => negb (code_eqb c r)) l) = find (code_eqb c') l.
Proof.
  intros Hne. induction l as [|r l IH]; simpl; [reflexivity|].
  destruct (code_eqb c r) eqn:E; simpl.
  - apply code_eqb_true in E.
    assert (code_eqb c' r = false) as -> by (apply code_eqb_false; congruence).
    exact IH.
  - destruct (code_eqb c' r); [reflexivity | exact IH].
Qed.

Lemma nextId_after_DELETE c s : nextId (snd (run (DELETE_link c) s)) = nextId s.
Proof.
  destruct (text_ok c) eqn:Hc.
  - rewrite run_DELETE_link by exact Hc. destruct (findByCode c s); reflexivity.
  - rewrite run_DELETE_link_refused by exact Hc. reflexivity.
Qed.

(** X4. For a code the engine takes as text: the delete route answers 404
    when the code has no row and changes nothing; when it has one it answers
    200 with that code.  Either way no row holds the code afterwards, the
    rows of every other code are as they were, and a lookup or a second
    delete of the code is answered 404. *)
Theorem delete_removes_the_code (c : string) (s : Store) :
  text_ok c = true ->
  let s' := snd (run (DELETE_link c) s) in
  (findByCode c s = None ->
     run (DELETE_link c) s = (inr (json (JError (Some "Link not found")) 404), s)) /\
  (findByCode c s <> None ->
     fst (run (DELETE_link c) s)
     = inr (json (JDeleted "Link deleted successfully" c) 200)) /\
  findByCode c s' = None /\
  (forall c', c' <> c -> findByCode c' s' = findByCode c' s) /\
  run (GET_link c) s' = (inr (json (JError (Some "Link not found")) 404), s') /\
  run (DELETE_link c) s' = (inr (json (JError (Some "Link not found")) 404), s').
Proof.
  intros Hc s'.
  assert (findByCode c s' = None) as Hgone by (apply findByCode_after_DELETE; exact Hc).
  split; [|split; [|split; [|split; [|split]]]].
  - intros H. rewrite run_DELETE_link, H by exact Hc. reflexivity.
  - intros H. rewrite run_DELETE_link by exact Hc.
    destruct (findByCode c s); [reflexivity | contradiction].
  - exact Hgone.
  - intros c' Hne. unfold findByCode, s'. rewrite rows_after_DELETE by exact Hc.
    apply find_filter_other. exact Hne.
  - rewrite run_GET_link, Hgone by exact Hc. reflexivity.
  - rewrite run_DELETE_link, Hgone by exact Hc. reflexivity.
Qed.

(** X5. A deleted code is free again: a valid create request with that
    custom code, served after the delete, is answered 201 with a new row that
    starts at no clicks and no last click, whatever the deleted row had -
    provided the insert is one the engine accepts: the URL holds no code
    unit 0 and the sequence behind [id] has not run out. *)
Theorem code_reusable_after_delete (url c : string) (now : Timestamp) (rng : nat -> nat)
  (s : Store) :
  valid (validateUrl url) = true ->
  valid (validateCode c) = true ->
  text_ok url = true ->
  (nextId s <= int4_max)%Z ->
  let s1 := snd (run (DELETE_link c) s) in
  let row := new_link s1 c url now in
  run (POST {| req_targetUrl := url; req_customCode := Some c |} now rng) s1
  = (inr (json (JLink (serializeLink row)) 201), with_row s1 row) /\
  findByCode c (with_row s1 row) = Some row /\
  totalClicks row = 0%Z /\ lastClickedAt row = None /\ targetUrl row = url.
Proof.
  intros Hu Hc Hurl Hn s1 row.
  pose proof (regex_text_ok c (valid_code_regex c Hc)) as Hok.
  assert (findByCode c s1 = None) as Hfree by (apply findByCode_after_DELETE; exact Hok).
  split; [|split; [|repeat split]].
  - rewrite (run_POST_custom url c now rng s1 Hu Hc), Hfree.
    apply insert_outcome_accepted; [exact Hurl|].
    unfold s1. rewrite nextId_after_DELETE. exact Hn.
  - apply findByCode_with_row; [exact Hfree | reflexivity].
Qed.

Lemma last_cons {A : Type} (a : A) (l : list A) (d : A) : last (a :: l) d = last l a.
Proof.
  revert a d. induction l as [|b l IH]; intros a d; [reflexivity|].
  change (last (a :: b :: l) d) with (last (b :: l) d).
  rewrite (IH b d), (IH b a). reflexivity.
Qed.

(** X6. Redirect requests for a code served one after the other, on a table
    in which the rows of that code have room for that many clicks below the
    top of the counter's range: the row keeps its identity, its click count
    is up by the number of requests, its last click is the time of the last
    request, and the lookup route shows exactly that row. *)
Theorem redirects_accumulate (c : string) (times : list Timestamp) :
  forall (s : Store) (l : Link),
  text_ok c = true ->
  findByCode c s = Some l ->
  room_for c (Z.of_nat (List.length times)) s ->
  exists l',
    findByCode c (redirects c times s) = Some l' /\
    same_identity l l' /\
    totalClicks l' = (totalClicks l + Z.of_nat (List.length times))%Z /\
    lastClickedAt l' = last (map Some times) (lastClickedAt l) /\
    run (GET_link c) (redirects c times s)
    = (inr (json (JLink (serializeLink l')) 200), redirects c times s).
Proof.
  induction times as [|t times IH]; intros s l Hc Hl Hroom.
  - exists l. cbn [redirects fold_left List.length map last].
    split; [exact Hl|]. split; [repeat split|]. split; [lia|]. split; [reflexivity|].
    rewrite run_GET_link, Hl by exact Hc. reflexivity.
  - assert (snd (run (GET_redirect c t) s)
            = {| rows := map (click c t) (rows s); nextId := nextId s |}) as Hs1.
    { rewrite run_GET_redirect, Hl by exact Hc.
      rewrite (room_no_overflow c (Z.of_nat (List.length (t :: times))) s)
        by (exact Hroom || (cbn [List.length]; lia)).
      reflexivity. }
    assert (findByCode c (snd (run (GET_redirect c t) s)) = Some (clicked t l)) as H1.
    { rewrite Hs1. apply findByCode_update. exact Hl. }
    assert (room_for c (Z.of_nat (List.length times)) (snd (run (GET_redirect c t) s)))
      as Hroom1.
    { rewrite Hs1. apply room_for_update.
      replace (Z.of_nat (List.length times) + 1)%Z
        with (Z.of_nat (List.length (t :: times))) by (cbn [List.length]; lia).
      exact Hroom. }
    destruct (IH _ _ Hc H1 Hroom1) as [l' [Hl' [Hid [Hn [Hlast Hget]]]]].
    exists l'. change (redirects c (t :: times) s)
      with (redirects c times (snd (run (GET_redirect c t) s))).
    split; [exact Hl'|]. split; [|split; [|split]].
    + eapply same_identity_trans; [|exact Hid]. repeat split.
    + rewrite Hn. cbn [clicked totalClicks List.length]. lia.
    + rewrite Hlast. cbn [clicked lastClickedAt map]. rewrite last_cons. reflexivity.
    + exact Hget.
Qed.

(** ** Rows the routes leave *)

Lemma click_row_ok c now r : row_ok r -> row_ok (click c now r).
Proof.
  unfold row_ok, click. intros [Hc [Hn Hl]].
  destruct (code_eqb c r); [|auto]. cbn [code totalClicks lastClickedAt].
  split; [exact Hc|]. split; [lia|]. split; [discriminate | intros H; lia].
Qed.

Lemma serve_row_ok req now s :
  Forall row_ok (rows s) -> Forall row_ok (rows (snd (serve req now s))).
Proof.
  intros H. unfold serve. destruct req as [request rng| |c|c|c]; cbn [handler].
  - destruct (POST_request_outcome request now rng s)
      as [[resp [-> _]]|[c [url [-> [_ Hc]]]]]; [exact H|].
    cbn [snd with_row rows].
    apply Forall_app. split; [exact H|]. constructor; [|constructor].
    unfold row_ok, new_link. cbn [code totalClicks lastClickedAt].
    split; [exact Hc|]. split; [lia|]. split; reflexivity.
  - rewrite run_GET_links. exact H.
  - destruct (text_ok c) eqn:Hc.
    + rewrite run_GET_link by exact Hc. destruct (findByCode c s); exact H.
    + rewrite run_GET_link_refused by exact Hc. exact H.
  - destruct (text_ok c) eqn:Hc.
    + rewrite rows_after_DELETE by exact Hc. apply Forall_forall. intros r Hin.
      apply filter_In in Hin. rewrite Forall_forall in H. apply H. apply Hin.
    + rewrite run_DELETE_link_refused by exact Hc. exact H.
  - destruct (text_ok c) eqn:Hc.
    + rewrite run_GET_redirect by exact Hc.
      destruct (findByCode c s); cbn [snd rows]; [|exact H].
      destruct (existsb (overflows c) (rows s)); cbn [snd rows]; [exact H|].
      apply Forall_forall. intros r Hin. apply in_map_iff in Hin.
      destruct Hin as [r0 [<- Hin]]. apply click_row_ok.
      rewrite Forall_forall in H. apply H. exact Hin.
    + rewrite run_GET_redirect_refused by exact Hc. exact H.
Qed.

(** X7. Whatever requests are served, one after the other, on a table whose
    rows are well formed, its rows stay well formed: every code has the
    format of a code (6 to 8 characters of A-Za-z0-9, so it passes
    [validateCode]), no click count is negative, and a row has a last click
    exactly when its click count is not 0. *)
Theorem served_rows_stay_well_formed (reqs : list (Request * Timestamp)) :
  forall s : Store,
  Forall row_ok (rows s) ->
  Forall row_ok (rows (serve_all reqs s)) /\
  (forall r, In r (rows (serve_all reqs s)) -> validateCode (code r) = ok_result).
Proof.
  assert (forall s, Forall row_ok (rows s) -> Forall row_ok (rows (serve_all reqs s))) as Hall.
  { induction reqs as [|[req now] reqs IH]; intros s H; [exact H|].
    change (serve_all ((req, now) :: reqs) s)
      with (serve_all reqs (snd (serve req now s))).
    apply IH. apply serve_row_ok. exact H. }
  intros s H. split; [apply Hall; exact H|].
  intros r Hin. apply regex_valid.
  specialize (Hall s H). rewrite Forall_forall in Hall. apply (Hall r Hin).
Qed.
(** ** More interleavings *)

Lemma step_DELETE_link c s :
  text_ok c = true ->
  step (DELETE_link c) s =
  (match findByCode c s with
   | None => Ret (json (JError (Some "Link not found")) 404)
   | Some _ =>
       Await (DeleteWhere c)
         (fun r => try_catch
            (bind (match r with inl e => Throw e | inr v => Ret v end)
                  (fun _ => Ret (json (JDeleted "Link deleted successfully" c) 200)))
            (fun error => Ret (json (JError (Some "Internal server error")) 500)))
   end, s).
Proof.
  intros Hc. unfold DELETE_link. simpl. rewrite exec_select by exact Hc.
  destruct (findByCode c s); reflexivity.
Qed.

Lemma filter_out_twice c (l : list Link) :
  filter (fun r => negb (code_eqb c r)) (filter (fun r => negb (code_eqb c r)) l)
  = filter (fun r => negb (code_eqb c r)) l.
Proof.
  induction l as [|r l IH]; simpl; [reflexivity|].
  destruct (code_eqb c r) eqn:E; simpl; [exact IH|]. rewrite E. simpl. rewrite IH.
  reflexivity.
Qed.

(** X8. Two delete requests for the same existing code (one the engine takes
    as text) whose lookups both run before either removal are both answered
    200: the second removal finds no row and is not noticed.  (Served one
    after the other, the second is answered 404.) *)
Theorem concurrent_deletes_both_succeed (c : string) (s : Store) (l : Link)
  (sched : list nat) :
  text_ok c = true ->
  findByCode c s = Some l ->
  In sched [[0; 1; 0; 1]; [0; 1; 1; 0]; [1; 0; 0; 1]; [1; 0; 1; 0]] ->
  let deleted := json (JDeleted "Link deleted successfully" c) 200 in
  run_schedule sched [DELETE_link c; DELETE_link c] s
  = ([Ret deleted; Ret deleted],
     {| rows := filter (fun r => negb (code_eqb c r)) (rows s); nextId := nextId s |}) /\
  fst (run (DELETE_link c) (snd (run (DELETE_link c) s)))
  = inr (json (JError (Some "Link not found")) 404).
Proof.
  intros Hc Hl Hin deleted. split.
  - assert (forall i pool, nth_error pool i = Some (DELETE_link c) ->
              step_pool i pool s
              = (set_nth i (fst (step (DELETE_link c) s)) pool, s)) as Hlook.
    { intros i pool Hi. unfold step_pool.
      rewrite Hi, step_DELETE_link, Hl by exact Hc. reflexivity. }
    destruct Hin as [<-|[<-|[<-|[<-|[]]]]];
      cbn [run_schedule];
      rewrite Hlook by reflexivity; rewrite step_DELETE_link, Hl by exact Hc;
      cbn [fst set_nth];
      rewrite Hlook by reflexivity; rewrite step_DELETE_link, Hl by exact Hc;
      cbn [fst set_nth];
      unfold step_pool; cbn [nth_error]; rewrite !step_await;
      rewrite !exec_delete by exact Hc.
    all: cbn [fst snd set_nth rows nextId try_catch bind].
    all: rewrite ?step_await; rewrite ?exec_delete by exact Hc.
    all: cbn [fst snd set_nth rows nextId try_catch bind].
    all: rewrite filter_out_twice; reflexivity.
  - pose proof (findByCode_after_DELETE c s Hc) as Hgone.
    rewrite run_DELETE_link, Hgone by exact Hc. reflexivity.
Qed.

(** X9. A create request without a custom code whose first candidate is free
    when the existence check runs and taken when the insert runs (the insert
    being one the engine would otherwise accept): the insert is refused for
    the unique constraint and no row is added; the handler catches the error
    and answers from its message - 409 when the message contains 'unique',
    500 when it does not. *)
Theorem generated_code_taken_before_insert (body : CreateLinkRequest) (now : Timestamp)
  (rng : nat -> nat) (s s2 : Store) :
  Js.truthy_opt (req_customCode body) = false ->
  valid (validateCreateLinkRequest (req_targetUrl body) (req_customCode body)) = true ->
  code_exists (candidate rng 0) s = false ->
  code_exists (candidate rng 0) s2 = true ->
  text_ok (req_targetUrl body) = true ->
  (nextId s2 <= int4_max)%Z ->
  let (t, s1) := step (POST body now rng) s in
  s1 = s /\
  run t s2
  = (inr (if Js.includes
               (error_message
                  (InsertValues (candidate rng 0) (req_targetUrl body) 0%Z None now)
                  UniqueViolation)
               "unique"
          then json (JError (Some "Code already exists")) 409
          else json (JError (Some "Internal server error")) 500),
     {| rows := rows s2; nextId := (nextId s2 + 1)%Z |}).
Proof.
  intros Hcc Hv Hfree Htaken Hu Hn.
  pose proof (candidate_regex rng 0) as R.
  unfold POST, POST_steps. cbv zeta. rewrite Hv, Hcc. cbn [negb].
  unfold generateUniqueShortCode. change (Z.to_nat 3) with 3.
  cbn [generateUniqueShortCode_loop]. unfold checkExists_db, await.
  unfold candidate in *. change (6 * 0) with 0 in *.
  cbn [bind try_catch]. rewrite step_await.
  rewrite exec_select by (apply regex_text_ok; exact R). cbn [fst snd].
  split; [reflexivity|].
  unfold code_exists in Hfree, Htaken.
  destruct (findByCode (generateShortCode rng 0) s) eqn:E; [discriminate Hfree|].
  cbn [List.length Nat.ltb Nat.leb negb bind try_catch].
  cbn [Js.truthy_opt Js.string_of]. rewrite (generateShortCode_truthy rng 0).
  cbn [negb bind try_catch run].
  rewrite exec_insert.
  destruct (findByCode (generateShortCode rng 0) s2) as [l|] eqn:E2; [|discriminate Htaken].
  rewrite (refusal_insert_taken _ _ now s2 l R E2 Hu Hn).
  cbn [after_refusal bind try_catch]. rewrite POST_catch_response. reflexivity.
Qed.

(** ** Listings *)

Lemma insert_by_createdAt_first r l :
  Forall (fun y => (createdAt r < createdAt y)%Z) l ->
  insert_by_createdAt r l = r :: l.
Proof.
  destruct l as [|x l]; [reflexivity|]. intros H. inversion H; subst. simpl.
  unfold sorts_before.
  destruct (Z.ltb_spec (createdAt r) (createdAt x)); [reflexivity | lia].
Qed.

(** Among rows created at different times the order is that of their
    times, whatever the engine does with ties. *)
Lemma filter_insert_by_createdAt (f : Link -> bool) r l :
  StronglySorted created_le l ->
  ~ In (createdAt r) (map createdAt l) ->
  filter f (insert_by_createdAt r l)
  = if f r then insert_by_createdAt r (filter f l) else filter f l.
Proof.
  induction l as [|x l IH]; intros Hs Hnew.
  - simpl. destruct (f r); reflexivity.
  - inversion Hs as [|x' l' Hl Hx]; subst. cbn [insert_by_createdAt].
    assert (createdAt r <> createdAt x) as Hne
      by (intros E; apply Hnew; left; symmetry; exact E).
    assert (~ In (createdAt r) (map createdAt l)) as Hnew'
      by (intros Hin; apply Hnew; right; exact Hin).
    destruct (sorts_before r x) eqn:E.
    + apply sorts_before_le in E.
      cbn [filter]. destruct (f r); [|reflexivity].
      symmetry. apply insert_by_createdAt_first.
      apply Forall_forall. intros y Hy.
      assert (In y (x :: l)) as Hin.
      { change (In y (filter f (x :: l))) in Hy. apply filter_In in Hy. apply Hy. }
      destruct Hin as [<-|Hin]; [lia|].
      rewrite Forall_forall in Hx. specialize (Hx y Hin). unfold created_le in Hx. lia.
    + cbn [filter]. rewrite (IH Hl Hnew'). destruct (f x), (f r); try reflexivity.
      cbn [insert_by_createdAt]. rewrite E. reflexivity.
Qed.

Lemma orderBy_createdAt_filter (f : Link -> bool) l :
  NoDup (map createdAt l) ->
  orderBy_createdAt (filter f l) = filter f (orderBy_createdAt l).
Proof.
  induction l as [|r l IH]; [reflexivity|]. cbn [map filter orderBy_createdAt].
  intros Hnd. inversion Hnd as [|t ts Hnew Hnd']; subst.
  rewrite (filter_insert_by_createdAt f r _ (orderBy_createdAt_sorted l)).
  - destruct (f r); [|apply IH; exact Hnd']. cbn [orderBy_createdAt].
    rewrite IH by exact Hnd'. reflexivity.
  - intros Hin. apply Hnew. eapply Permutation_in; [|exact Hin].
    apply Permutation_map. apply Permutation_sym. apply orderBy_createdAt_perm.
Qed.

Lemma handleLinkDeleted_serialized c l :
  handleLinkDeleted c (serializeLinks l)
  = serializeLinks (filter (fun r => negb (code_eqb c r)) l).
Proof.
  unfold handleLinkDeleted, serializeLinks.
  induction l as [|r l IH]; [reflexivity|]. cbn [map filter].
  change (Serialized.code (serializeLink r)) with (code r).
  unfold code_eqb at 1. destruct (String.eqb (code r) c); cbn [negb map];
    rewrite IH; reflexivity.
Qed.

(** X10. On a table whose rows were all created at different times, after a
    delete request (for a code the engine takes as text) the list route
    returns what it returned before without the entries of the deleted code,
    in the same order; this is the list the dashboard computes locally with
    [handleLinkDeleted], so the dashboard shows what a reload would. *)
Theorem listing_after_delete (c : string) (s : Store) :
  text_ok c = true ->
  NoDup (map createdAt (rows s)) ->
  let s' := snd (run (DELETE_link c) s) in
  listing s' = filter (fun r => negb (code_eqb c r)) (listing s) /\
  run GET_links s'
  = (inr (json (JLinks (handleLinkDeleted c (serializeLinks (listing s)))) 200), s').
Proof.
  intros Hc Hnd s'.
  assert (listing s' = filter (fun r => negb (code_eqb c r)) (listing s)) as Hl.
  { unfold listing, s'. rewrite rows_after_DELETE by exact Hc.
    apply orderBy_createdAt_filter. exact Hnd. }
  split; [exact Hl|].
  rewrite run_GET_links. rewrite handleLinkDeleted_serialized.
  fold (listing s'). rewrite Hl. reflexivity.
Qed.

Lemma insert_by_createdAt_app_last x r l :
  (createdAt x < createdAt r)%Z ->
  insert_by_createdAt x (l ++ [r]) = insert_by_createdAt x l ++ [r].
Proof.
  intros Hlt. induction l as [|y l IH]; simpl.
  - unfold sorts_before.
    destruct (Z.ltb_spec (createdAt x) (createdAt r)); [reflexivity | lia].
  - destruct (sorts_before x y); [reflexivity|]. rewrite IH. reflexivity.
Qed.

Lemma orderBy_createdAt_app_last r l :
  Forall (fun x => (createdAt x < createdAt r)%Z) l ->
  orderBy_createdAt (l ++ [r]) = orderBy_createdAt l ++ [r].
Proof.
  induction 1 as [|x l Hx H IH]; [reflexivity|].
  cbn [app orderBy_createdAt]. rewrite IH. apply insert_by_createdAt_app_last. exact Hx.
Qed.

(** X11. A link created later than every existing one comes last in what the
    list route returns, while the dashboard's [handleLinkCreated] puts it
    first: until it reloads, the dashboard shows the same links as the list
    route in another order. *)
Theorem listing_after_create (s : Store) (r : Link) :
  Forall (fun x => (createdAt x < createdAt r)%Z) (rows s) ->
  listing (with_row s r) = listing s ++ [r] /\
  run GET_links (with_row s r)
  = (inr (json (JLinks (serializeLinks (listing s) ++ [serializeLink r])) 200),
     with_row s r) /\
  handleLinkCreated (serializeLink r) (serializeLinks (listing s))
  = serializeLinks (r :: listing s) /\
  Permutation (r :: listing s) (listing (with_row s r)) /\
  (listing s <> [] -> r :: listing s <> listing (with_row s r)).
Proof.
  intros Hlate.
  assert (listing (with_row s r) = listing s ++ [r]) as Hl
    by (apply orderBy_createdAt_app_last; exact Hlate).
  split; [exact Hl|]. split; [|split; [reflexivity|split]].
  - unfold GET_links. run_query. cbn [run]. fold (listing (with_row s r)).
    rewrite Hl. unfold serializeLinks. rewrite map_app. reflexivity.
  - rewrite Hl. apply Permutation_cons_append.
  - intros Hne Heq. rewrite Hl in Heq.
    assert (forall x, In x (listing s) -> (createdAt x < createdAt r)%Z) as Hlt.
    { intros x Hin. rewrite Forall_forall in Hlate. apply Hlate.
      eapply Permutation_in; [apply Permutation_sym; apply orderBy_createdAt_perm|].
      exact Hin. }
    destruct (listing s) as [|x rest]; [contradiction|].
    cbn [app] in Heq. inversion Heq as [[Hx Hrest]].
    specialize (Hlt x (or_introl eq_refl)). rewrite Hx in Hlt. lia.
Qed.
(** ** Display helpers *)

Lemma string_length_append (s1 s2 : string) :
  String.length (s1 ++ s2)%string = String.length s1 + String.length s2.
Proof. induction s1 as [|c s1 IH]; simpl; [reflexivity | rewrite IH; reflexivity]. Qed.

Lemma string_length_substring0 (s : string) : forall n,
  String.length (String.substring 0 n s) = Nat.min n (String.length s).
Proof.
  induction s as [|c s IH]; intros [|n]; simpl; try reflexivity.
  rewrite IH. reflexivity.
Qed.

Lemma substring0_prefix (s : string) : forall n,
  String.prefix (String.substring 0 n s) s = true.
Proof.
  induction s as [|c s IH]; intros [|n]; simpl; try reflexivity.
  destruct (Ascii.ascii_dec c c) as [_|H]; [apply IH | contradiction].
Qed.

(** X12. [truncateUrl] returns a URL of at most [maxLength] (50 when not
    given) characters as it is, and otherwise its first [maxLength]
    characters followed by three dots: a result of [maxLength + 3]
    characters, which is longer than the URL when the URL exceeds the limit
    by one or two characters.  The links table's own copy computes the same. *)
Theorem truncateUrl_spec (url : string) (maxLength : option Z) :
  let m := match maxLength with Some n => n | None => 50%Z end in
  let cut := String.substring 0 (Z.to_nat m) url in
  ((Z.of_nat (String.length url) <= m)%Z -> truncateUrl url maxLength = url) /\
  ((m < Z.of_nat (String.length url))%Z ->
     truncateUrl url maxLength = (cut ++ "...")%string /\
     String.prefix cut url = true /\
     String.length cut = Z.to_nat m /\
     String.length (truncateUrl url maxLength) = Z.to_nat m + 3 /\
     (String.length url <= Z.to_nat m + 2 ->
      String.length url < String.length (truncateUrl url maxLength))) /\
  LinkTable_truncateUrl url maxLength = truncateUrl url maxLength.
Proof.
  intros m cut. unfold truncateUrl, LinkTable_truncateUrl. fold m. fold cut.
  split; [|split; [|reflexivity]].
  - intros H. apply Z.leb_le in H. rewrite H. reflexivity.
  - intros H. assert ((Z.of_nat (String.length url) <=? m)%Z = false) as ->
      by (apply Z.leb_gt; exact H).
    assert (String.length cut = Z.to_nat m) as Hcut.
    { unfold cut. rewrite string_length_substring0. apply Nat.min_l.
      lia. }
    split; [reflexivity|]. split; [apply substring0_prefix|]. split; [exact Hcut|].
    rewrite string_length_append, Hcut. cbn [String.length].
    split; [reflexivity | lia].
Qed.

Lemma num_lt_spec (v b : Z) : num_lt (Some v) b = (v <? b)%Z.
Proof. reflexivity. Qed.

(** [formatRelativeTime] on a date with a time value, with every count
    computed from the elapsed milliseconds. *)
Lemma formatRelativeTime_elapsed date now t :
  DateArg_falsy date = false -> DateArg_time date = Some t ->
  formatRelativeTime date now =
  let e := (now - t)%Z in
  if (e / 60000 <? 1)%Z then "Just now"
  else if (e / 60000 <? 60)%Z then units_ago (Some (e / 60000)%Z) "minute"
  else if (e / 3600000 <? 24)%Z then units_ago (Some (e / 3600000)%Z) "hour"
  else if (e / 86400000 <? 30)%Z then units_ago (Some (e / 86400000)%Z) "day"
  else if (e / 2592000000 <? 12)%Z then units_ago (Some (e / 2592000000)%Z) "month"
  else units_ago (Some (e / 31104000000)%Z) "year".
Proof.
  clear isURL toISOString toLocaleDateString toLocaleDateString_long.
  intros Hf Ht. unfold formatRelativeTime. rewrite Hf, Ht. cbv zeta.
  cbn [num_elapsed num_floor_div option_map num_lt].
  set (e := (now - t)%Z).
  assert ((e / 1000 <? 60)%Z = (e / 60000 <? 1)%Z) as ->.
  { destruct (Z.ltb_spec (e / 1000) 60), (Z.ltb_spec (e / 60000) 1);
      try reflexivity; exfalso; Z.div_mod_to_equations; lia. }
  replace (e / 1000 / 60)%Z with (e / 60000)%Z by (rewrite Z.div_div by lia; reflexivity).
  replace (e / 60000 / 60)%Z with (e / 3600000)%Z
    by (rewrite Z.div_div by lia; reflexivity).
  replace (e / 3600000 / 24)%Z with (e / 86400000)%Z
    by (rewrite Z.div_div by lia; reflexivity).
  replace (e / 86400000 / 30)%Z with (e / 2592000000)%Z
    by (rewrite Z.div_div by lia; reflexivity).
  replace (e / 2592000000 / 12)%Z with (e / 31104000000)%Z
    by (rewrite Z.div_div by lia; reflexivity).
  reflexivity.
Qed.

(** X13. [formatRelativeTime]: nothing ([null] or the empty string) is
    "Never"; a date less than a minute old, or in the future, is "Just now";
    an older one is shown as a count of whole minutes (below 60), hours
    (below 24), days (below 30), months of 30 days (below 12) or years of 360
    days, the count being at least 1 and in the singular exactly when it is
    1; a date without a time value is shown as "NaN years ago". *)
Theorem formatRelativeTime_spec (date : DateArg) (now : Z) :
  (DateArg_falsy date = true -> formatRelativeTime date now = "Never") /\
  (DateArg_falsy date = false -> DateArg_time date = None ->
     formatRelativeTime date now = "NaN years ago") /\
  (forall t, DateArg_falsy date = false -> DateArg_time date = Some t ->
     let e := (now - t)%Z in
     ((e < 60000)%Z -> formatRelativeTime date now = "Just now") /\
     ((60000 <= e)%Z ->
        exists (n : Z) (unit : string),
          formatRelativeTime date now
          = (NilZero.string_of_int (Z.to_int n) ++ " " ++ unit
             ++ (if (n =? 1)%Z then "" else "s") ++ " ago")%string /\
          (1 <= n)%Z /\
          ((unit = "minute" /\ n = (e / 60000)%Z /\ (n < 60)%Z) \/
           (unit = "hour" /\ n = (e / 3600000)%Z /\ (n < 24)%Z) \/
           (unit = "day" /\ n = (e / 86400000)%Z /\ (n < 30)%Z) \/
           (unit = "month" /\ n = (e / 2592000000)%Z /\ (n < 12)%Z) \/
           (unit = "year" /\ n = (e / 31104000000)%Z)))).
Proof.
  clear isURL toISOString toLocaleDateString toLocaleDateString_long.
  split; [|split].
  - intros Hf. unfold formatRelativeTime. rewrite Hf. reflexivity.
  - intros Hf Ht. unfold formatRelativeTime. rewrite Hf, Ht. reflexivity.
  - intros t Hf Ht e. rewrite (formatRelativeTime_elapsed date now t Hf Ht).
    cbv zeta. fold e. split.
    + intros He. assert ((e / 60000 <? 1)%Z = true) as ->; [|reflexivity].
      apply Z.ltb_lt. Z.div_mod_to_equations. lia.
    + intros He.
      destruct (Z.ltb_spec (e / 60000) 1) as [H0|H0];
        [exfalso; Z.div_mod_to_equations; lia|].
      destruct (Z.ltb_spec (e / 60000) 60) as [H1|H1].
      { exists (e / 60000)%Z, "minute". split; [reflexivity|]. split; [lia|].
        left. repeat split. exact H1. }
      destruct (Z.ltb_spec (e / 3600000) 24) as [H2|H2].
      { exists (e / 3600000)%Z, "hour". split; [reflexivity|].
        split; [Z.div_mod_to_equations; lia|]. right; left. repeat split. exact H2. }
      destruct (Z.ltb_spec (e / 86400000) 30) as [H3|H3].
      { exists (e / 86400000)%Z, "day". split; [reflexivity|].
        split; [Z.div_mod_to_equations; lia|]. right; right; left. repeat split. exact H3. }
      destruct (Z.ltb_spec (e / 2592000000) 12) as [H4|H4].
      { exists (e / 2592000000)%Z, "month". split; [reflexivity|].
        split; [Z.div_mod_to_equations; lia|].
        right; right; right; left. repeat split. exact H4. }
      exists (e / 31104000000)%Z, "year". split; [reflexivity|].
      split; [Z.div_mod_to_equations; lia|]. right; right; right; right. split; reflexivity.
Qed.

(** ** The form's request *)

Lemma trimStart_trimmed s : trimmed_start (Js.trimStart s).
Proof.
  induction s as [|c r IH]; simpl; [exact I|].
  destruct (Js.isWhiteSpace c) eqn:W; [exact IH | exact W].
Qed.

Lemma trimStart_fixed s : trimmed_start s -> Js.trimStart s = s.
Proof. destruct s as [|c r]; simpl; [reflexivity|]. intros ->. reflexivity. Qed.

Lemma trimEnd_trimmed_start s : trimmed_start s -> trimmed_start (Js.trimEnd s).
Proof.
  destruct s as [|c r]; simpl; [exact (fun H => H)|]. intros W.
  destruct (Js.trimEnd r); [rewrite W|]; exact W.
Qed.

Lemma trimEnd_idempotent s : Js.trimEnd (Js.trimEnd s) = Js.trimEnd s.
Proof.
  induction s as [|c r IH]; [reflexivity|]. cbn [Js.trimEnd].
  destruct (Js.trimEnd r) as [|d r'] eqn:E.
  - destruct (Js.isWhiteSpace c) eqn:W; [reflexivity|].
    cbn [Js.trimEnd]. rewrite W. reflexivity.
  - cbn [Js.trimEnd] in *. rewrite IH. reflexivity.
Qed.

Lemma trim_idempotent s : Js.trim (Js.trim s) = Js.trim s.
Proof.
  unfold Js.trim.
  rewrite (trimStart_fixed (Js.trimEnd (Js.trimStart s)))
    by (apply trimEnd_trimmed_start; apply trimStart_trimmed).
  apply trimEnd_idempotent.
Qed.

Lemma trim_truthy_not_blank s : Js.truthy (Js.trim s) = true -> ~ blank (Js.trim s).
Proof.
  intros H Hb. unfold blank in Hb. rewrite trim_idempotent in Hb.
  rewrite Hb in H. discriminate H.
Qed.

(** X15. What the form sends: both fields trimmed, and no custom code at all
    when the field holds only white space, so that the server then generates
    one.  A custom code that is sent is never blank, hence the server never
    answers a submission with "Code is required"; nor with "URL is required"
    when the URL field holds more than white space, which is when the submit
    button is enabled.  White space around either field changes nothing. *)
Theorem AddLinkForm_body_spec (targetUrl customCode : string) :
  let body := AddLinkForm_body targetUrl customCode in
  let validation := validateCreateLinkRequest (req_targetUrl body) (req_customCode body) in
  (blank customCode ->
     req_customCode body = None /\
     validation = validateUrl (Js.trim targetUrl)) /\
  (~ blank customCode ->
     req_customCode body = Some (Js.trim customCode) /\
     ~ blank (Js.trim customCode)) /\
  error validation <> Some msg_code_required /\
  (Js.truthy (Js.trim targetUrl) = true -> error validation <> Some msg_url_required) /\
  AddLinkForm_body (Js.trim targetUrl) (Js.trim customCode) = body.
Proof.
  intros body validation.
  assert (forall c, Js.truthy (Js.trim c) = true ->
                    error (validateCode (Js.trim c)) <> Some msg_code_required) as Hcode.
  { intros c Ht. pose proof (trim_truthy_not_blank c Ht) as Hnb.
    unfold validateCode.
    destruct (negb (Js.truthy (Js.trim c))
              || (String.length (Js.trim (Js.trim c)) =? 0)) eqn:B.
    { apply validateCode_blank_branch in B. contradiction. }
    destruct (negb (codeRegex_test (Js.trim c))); [|discriminate].
    destruct (String.length (Js.trim c) <? 6); [discriminate|].
    destruct (8 <? String.length (Js.trim c)); discriminate. }
  assert (forall u, error (validateUrl u) <> Some msg_code_required) as Hurl.
  { intros u. destruct (validateUrl_cases u) as [H|[H|[H|H]]]; rewrite H; discriminate. }
  unfold validation, body, AddLinkForm_body. cbn [req_targetUrl req_customCode].
  split; [|split; [|split; [|split]]].
  - intros Hb. unfold blank in Hb. rewrite Hb. cbn [Js.truthy]. split; [reflexivity|].
    unfold validateCreateLinkRequest. cbv zeta. cbn [Js.truthy_opt].
    destruct (validateUrl_cases (Js.trim targetUrl)) as [H|[H|[H|H]]]; rewrite H; reflexivity.
  - intros Hnb. assert (Js.truthy (Js.trim customCode) = true) as Ht.
    { unfold blank in Hnb. destruct (Js.trim customCode); [contradiction | reflexivity]. }
    rewrite Ht. split; [reflexivity | apply trim_truthy_not_blank; exact Ht].
  - unfold validateCreateLinkRequest. cbv zeta.
    destruct (negb (valid (validateUrl (Js.trim targetUrl)))); [apply Hurl|].
    destruct (Js.truthy (Js.trim customCode)) eqn:Ht; cbn [Js.truthy_opt Js.string_of].
    + rewrite Ht.
      destruct (negb (valid (validateCode (Js.trim customCode))));
        [apply Hcode; exact Ht | discriminate].
    + discriminate.
  - intros Hu. unfold validateCreateLinkRequest. cbv zeta.
    assert (forall r, valid (validateUrl (Js.trim targetUrl)) = true ->
                      error r <> Some msg_url_required ->
                      error (if negb (valid (validateUrl (Js.trim targetUrl)))
                             then validateUrl (Js.trim targetUrl) else r)
                      <> Some msg_url_required) as Hok
      by (intros r -> Hr; exact Hr).
    assert (error (validateUrl (Js.trim targetUrl)) <> Some msg_url_required) as Hnr.
    { unfold validateUrl.
      destruct (negb (Js.truthy (Js.trim targetUrl))
                || (String.length (Js.trim (Js.trim targetUrl)) =? 0)) eqn:B.
      { apply validateCode_blank_branch in B.
        exfalso. exact (trim_truthy_not_blank targetUrl Hu B). }
      destruct (negb (isURL (Js.trim targetUrl))); [discriminate|].
      destruct (2048 <? String.length (Js.trim targetUrl)); discriminate. }
    destruct (valid (validateUrl (Js.trim targetUrl))) eqn:V; cbn [negb]; [|exact Hnr].
    destruct (Js.truthy_opt (if Js.truthy (Js.trim customCode)
                             then Some (Js.trim customCode) else None)); [|discriminate].
    set (c := Js.string_of _).
    unfold validateCode.
    destruct (negb (Js.truthy c) || (String.length (Js.trim c) =? 0)) eqn:B;
      cbn [valid invalid negb error]; [discriminate|].
    destruct (negb (codeRegex_test c)); [|discriminate].
    destruct (String.length c <? 6); [discriminate|].
    destruct (8 <? String.length c); discriminate.
  - rewrite !trim_idempotent. reflexivity.
Qed.

(** ** Served alone *)

(** X16. Served alone, every request is answered (no handler lets an error
    escape).  An answer 400, 404 or 409 leaves the table exactly as it was,
    and so does a 500, with one exception: a redirect whose target URL [new
    URL] does not parse has counted its click when it answers 500. *)
Theorem served_alone_every_request_is_answered (req : Request) (now : Timestamp)
  (s : Store) :
  exists resp s',
    serve req now s = (inr resp, s') /\
    In (status_of resp) [200; 201; 302; 400; 404; 409; 500]%Z /\
    (In (status_of resp) [400; 404; 409]%Z -> s' = s) /\
    (status_of resp = 500%Z ->
       s' = s \/
       exists c l, req = ResolveAndRedirect c /\ findByCode c s = Some l /\
                   URL_href (targetUrl l) = None /\
                   s' = {| rows := map (click c now) (rows s); nextId := nextId s |}).
Proof.
  assert (forall resp : Response,
            In (status_of resp) [400; 409; 500]%Z ->
            In (status_of resp) [200; 201; 302; 400; 404; 409; 500]%Z) as Hsub.
  { intros resp [E|[E|[E|[]]]]; rewrite <- E; in_list. }
  unfold serve. destruct req as [request rng| |c|c|c]; cbn [handler].
  - destruct (POST_request_outcome request now rng s)
      as [[resp [-> Hin]]|[c [url [-> _]]]].
    + exists resp, s. split; [reflexivity|]. split; [apply Hsub; exact Hin|].
      split; [reflexivity | left; reflexivity].
    + eexists; eexists. split; [reflexivity|]. cbn [status_of].
      split; [in_list|]. split.
      * intros [E|[E|[E|[]]]]; discriminate E.
      * discriminate.
  - rewrite run_GET_links.
    eexists; eexists. split; [reflexivity|]. cbn [status_of].
    split; [in_list|]. split; [reflexivity | discriminate].
  - destruct (text_ok c) eqn:Hc.
    + rewrite run_GET_link by exact Hc. destruct (findByCode c s);
        eexists; eexists; (split; [reflexivity|]); cbn [status_of];
        (split; [in_list|]); (split; [reflexivity | discriminate]).
    + rewrite run_GET_link_refused by exact Hc.
      eexists; eexists. split; [reflexivity|]. cbn [status_of].
      split; [in_list|]. split; [reflexivity | left; reflexivity].
  - destruct (text_ok c) eqn:Hc.
    + rewrite run_DELETE_link by exact Hc. destruct (findByCode c s);
        eexists; eexists; (split; [reflexivity|]); cbn [status_of];
        (split; [in_list|]).
      * split; [|discriminate]. intros [E|[E|[E|[]]]]; discriminate E.
      * split; [reflexivity | discriminate].
    + rewrite run_DELETE_link_refused by exact Hc.
      eexists; eexists. split; [reflexivity|]. cbn [status_of].
      split; [in_list|]. split; [reflexivity | left; reflexivity].
  - destruct (text_ok c) eqn:Hc.
    + rewrite run_GET_redirect by exact Hc. destruct (findByCode c s) as [l|] eqn:Hl.
      * destruct (existsb (overflows c) (rows s)).
        { eexists; eexists. split; [reflexivity|]. cbn [status_of].
          split; [in_list|]. split; [reflexivity | left; reflexivity]. }
        unfold redirect_response. destruct (URL_href (targetUrl l)) as [href|] eqn:Hh;
          eexists; eexists; (split; [reflexivity|]); cbn [status_of];
          (split; [in_list|]).
        -- split; [|discriminate]. intros [E|[E|[E|[]]]]; discriminate E.
        -- split; [intros [E|[E|[E|[]]]]; discriminate E|].
           intros _. right. exists c, l. repeat split; assumption.
      * eexists; eexists. split; [reflexivity|]. cbn [status_of].
        split; [in_list|]. split; [reflexivity | discriminate].
    + rewrite run_GET_redirect_refused by exact Hc.
      eexists; eexists. split; [reflexivity|]. cbn [status_of].
      split; [in_list|]. split; [reflexivity | left; reflexivity].
Qed.

(** X17. A link the create route has answered 201 with is in what the list
    route returns next, together with every link it returned before; it is
    also what the lookup of its code returns. *)
Theorem created_link_is_listed (body : CreateLinkRequest) (now : Timestamp)
  (rng : nat -> nat) (s s1 : Store) (created : Serialized.SerializedLink) :
  run (POST body now rng) s = (inr (json (JLink created) 201), s1) ->
  exists links,
    run GET_links s1 = (inr (json (JLinks links) 200), s1) /\
    In created links /\
    (forall x, In x (serializeLinks (listing s)) -> In x links) /\
    List.length links = S (List.length (rows s)) /\
    run (GET_link (Serialized.code created)) s1 = (inr (json (JLink created) 200), s1).
Proof.
  intros Hrun.
  destruct (POST_created body now rng s _ s1 Hrun eq_refl)
    as [c [Hresp [Hs1 [Hfree [Hregex _]]]]].
  inversion Hresp as [Hcreated]. clear Hresp.
  set (row := new_link s c (req_targetUrl body) now) in *.
  assert (Permutation (row :: listing s) (listing s1)) as Hperm.
  { unfold listing. rewrite Hs1. cbn [with_row rows].
    eapply perm_trans; [|apply orderBy_createdAt_perm].
    eapply perm_trans; [apply perm_skip; apply Permutation_sym; apply orderBy_createdAt_perm|].
    apply Permutation_cons_append. }
  exists (serializeLinks (listing s1)). split; [|split; [|split; [|split]]].
  - apply run_GET_links.
  - unfold serializeLinks. apply in_map.
    eapply Permutation_in; [exact Hperm | left; reflexivity].
  - intros x Hx. unfold serializeLinks in *. apply in_map_iff in Hx.
    destruct Hx as [r [<- Hr]]. apply in_map.
    eapply Permutation_in; [exact Hperm | right; exact Hr].
  - unfold serializeLinks. rewrite length_map.
    rewrite <- (Permutation_length Hperm). cbn [List.length]. f_equal.
    unfold listing. symmetry. apply Permutation_length. apply orderBy_createdAt_perm.
  - change (Serialized.code (serializeLink row)) with c.
    rewrite run_GET_link by (apply regex_text_ok; exact Hregex). rewrite Hs1.
    rewrite (findByCode_with_row c s row Hfree eq_refl). reflexivity.
Qed.


End Service.
Transparent exec.

(** ** Sample runs

    The samples run on a driver that hands on the engine's own messages
    ([engine_error_message]) unless they say otherwise. *)

(** C1, as first stated, fails: the link is deleted after the redirect
    request has looked it up and before it increments; the request is
    answered with a 302 to the target URL it read, not with 404, while the
    table no longer holds the code. *)
Lemma redirect_after_concurrent_delete_is_not_404 :
  let (pool', s') :=
    run_schedule engine_error_message example_tie_first [0; 1; 1; 0]
      [GET_redirect example_URL_href "abc123" 2000; DELETE_link "abc123"]
      example_store in
  map finished pool' =
    [Some (redirect "https://example.com/" 302);
     Some (json (JDeleted "Link deleted successfully" "abc123") 200)] /\
  findByCode "abc123" s' = None /\
  ~ (forall resp, nth_error (map finished pool') 0 = Some (Some resp) ->
                  status_of resp = 404%Z).
Proof.
  vm_compute. split; [reflexivity|]. split; [reflexivity|].
  intros H. specialize (H _ eq_refl). discriminate H.
Qed.

Lemma redirect_not_found_at_lookup_witness :
  text_ok "nolink" = true /\
  findByCode "nolink" example_store = None /\
  run engine_error_message example_tie_first
    (GET_redirect example_URL_href "nolink" 2000) example_store
  = (inr (text "Not Found" 404), example_store) /\
  findByCode "abc123" example_store = Some example_link /\
  findByCode "abc123" empty_store = None /\
  run engine_error_message example_tie_first
    (fst (step engine_error_message example_tie_first
            (GET_redirect example_URL_href "abc123" 2000) example_store))
    empty_store
  = (inr (redirect "https://example.com/" 302), empty_store).
Proof.
  pose proof (redirect_not_found_at_lookup engine_error_message example_tie_first
                example_URL_href "nolink" 2000 example_store) as [Ha _].
  pose proof (redirect_not_found_at_lookup engine_error_message example_tie_first
                example_URL_href "abc123" 2000 example_store) as [_ [_ [Hc _]]].
  assert (text_ok "nolink" = true) as H0 by reflexivity.
  assert (findByCode "nolink" example_store = None) as H1 by reflexivity.
  assert (findByCode "abc123" example_store = Some example_link) as H2 by reflexivity.
  assert (findByCode "abc123" empty_store = None) as H3 by reflexivity.
  specialize (Ha H0 H1). specialize (Hc example_link empty_store eq_refl H2 H3).
  destruct (step engine_error_message example_tie_first
              (GET_redirect example_URL_href "abc123" 2000) example_store) as [t s1].
  destruct Hc as [_ Hc].
  repeat split; assumption.
Defined.



(** The read-then-write redirect of the route's closing comment does lose a
    click: two requests read the count 0, and both write 1. *)
Example read_then_write_loses_a_click :
  let (pool', s') :=
    run_schedule engine_error_message example_tie_first [0; 1; 0; 1]
      [GET_redirect_read_then_write example_URL_href "abc123" 10;
       GET_redirect_read_then_write example_URL_href "abc123" 20]
      example_store in
  map finished pool' = [Some (redirect "https://example.com/" 302);
                        Some (redirect "https://example.com/" 302)] /\
  option_map totalClicks (findByCode "abc123" s') = Some 1%Z.
Proof. vm_compute. split; reflexivity. Qed.



(** The same race on a driver that hands on the engine's message, which
    contains 'unique': the second request is answered 409. *)
Example same_custom_code_race :
  map finished
    (fst (run_schedule engine_error_message example_tie_first [0; 1; 0; 1]
            (create_requests example_isURL example_toISOString "newcode"
               [("https://a.example", 10%Z, example_rng);
                ("https://b.example", 20%Z, example_rng)])
            example_store))
  = [Some (json (JLink (serializeLink example_toISOString
                          {| id := 2; code := "newcode"; targetUrl := "https://a.example";
                             totalClicks := 0; lastClickedAt := None; createdAt := 10 |}))
                201);
     Some conflict_response].
Proof. vm_compute. reflexivity. Qed.

Lemma redirect_counts_one_click_witness :
  fst (serve engine_error_message example_tie_first example_isURL example_toISOString
         example_URL_href (ResolveAndRedirect "abc123") 2000 example_store)
  = inr (redirect "https://example.com/" 302) /\
  findByCode "abc123"
    (snd (serve engine_error_message example_tie_first example_isURL
            example_toISOString example_URL_href (ResolveAndRedirect "abc123") 2000
            example_store))
  = Some (clicked 2000 example_link).
Proof.
  assert (fst (serve engine_error_message example_tie_first example_isURL
                 example_toISOString example_URL_href (ResolveAndRedirect "abc123")
                 2000 example_store)
          = inr (redirect "https://example.com/" 302)) as H1 by reflexivity.
  split; [exact H1|].
  pose proof (redirect_counts_one_click engine_error_message example_tie_first
                example_isURL example_toISOString example_URL_href
                (ResolveAndRedirect "abc123") 2000 example_store) as [W _].
  destruct (W "abc123" _ eq_refl H1 eq_refl) as [l [href [Hl [_ [_ [Hs' _]]]]]].
  rewrite Hs'. f_equal. f_equal.
  assert (findByCode "abc123" example_store = Some example_link) as H2 by reflexivity.
  rewrite H2 in Hl. inversion Hl. reflexivity.
Defined.

Lemma generateUniqueShortCode_first_free_witness :
  Js.truthy_opt None = false /\
  valid (validateCreateLinkRequest example_isURL "https://example.com" None) = true /\
  (forall k, k < 3 -> code_exists (candidate example_rng k) crowded_store = true) /\
  run engine_error_message example_tie_first
    (POST example_isURL example_toISOString
       {| req_targetUrl := "https://example.com"; req_customCode := None |}
       5000 example_rng) crowded_store
  = (inr exhausted_response, crowded_store).
Proof.
  assert (valid (validateCreateLinkRequest example_isURL "https://example.com" None) = true)
    as Hv by reflexivity.
  assert (forall k, k < 3 -> code_exists (candidate example_rng k) crowded_store = true)
    as Hall by (intros [|[|[|k]]] Hk; try reflexivity; lia).
  split; [reflexivity|]. split; [exact Hv|]. split; [exact Hall|].
  pose proof (generateUniqueShortCode_first_free engine_error_message example_tie_first
                example_isURL example_toISOString
                (fun _ => true) None example_rng crowded_store) as [_ [W _]].
  apply (W {| req_targetUrl := "https://example.com"; req_customCode := None |} 5000%Z
           eq_refl Hv Hall).
Defined.

Lemma generated_code_witness :
  run engine_error_message example_tie_first
    (generateUniqueShortCode (fun c => Ret (String.eqb c "ABCDEF")) None example_rng)
    empty_store = (inr (Some "GHIJKL"), empty_store) /\
  String.length "GHIJKL" = 6.
Proof.
  assert (run engine_error_message example_tie_first
            (generateUniqueShortCode (fun c => Ret (String.eqb c "ABCDEF")) None
               example_rng) empty_store = (inr (Some "GHIJKL"), empty_store)) as Hrun
    by reflexivity.
  split; [exact Hrun|].
  pose proof (generated_code_six_alphanumeric engine_error_message example_tie_first
                example_rng 0) as [_ [_ [_ [_ [_ W]]]]].
  exact (proj1 (W _ _ _ _ _ Hrun)).
Defined.

(** C8, as first stated, fails: the pair is valid, but a link holds the code
    already; Create is answered 409, and the Get that follows returns the
    older link, whose target URL is not the one supplied. *)
Lemma create_on_taken_code_then_get :
  valid (validateUrl example_isURL "https://example.org/page") = true /\
  valid (validateCode "abc123") = true /\
  run engine_error_message example_tie_first
    (POST example_isURL example_toISOString
       {| req_targetUrl := "https://example.org/page"; req_customCode := Some "abc123" |}
       3000 example_rng) example_store
  = (inr conflict_response, example_store) /\
  run engine_error_message example_tie_first
    (GET_link example_toISOString "abc123") example_store
  = (inr (json (JLink (serializeLink example_toISOString example_link)) 200),
     example_store) /\
  Serialized.targetUrl (serializeLink example_toISOString example_link)
  <> "https://example.org/page".
Proof.
  split; [reflexivity|]. split; [reflexivity|]. split; [reflexivity|].
  split; [reflexivity|]. discriminate.
Qed.

Lemma create_then_get_witness :
  valid (validateUrl example_isURL "https://example.org/page") = true /\
  valid (validateCode "MyLink99") = true /\
  exists l s1,
    run engine_error_message example_tie_first
      (POST example_isURL example_toISOString
         {| req_targetUrl := "https://example.org/page";
            req_customCode := Some "MyLink99" |}
         3000 example_rng) example_store
    = (inr (json (JLink (serializeLink example_toISOString l)) 201), s1) /\
    run engine_error_message example_tie_first
      (GET_link example_toISOString "MyLink99") s1
    = (inr (json (JLink (serializeLink example_toISOString l)) 200), s1) /\
    targetUrl l = "https://example.org/page" /\ totalClicks l = 0%Z /\
    lastClickedAt l = None.
Proof.
  assert (valid (validateUrl example_isURL "https://example.org/page") = true) as Hu
    by reflexivity.
  assert (valid (validateCode "MyLink99") = true) as Hc by reflexivity.
  split; [exact Hu|]. split; [exact Hc|].
  assert (run engine_error_message example_tie_first
            (POST example_isURL example_toISOString
               {| req_targetUrl := "https://example.org/page";
                  req_customCode := Some "MyLink99" |}
               3000 example_rng) example_store
          = (inr (json (JLink (serializeLink example_toISOString
                                 (new_link example_store "MyLink99"
                                    "https://example.org/page" 3000))) 201),
             with_row example_store
               (new_link example_store "MyLink99" "https://example.org/page" 3000)))
    as Hrun by reflexivity.
  pose proof (create_then_get engine_error_message example_tie_first example_isURL
                example_toISOString
                "https://example.org/page" "MyLink99" 3000%Z example_rng example_store
                Hu Hc) as [W _].
  destruct (W _ _ Hrun eq_refl) as [l [H1 [H2 [_ [H4 [H5 [H6 _]]]]]]].
  exists l. eexists. split; [|split; [exact H2|]].
  - rewrite Hrun, H1. reflexivity.
  - repeat split; assumption.
Defined.

Lemma empty_custom_code_witness :
  exists k, k < 3 /\
    String.length (candidate example_rng k) = 6 /\
    run engine_error_message example_tie_first
      (POST example_isURL example_toISOString
         {| req_targetUrl := "https://example.com"; req_customCode := Some EmptyString |}
         3000 example_rng) example_store
    = (inr (json (JLink (serializeLink example_toISOString
                           (new_link example_store (candidate example_rng k)
                              "https://example.com" 3000)))
                 201),
       with_row example_store
         (new_link example_store (candidate example_rng k) "https://example.com" 3000)).
Proof.
  pose proof (empty_custom_code_is_absent engine_error_message example_tie_first
                example_isURL example_toISOString
                "https://example.com" 3000%Z example_rng example_store)
    as [_ [_ [_ [W _]]]].
  destruct (W _ _ eq_refl eq_refl) as [k [Hk [Hfree [Hlen [Hresp Hs1]]]]].
  exists k. split; [exact Hk|]. split; [exact Hlen|].
  rewrite <- Hresp, <- Hs1. reflexivity.
Defined.

Lemma POST_invalid_request_witness :
  valid (validateCreateLinkRequest example_isURL "ftp://example.com" (Some "abc123")) = false /\
  run engine_error_message example_tie_first
    (POST example_isURL example_toISOString
       {| req_targetUrl := "ftp://example.com"; req_customCode := Some "abc123" |}
       10 example_rng) example_store
  = (inr (json (JError (Some msg_url_format)) 400), example_store).
Proof.
  assert (valid (validateCreateLinkRequest example_isURL "ftp://example.com"
                   (Some "abc123")) = false) as Hv by reflexivity.
  split; [exact Hv|].
  destruct (POST_invalid_request engine_error_message example_tie_first
              example_isURL example_toISOString
              {| req_targetUrl := "ftp://example.com"; req_customCode := Some "abc123" |}
              10%Z example_rng Hv) as [msg [Hmsg [_ [_ Hrun]]]].
  rewrite Hrun. inversion Hmsg; subst. reflexivity.
Defined.

Lemma delete_removes_the_code_witness :
  text_ok "abc123" = true /\
  findByCode "abc123"
    (snd (run engine_error_message example_tie_first (DELETE_link "abc123")
            example_store)) = None /\
  fst (run engine_error_message example_tie_first (DELETE_link "abc123") example_store)
  = inr (json (JDeleted "Link deleted successfully" "abc123") 200).
Proof.
  assert (text_ok "abc123" = true) as H0 by reflexivity.
  split; [exact H0|].
  destruct (delete_removes_the_code engine_error_message example_tie_first
              example_toISOString "abc123" example_store H0) as [_ [W2 [W3 _]]].
  split; [exact W3|]. apply W2. discriminate.
Defined.

Lemma code_reusable_after_delete_witness :
  valid (validateUrl example_isURL "https://example.org") = true /\
  valid (validateCode "abc123") = true /\
  text_ok "https://example.org" = true /\
  (2 <= int4_max)%Z /\
  fst (run engine_error_message example_tie_first
         (POST example_isURL example_toISOString
            {| req_targetUrl := "https://example.org"; req_customCode := Some "abc123" |}
            3000 example_rng)
         (snd (run engine_error_message example_tie_first (DELETE_link "abc123")
                 {| rows := [clicked 2000 example_link]; nextId := 2 |})))
  = inr (json (JLink (serializeLink example_toISOString
                        {| id := 2; code := "abc123"; targetUrl := "https://example.org";
                           totalClicks := 0; lastClickedAt := None; createdAt := 3000 |}))
              201).
Proof.
  assert (valid (validateUrl example_isURL "https://example.org") = true) as Hu
    by reflexivity.
  assert (valid (validateCode "abc123") = true) as Hc by reflexivity.
  assert (text_ok "https://example.org" = true) as Ht by reflexivity.
  assert (2 <= int4_max)%Z as Hn by (vm_compute; discriminate).
  split; [exact Hu|]. split; [exact Hc|]. split; [exact Ht|]. split; [exact Hn|].
  destruct (code_reusable_after_delete engine_error_message example_tie_first
              example_isURL example_toISOString
              "https://example.org" "abc123" 3000%Z example_rng
              {| rows := [clicked 2000 example_link]; nextId := 2 |} Hu Hc Ht Hn)
    as [W _].
  rewrite W. reflexivity.
Defined.

Lemma redirects_accumulate_witness :
  text_ok "abc123" = true /\
  findByCode "abc123" example_store = Some example_link /\
  room_for "abc123" 3 example_store /\
  exists l',
    findByCode "abc123"
      (redirects engine_error_message example_tie_first example_URL_href
         "abc123" [10; 20; 30]%Z example_store) = Some l' /\
    totalClicks l' = 3%Z /\ lastClickedAt l' = Some 30%Z.
Proof.
  assert (text_ok "abc123" = true) as H0 by reflexivity.
  assert (findByCode "abc123" example_store = Some example_link) as H1 by reflexivity.
  assert (room_for "abc123" 3 example_store) as Hr.
  { constructor; [|constructor]. intros _. vm_compute. discriminate. }
  split; [exact H0|]. split; [exact H1|]. split; [exact Hr|].
  destruct (redirects_accumulate engine_error_message example_tie_first
              example_toISOString example_URL_href "abc123" [10; 20; 30]%Z
              example_store example_link H0 H1 Hr) as [l' [Hl [_ [Hn [Hlast _]]]]].
  exists l'. split; [exact Hl|]. split; [exact Hn | exact Hlast].
Defined.

Lemma served_rows_stay_well_formed_witness :
  Forall row_ok (rows empty_store) /\
  Forall row_ok
    (rows (serve_all engine_error_message example_tie_first example_isURL
             example_toISOString example_URL_href
             [(CreateLink (JsonValue (JsString "https://example.com") JsUndefined)
                 example_rng, 10%Z);
              (ResolveAndRedirect "ABCDEF", 20%Z);
              (CreateLink (JsonValue (JsNumber 7) JsNull) example_rng, 25%Z);
              (DeleteLink "nolink", 30%Z)]
             empty_store)).
Proof.
  assert (Forall row_ok (rows empty_store)) as H0 by constructor.
  split; [exact H0|].
  apply (served_rows_stay_well_formed engine_error_message example_tie_first
           example_isURL example_toISOString example_URL_href _ empty_store H0).
Defined.

Lemma concurrent_deletes_both_succeed_witness :
  text_ok "abc123" = true /\
  findByCode "abc123" example_store = Some example_link /\
  In [0; 1; 1; 0] [[0; 1; 0; 1]; [0; 1; 1; 0]; [1; 0; 0; 1]; [1; 0; 1; 0]] /\
  map finished
    (fst (run_schedule engine_error_message example_tie_first [0; 1; 1; 0]
            [DELETE_link "abc123"; DELETE_link "abc123"] example_store))
  = [Some (json (JDeleted "Link deleted successfully" "abc123") 200);
     Some (json (JDeleted "Link deleted successfully" "abc123") 200)].
Proof.
  assert (text_ok "abc123" = true) as H0 by reflexivity.
  assert (findByCode "abc123" example_store = Some example_link) as H1 by reflexivity.
  assert (In [0; 1; 1; 0] [[0; 1; 0; 1]; [0; 1; 1; 0]; [1; 0; 0; 1]; [1; 0; 1; 0]]) as H2
    by (right; left; reflexivity).
  split; [exact H0|]. split; [exact H1|]. split; [exact H2|].
  destruct (concurrent_deletes_both_succeed engine_error_message example_tie_first
              "abc123" example_store example_link [0; 1; 1; 0] H0 H1 H2) as [W _].
  rewrite W. reflexivity.
Defined.

Lemma generated_code_taken_before_insert_witness :
  Js.truthy_opt None = false /\
  valid (validateCreateLinkRequest example_isURL "https://example.com" None) = true /\
  code_exists (candidate example_rng 0) example_store = false /\
  code_exists (candidate example_rng 0) crowded_store = true /\
  text_ok "https://example.com" = true /\
  (nextId crowded_store <= int4_max)%Z /\
  fst (run wrapped_error_message example_tie_first
         (fst (step wrapped_error_message example_tie_first
                 (POST example_isURL example_toISOString
                    {| req_targetUrl := "https://example.com";
                       req_customCode := None |} 10 example_rng)
                 example_store))
         crowded_store)
  = inr server_error_response.
Proof.
  assert (valid (validateCreateLinkRequest example_isURL "https://example.com" None) = true)
    as Hv by reflexivity.
  assert (code_exists (candidate example_rng 0) example_store = false) as Hf by reflexivity.
  assert (code_exists (candidate example_rng 0) crowded_store = true) as Ht by reflexivity.
  assert (text_ok "https://example.com" = true) as Hu by reflexivity.
  assert (nextId crowded_store <= int4_max)%Z as Hn by (vm_compute; discriminate).
  split; [reflexivity|]. split; [exact Hv|]. split; [exact Hf|]. split; [exact Ht|].
  split; [exact Hu|]. split; [exact Hn|].
  pose proof (generated_code_taken_before_insert wrapped_error_message example_tie_first
                example_isURL example_toISOString
                {| req_targetUrl := "https://example.com"; req_customCode := None |}
                10%Z example_rng example_store crowded_store eq_refl Hv Hf Ht Hu Hn) as W.
  destruct (step wrapped_error_message example_tie_first _ example_store) as [t s1].
  destruct W as [_ W].
  cbn [fst]. rewrite W. reflexivity.
Defined.

Lemma listing_after_delete_witness :
  text_ok "GHIJKL" = true /\
  NoDup (map createdAt (rows crowded_store)) /\
  map code
    (listing example_tie_first
       (snd (run engine_error_message example_tie_first (DELETE_link "GHIJKL")
               crowded_store)))
  = ["ABCDEF"; "MNOPQR"].
Proof.
  assert (text_ok "GHIJKL" = true) as H0 by reflexivity.
  assert (NoDup (map createdAt (rows crowded_store))) as H1.
  { repeat constructor; simpl; intros H;
      repeat (destruct H as [H|H]; [discriminate H|]); exact H. }
  split; [exact H0|]. split; [exact H1|].
  destruct (listing_after_delete engine_error_message example_tie_first
              example_toISOString "GHIJKL" crowded_store H0 H1) as [W _].
  rewrite W. reflexivity.
Defined.

Lemma listing_after_create_witness :
  Forall (fun x => (createdAt x < 5000)%Z) (rows example_store) /\
  listing example_tie_first
    (with_row example_store
       (new_link example_store "MyLink99" "https://example.org" 5000))
  = [example_link; new_link example_store "MyLink99" "https://example.org" 5000].
Proof.
  assert (Forall (fun x => (createdAt x < 5000)%Z) (rows example_store)) as H
    by (repeat constructor).
  split; [exact H|].
  destruct (listing_after_create engine_error_message example_tie_first
              example_toISOString example_store
              (new_link example_store "MyLink99" "https://example.org" 5000) H)
    as [W _].
  rewrite W. reflexivity.
Defined.


Lemma created_link_is_listed_witness :
  exists created s1 links,
    run engine_error_message example_tie_first
      (POST example_isURL example_toISOString
         {| req_targetUrl := "https://example.org"; req_customCode := Some "MyLink99" |}
         5000 example_rng) example_store
    = (inr (json (JLink created) 201), s1) /\
    run engine_error_message example_tie_first (GET_links example_toISOString) s1
    = (inr (json (JLinks links) 200), s1) /\
    In created links /\ List.length links = 2.
Proof.
  eexists; eexists.
  assert (run engine_error_message example_tie_first
            (POST example_isURL example_toISOString
               {| req_targetUrl := "https://example.org";
                  req_customCode := Some "MyLink99" |} 5000 example_rng) example_store
          = (inr (json (JLink (serializeLink example_toISOString
                                 (new_link example_store "MyLink99"
                                    "https://example.org" 5000))) 201),
             with_row example_store
               (new_link example_store "MyLink99" "https://example.org" 5000))) as Hrun
    by reflexivity.
  destruct (created_link_is_listed engine_error_message example_tie_first
              example_isURL example_toISOString _ _ _ _ _ _ Hrun)
    as [links [Hlist [Hin [_ [Hlen _]]]]].
  exists links. split; [exact Hrun|]. split; [exact Hlist|]. split; [exact Hin | exact Hlen].
Defined.

(** What the engine refuses, and what the routes answer then: a target URL
    that holds code unit 0 passes validation and is refused by the insert; a
    link whose target URL [new URL] does not parse has its click counted
    before the redirect fails; a code that holds code unit 0 is refused at
    the lookup. *)
Example refused_statements :
  run engine_error_message example_tie_first
    (POST example_isURL example_toISOString
       {| req_targetUrl := String.append "https://example.org/"
                             (String Ascii.zero EmptyString);
          req_customCode := Some "MyLink99" |}
       3000 example_rng) example_store
  = (inr server_error_response, example_store) /\
  (let s := {| rows := [ {| id := 1; code := "abc123"; targetUrl := "http://xn--a.com";
                            totalClicks := 0; lastClickedAt := None;
                            createdAt := 1000 |} ];
               nextId := 2 |} in
   let (resp, s') := run engine_error_message example_tie_first
                       (GET_redirect example_URL_href "abc123" 2000) s in
   resp = inr (text "Internal Server Error" 500) /\
   option_map totalClicks (findByCode "abc123" s') = Some 1%Z) /\
  fst (run engine_error_message example_tie_first
         (DELETE_link (String Ascii.zero "abc123")) example_store)
  = inr (json (JError (Some "Internal server error")) 500).
Proof. vm_compute. repeat split. Qed.

(** Sample outputs of the display helpers. *)
Example formatRelativeTime_samples :
  formatRelativeTime example_Date_parse (DateObj (Some 0%Z)) 59999 = "Just now" /\
  formatRelativeTime example_Date_parse (DateObj (Some 0%Z)) 60000 = "1 minute ago" /\
  formatRelativeTime example_Date_parse (DateObj (Some 0%Z)) 7200000 = "2 hours ago" /\
  formatRelativeTime example_Date_parse (DateObj (Some 0%Z)) 31104000000 = "1 year ago" /\
  formatRelativeTime example_Date_parse (DateObj (Some 5000%Z)) 0 = "Just now" /\
  formatRelativeTime example_Date_parse (DateStr "yesterday") 0 = "NaN years ago" /\
  truncateUrl "https://example.com" (Some 17%Z) = "https://example.c..." /\
  truncateUrl "https://example.com" None = "https://example.com".
Proof. vm_compute. repeat split. Qed.
